(** * The document ingestion pipeline: [app/text_extraction.py] and
      [app/file_service.py]

    A shallow embedding of [TextExtractor] and [FileService] and the
    properties of the upload / processing / reconciliation pipeline.

    Conventions of the embedding.
    - A Python [str] is a [string]; one character of the model stands for one
      code point, so [String.length] is Python's [len].  The raw bytes of a
      stored file are a [string] too.
    - A Python [int] that may be negative is a [Z]; the one floating-point
      computation, [max_length * 0.7], is carried out on integers as IEEE 754
      prescribes for doubles.
    - A call that may raise is an [outcome]: [Return v] or [Raise e].
    - Code that mutates an object and may raise half way runs in the monad
      [M S], a state monad whose state survives a raise, as the attributes of
      a Python object do when an exception leaves a [try] block.
    - Functions of third-party packages (PyPDF2, python-docx, the [csv] and
      [pathlib] modules, [secure_filename], codecs, SHA-256) are the fields of
      the class [Libs]; every theorem holds for every instance. *)

From Stdlib Require Import ZArith Ascii String List Lia DecimalString.
From stdpp Require Import gmap strings list fin_maps.

Set Warnings "-abstract-large-number".

Import ListNotations.

(** ** Python values and exceptions *)

Inductive exn : Type :=
| HTTPException (status_code : Z) (detail : string)
| UnicodeDecodeError (msg : string)
| OSError (msg : string)
| Exception (msg : string).

(** [str(e)] *)
Definition str_exn (e : exn) : string :=
  match e with
  | HTTPException c d => NilZero.string_of_int (Z.to_int c) +:+ ": " +:+ d
  | UnicodeDecodeError m | OSError m | Exception m => m
  end.

(** [isinstance(e, UnicodeDecodeError)] *)
Definition is_UnicodeDecodeError (e : exn) : bool :=
  match e with UnicodeDecodeError _ => true | _ => false end.

Inductive outcome (A : Type) : Type :=
| Return (a : A)
| Raise (e : exn).
Arguments Return {A} a.
Arguments Raise {A} e.

(** JSON-like values held in a record's [metadata] mapping. *)
Inductive value : Type :=
| VNone
| VInt (z : Z)
| VStr (s : string).

(** ** Python string operations used by the source *)

Module Py.

Definition NL : string := String "010"%char EmptyString.

(** [len(s)] *)
Definition len (s : string) : nat := String.length s.

(** [s[:n]] *)
Definition slice_to (n : nat) (s : string) : string := String.substring 0 n s.

(** [sep.join(parts)] *)
Definition join (sep : string) (parts : list string) : string :=
  String.concat sep parts.

(** [s.startswith(p)] *)
Definition startswith (p s : string) : bool := String.prefix p s.

(** [sub in s] *)
Fixpoint contains (sub s : string) : bool :=
  String.prefix sub s ||
  match s with
  | EmptyString => false
  | String _ r => contains sub r
  end.

(** Truthiness of a [str]. *)
Definition truthy (s : string) : bool :=
  match s with EmptyString => false | _ => true end.

(** [str.isspace] on one code point below 256. *)
Definition is_space (c : ascii) : bool :=
  let n := nat_of_ascii c in
  ((9 <=? n) && (n <=? 13)) || ((28 <=? n) && (n <=? 32))
  || (n =? 133) || (n =? 160).

(** [s.lstrip(c)] for a one-character argument. *)
Fixpoint lstrip_char (c : ascii) (s : string) : string :=
  match s with
  | EmptyString => EmptyString
  | String a r => if Ascii.eqb a c then lstrip_char c r else s
  end.

Fixpoint lstrip (s : string) : string :=
  match s with
  | EmptyString => EmptyString
  | String a r => if is_space a then lstrip r else s
  end.

Fixpoint rstrip (s : string) : string :=
  match s with
  | EmptyString => EmptyString
  | String a r =>
      match rstrip r with
      | EmptyString => if is_space a then EmptyString else String a EmptyString
      | r' => String a r'
      end
  end.

(** [s.strip()] *)
Definition strip (s : string) : string := rstrip (lstrip s).

(** [s.replace(old, new)] for a non-empty [old]: occurrences are replaced
    from the left and do not overlap.  [skip] counts the characters of an
    occurrence that are still to be passed over. *)
Fixpoint replace_from (old new : string) (skip : nat) (s : string) : string :=
  match s with
  | EmptyString => EmptyString
  | String a r =>
      match skip with
      | S k => replace_from old new k r
      | O =>
          if String.prefix old s
          then new +:+ replace_from old new (String.length old - 1) r
          else String a (replace_from old new 0 r)
      end
  end.

Definition replace (old new s : string) : string := replace_from old new 0 s.

(** [s.split(c)] for a one-character separator. *)
Fixpoint split (c : ascii) (s : string) : list string :=
  match s with
  | EmptyString => [EmptyString]
  | String a r =>
      if Ascii.eqb a c then EmptyString :: split c r
      else match split c r with
           | h :: t => String a h :: t
           | [] => [String a EmptyString]
           end
  end.

(** [str(n)] for a non-negative [int]. *)
Definition str_nat (n : nat) : string := NilEmpty.string_of_uint (Nat.to_uint n).

(** [str(z)] *)
Definition str_int (z : Z) : string := NilZero.string_of_int (Z.to_int z).

(** The text before the first [c] and the text after it, when [c] occurs. *)
Fixpoint span_until (c : ascii) (s : string) : option (string * string) :=
  match s with
  | EmptyString => None
  | String a r =>
      if Ascii.eqb a c then Some (EmptyString, r)
      else match span_until c r with
           | Some (b, rest) => Some (String a b, rest)
           | None => None
           end
  end.

(** One match of the regular expression [\[([^\]]+)\]\([^)]+\)] at the start
    of [String "[" s]: the captured group and the length of the match.  The
    two classes exclude the character that must follow them, so the greedy
    repetitions have a single way to match. *)
Definition match_link (s : string) : option (string * nat) :=
  match span_until "]"%char s with
  | Some (String t ts, String "("%char after) =>
      match span_until ")"%char after with
      | Some (String u us, _) =>
          Some (String t ts,
                1 + String.length (String t ts) + 2 + String.length (String u us) + 1)
      | _ => None
      end
  | _ => None
  end.

(** [re.sub(r'\[([^\]]+)\]\([^)]+\)', r'\1', s)]: leftmost matches, not
    overlapping. *)
Fixpoint re_sub_link_from (skip : nat) (s : string) : string :=
  match s with
  | EmptyString => EmptyString
  | String a r =>
      match skip with
      | S k => re_sub_link_from k r
      | O =>
          if Ascii.eqb a "["%char then
            match match_link r with
            | Some (text, n) => text +:+ re_sub_link_from (n - 1) r
            | None => String a (re_sub_link_from 0 r)
            end
          else String a (re_sub_link_from 0 r)
      end
  end.

Definition re_sub_link (s : string) : string := re_sub_link_from 0 s.

End Py.

(** ** Third-party functions *)

(** What the packages imported by the two modules compute.  A file's raw
    bytes go in; a call that can raise yields an [outcome].  A PDF page and a
    CSV row are produced lazily by the real libraries, so a page or a row can
    raise on its own, after earlier ones were delivered. *)
Class Libs : Type := {
  (** [f.read()] on a file opened with [encoding='utf-8'] *)
  decode_utf8 : string -> outcome string;
  (** [f.read()] on a file opened with [encoding='latin-1'] *)
  decode_latin1 : string -> string;
  (** [f.read(n)] on a file opened with [encoding='utf-8'] *)
  read_utf8 : nat -> string -> outcome string;
  (** [PdfReader(path).pages] with [page.extract_text()] of each page *)
  PdfReader_pages : string -> outcome (list (outcome string));
  (** [Document(path).paragraphs] with [paragraph.text] of each paragraph *)
  Document_paragraphs : string -> outcome (list string);
  (** [csv.Sniffer().sniff(sample).delimiter] *)
  csv_sniff_delimiter : string -> outcome string;
  (** [csv.reader(csvfile, delimiter=d)] over the file, decoded as UTF-8 *)
  csv_reader : string -> string -> list (outcome (list string));
  (** [secure_filename(name)] *)
  secure_filename : string -> string;
  (** [Path(name).suffix] *)
  path_suffix : string -> string;
  (** [s.lower()] *)
  str_lower : string -> string;
  (** [hashlib.sha256(data).hexdigest()] *)
  sha256_hexdigest : string -> string;
  (** [AudioProcessor().get_metadata(path)]; the module
      [app/audio_processing.py] is a collaborator that is not embedded here *)
  AudioProcessor_get_metadata : string -> outcome (gmap string value)
}.

(** ** [app/text_extraction.py] *)

Record TextExtractor : Type := { max_text_length : nat }.

(** [TextExtractor.__init__] *)
Definition TextExtractor_init : TextExtractor := {| max_text_length := 50000 |}.

(** [content[:self.max_text_length] if len(content) > self.max_text_length
    else content] *)
Definition bounded (self : TextExtractor) (content : string) : string :=
  if max_text_length self <? Py.len content
  then Py.slice_to (max_text_length self) content
  else content.

(** The loop that [_extract_from_pdf], [_extract_from_docx] and
    [_extract_from_csv] each spell out: an item either contributes a part
    ([Some]) or is skipped ([None]); after every item the parts are joined
    and, when the length exceeds the limit, the loop returns the prefix at
    once.  The last line is the [return] after the loop. *)
Fixpoint accumulate (self : TextExtractor) (text_parts : list string)
    (items : list (outcome (option string))) : outcome string :=
  match items with
  | [] => Return (Py.join Py.NL text_parts)
  | Raise e :: _ => Raise e
  | Return part :: rest =>
      let text_parts :=
        match part with Some t => text_parts ++ [t] | None => text_parts end in
      let combined_text := Py.join Py.NL text_parts in
      if max_text_length self <? Py.len combined_text
      then Return (Py.slice_to (max_text_length self) combined_text)
      else accumulate self text_parts rest
  end.

(** The body of a [try: ... except Exception: return None]. *)
Definition or_None {A : Type} (o : outcome A) : option A :=
  match o with Return a => Some a | Raise _ => None end.

(** The line the CSV loop appends for row [row_num]. *)
Definition csv_line (row_num : nat) (row : list string) : string :=
  if Nat.eqb row_num 0
  then "Headers: " +:+ Py.join ", " row
  else "Row " +:+ Py.str_nat row_num +:+ ": " +:+ Py.join ", " row.

(** What the loop of [_clean_markdown] does with one line: [Some] is the line
    appended to [cleaned_lines], [None] is [continue]. *)
Definition clean_line (line : string) : option string :=
  if Py.startswith "#" line then
    Some (Py.strip (Py.lstrip_char "#"%char line))
  else if Py.startswith "```" line then
    None
  else if Py.contains "`" line then
    Some (Py.replace "`" EmptyString line)
  else if Py.contains "**" line || Py.contains "*" line then
    Some (Py.replace "*" EmptyString (Py.replace "**" EmptyString line))
  else if Py.contains "[" line && Py.contains "]" line then
    Some (Py.re_sub_link line)
  else
    Some line.

Definition _clean_markdown (content : string) : string :=
  let lines := Py.split "010"%char content in
  let cleaned_lines := omap clean_line lines in
  Py.join Py.NL cleaned_lines.

Section TextExtraction.
Context `{Libs}.

(** Opening [file_path] for reading: the bytes stored there. *)
Definition open_file (disk : gmap string string) (file_path : string)
    : outcome string :=
  match disk !! file_path with
  | Some bytes => Return bytes
  | None => Raise (OSError ("No such file or directory: " +:+ file_path))
  end.

Definition pdf_item (page : outcome string) : outcome (option string) :=
  match page with
  | Return text => Return (if Py.truthy text then Some text else None)
  | Raise e => Raise e
  end.

Definition _extract_from_pdf (self : TextExtractor)
    (disk : gmap string string) (file_path : string) : option string :=
  or_None
    match open_file disk file_path with
    | Raise e => Raise e
    | Return bytes =>
        match PdfReader_pages bytes with
        | Raise e => Raise e
        | Return pages => accumulate self [] (map pdf_item pages)
        end
    end.

Definition docx_item (text : string) : outcome (option string) :=
  Return (if Py.truthy (Py.strip text) then Some text else None).

Definition _extract_from_docx (self : TextExtractor)
    (disk : gmap string string) (file_path : string) : option string :=
  or_None
    match open_file disk file_path with
    | Raise e => Raise e
    | Return bytes =>
        match Document_paragraphs bytes with
        | Raise e => Raise e
        | Return paragraphs => accumulate self [] (map docx_item paragraphs)
        end
    end.

Definition _extract_from_txt (self : TextExtractor)
    (disk : gmap string string) (file_path : string) : option string :=
  match open_file disk file_path with
  | Raise e => None
  | Return bytes =>
      match decode_utf8 bytes with
      | Return content => Some (bounded self content)
      | Raise e =>
          if is_UnicodeDecodeError e then
            (* Try with different encoding *)
            or_None
              match open_file disk file_path with
              | Raise e' => Raise e'
              | Return bytes' => Return (bounded self (decode_latin1 bytes'))
              end
          else None
      end
  end.

Definition csv_item (row_num : nat) (row : outcome (list string))
    : outcome (option string) :=
  match row with
  | Return cells => Return (Some (csv_line row_num cells))
  | Raise e => Raise e
  end.

Definition _extract_from_csv (self : TextExtractor)
    (disk : gmap string string) (file_path : string) : option string :=
  or_None
    match open_file disk file_path with
    | Raise e => Raise e
    | Return bytes =>
        (* Try to detect delimiter *)
        match read_utf8 1024 bytes with
        | Raise e => Raise e
        | Return sample =>
            match csv_sniff_delimiter sample with
            | Raise e => Raise e
            | Return delimiter =>
                let reader := csv_reader delimiter bytes in
                accumulate self [] (imap csv_item reader)
            end
        end
    end.

Definition _extract_from_markdown (self : TextExtractor)
    (disk : gmap string string) (file_path : string) : option string :=
  or_None
    match open_file disk file_path with
    | Raise e => Raise e
    | Return bytes =>
        match decode_utf8 bytes with
        | Raise e => Raise e
        | Return content =>
            let processed_content := _clean_markdown content in
            Return (bounded self processed_content)
        end
    end.

(** [extract_text]: every branch is one of the functions above, none of
    which raises, so the enclosing [try] has nothing to catch. *)
Definition extract_text (self : TextExtractor) (disk : gmap string string)
    (file_path mime_type : string) : option string :=
  if decide (mime_type = "application/pdf") then
    _extract_from_pdf self disk file_path
  else if decide (mime_type =
      "application/vnd.openxmlformats-officedocument.wordprocessingml.document") then
    _extract_from_docx self disk file_path
  else if decide (mime_type = "text/plain") then
    _extract_from_txt self disk file_path
  else if decide (mime_type = "text/csv") then
    _extract_from_csv self disk file_path
  else if decide (mime_type = "text/markdown") then
    _extract_from_markdown self disk file_path
  else
    (* Try to read as plain text *)
    _extract_from_txt self disk file_path.

End TextExtraction.

(** ** What an extractor attempts before its [except] *)

Section Attempts.
Context `{Libs}.

(** The code under the [try] of [_extract_from_txt], with the second
    attempt that its [except UnicodeDecodeError] makes: the outcome is
    [Raise] when an error reaches one of the two [except Exception]. *)
Definition txt_attempt (self : TextExtractor) (disk : gmap string string)
    (file_path : string) : outcome string :=
  match open_file disk file_path with
  | Raise e => Raise e
  | Return bytes =>
      match decode_utf8 bytes with
      | Return content => Return (bounded self content)
      | Raise e =>
          if is_UnicodeDecodeError e then
            (* Try with different encoding *)
            match open_file disk file_path with
            | Raise e' => Raise e'
            | Return bytes' => Return (bounded self (decode_latin1 bytes'))
            end
          else Raise e
      end
  end.

(** The code under the [try] of the extractor that [extract_text] selects
    for [mime_type]: [Return] is the text the extractor returns, [Raise] is
    the error that its [except Exception] catches. *)
Definition extraction_attempt (self : TextExtractor)
    (disk : gmap string string) (file_path mime_type : string)
    : outcome string :=
  if decide (mime_type = "application/pdf") then
    match open_file disk file_path with
    | Raise e => Raise e
    | Return bytes =>
        match PdfReader_pages bytes with
        | Raise e => Raise e
        | Return pages => accumulate self [] (map pdf_item pages)
        end
    end
  else if decide (mime_type =
      "application/vnd.openxmlformats-officedocument.wordprocessingml.document") then
    match open_file disk file_path with
    | Raise e => Raise e
    | Return bytes =>
        match Document_paragraphs bytes with
        | Raise e => Raise e
        | Return paragraphs => accumulate self [] (map docx_item paragraphs)
        end
    end
  else if decide (mime_type = "text/plain") then
    txt_attempt self disk file_path
  else if decide (mime_type = "text/csv") then
    match open_file disk file_path with
    | Raise e => Raise e
    | Return bytes =>
        match read_utf8 1024 bytes with
        | Raise e => Raise e
        | Return sample =>
            match csv_sniff_delimiter sample with
            | Raise e => Raise e
            | Return delimiter =>
                accumulate self [] (imap csv_item (csv_reader delimiter bytes))
            end
        end
    end
  else if decide (mime_type = "text/markdown") then
    match open_file disk file_path with
    | Raise e => Raise e
    | Return bytes =>
        match decode_utf8 bytes with
        | Raise e => Raise e
        | Return content => Return (bounded self (_clean_markdown content))
        end
    end
  else
    txt_attempt self disk file_path.

End Attempts.

(** ** Raising computations over a mutable state *)

(** A computation on a state [S] that returns or raises; the state reached
    at a raise is kept, so an [except] handler sees every assignment made
    before the exception. *)
Definition M (S A : Type) : Type := S -> outcome A * S.

Definition ret {S A : Type} (a : A) : M S A := fun s => (Return a, s).

Definition raise {S A : Type} (e : exn) : M S A := fun s => (Raise e, s).

Definition bind {S A B : Type} (m : M S A) (k : A -> M S B) : M S B :=
  fun s =>
    match m s with
    | (Return a, s') => k a s'
    | (Raise e, s') => (Raise e, s')
    end.

(** [try: body except Exception as e: handler e] *)
Definition try_except {S A : Type} (body : M S A) (handler : exn -> M S A)
    : M S A :=
  fun s =>
    match body s with
    | (Return a, s') => (Return a, s')
    | (Raise e, s') => handler e s'
    end.

(** A call whose outcome does not depend on the state. *)
Definition call {S A : Type} (o : outcome A) : M S A := fun s => (o, s).

Definition get {S : Type} : M S S := fun s => (Return s, s).

Definition modify {S : Type} (f : S -> S) : M S unit := fun s => (Return tt, f s).

Global Instance M_ret (S : Type) : MRet (M S) := fun A a => ret a.
Global Instance M_bind (S : Type) : MBind (M S) := fun A B k m => bind m k.

(** ** [app/file_service.py] *)

(** The [UploadFile] handed over by the web framework: the name and the size
    the client declared, and the bytes [file.read()] delivers. *)
Record UploadFile : Type := {
  upload_filename : option string;
  upload_size : option Z;
  upload_content : string
}.

(** Modelled from the spec: the [File] model class, which [app/models.py]
    does not define.  The record has the attributes that [upload_file]
    passes to the constructor and that [process_file] reads and assigns,
    with the generated [id] of the specification's FileRecord. *)
Record File : Type := {
  id : string;
  filename : string;
  original_filename : string;
  file_path : string;
  file_size : Z;
  mime_type : string;
  file_type : string;
  uploaded_by : string;
  project_id : option string;
  task_id : option string;
  metadata : gmap string value;
  processing_status : string;
  extracted_text : option string
}.

Definition set_processing_status (v : string) (r : File) : File :=
  {| id := id r; filename := filename r; original_filename := original_filename r;
     file_path := file_path r; file_size := file_size r; mime_type := mime_type r;
     file_type := file_type r; uploaded_by := uploaded_by r;
     project_id := project_id r; task_id := task_id r; metadata := metadata r;
     processing_status := v; extracted_text := extracted_text r |}.

Definition set_metadata (v : gmap string value) (r : File) : File :=
  {| id := id r; filename := filename r; original_filename := original_filename r;
     file_path := file_path r; file_size := file_size r; mime_type := mime_type r;
     file_type := file_type r; uploaded_by := uploaded_by r;
     project_id := project_id r; task_id := task_id r; metadata := v;
     processing_status := processing_status r; extracted_text := extracted_text r |}.

Definition set_extracted_text (v : option string) (r : File) : File :=
  {| id := id r; filename := filename r; original_filename := original_filename r;
     file_path := file_path r; file_size := file_size r; mime_type := mime_type r;
     file_type := file_type r; uploaded_by := uploaded_by r;
     project_id := project_id r; task_id := task_id r; metadata := metadata r;
     processing_status := processing_status r; extracted_text := v |}.

(** The blob store and the record store.  [disk] holds the files under the
    upload directory, by path; [rows] holds the committed rows, by id;
    [journal] lists every committed state of a row in the order of the
    commits. *)
Record World : Type := {
  disk : gmap string string;
  rows : gmap string File;
  journal : list File
}.

Definition set_disk (d : gmap string string) (w : World) : World :=
  {| disk := d; rows := rows w; journal := journal w |}.

(** What the environment decides during one call: the fresh identifiers and
    the outcome of each call that touches the file system or the database. *)
Record Env : Type := {
  (** [uuid.uuid4()] in [save_file] *)
  uuid4 : string;
  (** the primary key given to the new row *)
  row_id : string;
  (** [magic.from_file(file_path, mime=True)] *)
  magic_from_file : outcome string;
  (** an error while [_calculate_file_hash] reads the file *)
  hash_read_error : option exn;
  (** [db.add], [db.commit], [db.refresh] in [upload_file] *)
  commit_created : outcome unit;
  (** the three [db.commit()] of [process_file], in source order *)
  commit_processing : outcome unit;
  commit_completed : outcome unit;
  commit_failed : outcome unit;
  (** an [OSError] of [os.remove(path)] *)
  remove_error : string -> option exn
}.

(** The object in [self.text_extractor], seen through its one method
    [extract_text(file_path, mime_type)] and the files it can read. *)
Definition Extractor : Type :=
  gmap string string -> string -> string -> outcome (option string).

(** [upload_dir] is [str(Path(upload_dir))], the directory as [pathlib]
    prints it. *)
Record FileService : Type := {
  upload_dir : string;
  text_extractor : Extractor;
  audio_processor : string -> outcome (gmap string value);
  allowed_extensions : list (string * list string);
  max_file_size : Z
}.

(** The dictionary [validate_file] returns. *)
Record Validation : Type := {
  v_secure_filename : string;
  v_file_type : string;
  v_extension : string
}.

(** The dictionary [get_file_metadata] returns; [md_error] is the key
    ['error'], present in the fallback only. *)
Record FileMetadata : Type := {
  md_mime_type : string;
  md_file_size : Z;
  md_hash : option string;
  md_error : option string
}.

(** [FileMetadata] as the mapping stored in [File.metadata]. *)
Definition metadata_dict (m : FileMetadata) : gmap string value :=
  let base : gmap string value :=
    <["mime_type" := VStr (md_mime_type m)]>
      (<["file_size" := VInt (md_file_size m)]>
         (<["hash" := match md_hash m with Some h => VStr h | None => VNone end]> ∅)) in
  match md_error m with
  | Some e => <["error" := VStr e]> base
  | None => base
  end.

(** [for file_type, extensions in items: if ext in extensions: return
    file_type] *)
Fixpoint first_category (ext : string) (items : list (string * list string))
    : option string :=
  match items with
  | [] => None
  | (file_type, extensions) :: rest =>
      if bool_decide (ext ∈ extensions) then Some file_type
      else first_category ext rest
  end.

(** [for extensions in values: all_allowed.extend(extensions)] *)
Definition all_allowed_of (items : list (string * list string)) : list string :=
  concat (map snd items).

Definition pending : string := "pending".
Definition processing : string := "processing".
Definition completed : string := "completed".
Definition failed : string := "failed".

Section Service.
Context `{Libs}.

(** The extractor [FileService.__init__] installs: [TextExtractor()]. *)
Definition shipped_extractor : Extractor :=
  fun disk file_path mime_type =>
    Return (extract_text TextExtractor_init disk file_path mime_type).

(** [FileService.__init__] *)
Definition FileService_init (upload_dir : string) : FileService :=
  {| upload_dir := upload_dir;
     text_extractor := shipped_extractor;
     audio_processor := AudioProcessor_get_metadata;
     allowed_extensions :=
       [ ("document", [".pdf"; ".docx"; ".txt"; ".csv"; ".md"]);
         ("audio", [".mp3"; ".wav"; ".m4a"]);
         ("image", [".jpg"; ".jpeg"; ".png"; ".gif"]);
         ("other", [".zip"; ".json"; ".xml"]) ];
     max_file_size := 50 * 1024 * 1024 |}.

Definition get_file_type (self : FileService) (filename : string) : string :=
  let ext := str_lower (path_suffix filename) in
  match first_category ext (allowed_extensions self) with
  | Some file_type => file_type
  | None => "other"
  end.

Definition validate_file (self : FileService) (file : UploadFile)
    : outcome Validation :=
  match upload_filename file with
  | None | Some EmptyString =>
      Raise (HTTPException 400 "No filename provided")
  | Some name =>
      (* Check file size *)
      if match upload_size file with
         | Some size => negb (size =? 0)%Z && (max_file_size self <? size)%Z
         | None => false
         end
      then
        Raise (HTTPException 413
                 ("File too large. Maximum size is "
                  +:+ Py.str_int (max_file_size self / (1024 * 1024)) +:+ "MB"))
      else
        (* Secure filename *)
        let secure_name := secure_filename name in
        if negb (Py.truthy secure_name) then
          Raise (HTTPException 400 "Invalid filename")
        else
          (* Check allowed extensions *)
          let file_type := get_file_type self secure_name in
          let ext := str_lower (path_suffix secure_name) in
          let all_allowed := all_allowed_of (allowed_extensions self) in
          if negb (bool_decide (ext ∈ all_allowed)) then
            Raise (HTTPException 415
                     ("File type not allowed. Supported: "
                      +:+ Py.join ", " all_allowed))
          else
            Return {| v_secure_filename := secure_name;
                      v_file_type := file_type;
                      v_extension := ext |}
  end.

(** The path [save_file] writes to: the upload directory, then a fresh
    token followed by the suffix of the name as submitted. *)
Definition stored_path (self : FileService) (env : Env) (file : UploadFile)
    : string :=
  let unique_filename :=
    uuid4 env +:+ path_suffix (default EmptyString (upload_filename file)) in
  upload_dir self +:+ "/" +:+ unique_filename.

Definition save_file (self : FileService) (env : Env) (file : UploadFile)
    : M World string :=
  let file_path := stored_path self env file in
  modify (fun w => set_disk (<[file_path := upload_content file]> (disk w)) w) ;;
  ret file_path.

(** [os.path.getsize(file_path)] *)
Definition getsize (w : World) (file_path : string) : outcome Z :=
  match disk w !! file_path with
  | Some bytes => Return (Z.of_nat (String.length bytes))
  | None => Raise (OSError ("No such file or directory: " +:+ file_path))
  end.

Definition _calculate_file_hash (env : Env) (w : World) (file_path : string)
    : outcome string :=
  match disk w !! file_path with
  | None => Raise (OSError ("No such file or directory: " +:+ file_path))
  | Some bytes =>
      match hash_read_error env with
      | Some e => Raise e
      | None => Return (sha256_hexdigest bytes)
      end
  end.

Definition get_file_metadata (env : Env) (w : World) (file_path : string)
    : FileMetadata :=
  let attempt : outcome FileMetadata :=
    match magic_from_file env with
    | Raise e => Raise e
    | Return mime_type =>
        match getsize w file_path with
        | Raise e => Raise e
        | Return file_size =>
            match _calculate_file_hash env w file_path with
            | Raise e => Raise e
            | Return h =>
                Return {| md_mime_type := mime_type; md_file_size := file_size;
                          md_hash := Some h; md_error := None |}
            end
        end
    end in
  match attempt with
  | Return m => m
  | Raise e =>
      {| md_mime_type := "application/octet-stream";
         md_file_size :=
           match disk w !! file_path with
           | Some bytes => Z.of_nat (String.length bytes)
           | None => 0
           end;
         md_hash := None;
         md_error := Some (str_exn e) |}
  end.

(** The record [upload_file] builds with [File(...)]. *)
Definition new_record (env : Env) (file : UploadFile)
    (validation_result : Validation) (file_path : string)
    (metadata : FileMetadata) (uploaded_by : string)
    (project_id task_id : option string) : File :=
  {| id := row_id env;
     filename := v_secure_filename validation_result;
     original_filename := default EmptyString (upload_filename file);
     file_path := file_path;
     file_size := md_file_size metadata;
     mime_type := md_mime_type metadata;
     file_type := v_file_type validation_result;
     uploaded_by := uploaded_by;
     project_id := project_id;
     task_id := task_id;
     metadata := metadata_dict metadata;
     processing_status := pending;
     extracted_text := None |}.

(** [db.commit()] with the session holding [file_record]: on success the
    row takes the record's current attributes. *)
Definition commit (o : outcome unit) : M (File * World) unit :=
  fun '(file_record, w) =>
    match o with
    | Return _ =>
        (Return tt,
         (file_record,
          {| disk := disk w;
             rows := <[id file_record := file_record]> (rows w);
             journal := journal w ++ [file_record] |}))
    | Raise e => (Raise e, (file_record, w))
    end.

(** An assignment to an attribute of [file_record]. *)
Definition assign (f : File -> File) : M (File * World) unit :=
  modify (fun '(file_record, w) => (f file_record, w)).

Definition process_file (self : FileService) (env : Env)
    : M (File * World) unit :=
  (try_except
     (assign (set_processing_status processing) ;;
      commit (commit_processing env) ;;
      st ← get;
      let '(file_record, w) := st in
      extracted_text ←
        (if decide (file_type file_record = "document") then
           call (text_extractor self (disk w) (file_path file_record)
                   (mime_type file_record))
         else if decide (file_type file_record = "audio") then
           audio_metadata ←
             call (audio_processor self (file_path file_record));
           assign (fun r => set_metadata (audio_metadata ∪ metadata r) r) ;;
           ret None
         else ret None);
      match extracted_text with
      | Some text =>
          if Py.truthy text then assign (set_extracted_text (Some text))
          else ret tt
      | None => ret tt
      end ;;
      assign (set_processing_status completed) ;;
      commit (commit_completed env))
     (fun e =>
        assign (set_processing_status failed) ;;
        assign (fun r =>
                  set_metadata
                    (<["processing_error" := VStr (str_exn e)]> (metadata r)) r) ;;
        commit (commit_failed env))).

(** [os.remove(path)] *)
Definition os_remove (env : Env) (path : string) : M World unit :=
  fun w =>
    match remove_error env path with
    | Some e => (Raise e, w)
    | None => (Return tt, set_disk (delete path (disk w)) w)
    end.

(** Runs a computation on a record and the world from the world alone and
    hands back the record as the computation left it. *)
Definition with_record {A : Type} (file_record : File)
    (m : M (File * World) A) : M World File :=
  fun w =>
    match m (file_record, w) with
    | (Return _, (r, w')) => (Return r, w')
    | (Raise e, (_, w')) => (Raise e, w')
    end.

Definition upload_file (self : FileService) (env : Env) (file : UploadFile)
    (uploaded_by : string) (project_id task_id : option string)
    : M World File :=
  ((* Validate file *)
   validation_result ← call (validate_file self file);
   (* Save file to disk *)
   file_path ← save_file self env file;
   try_except
     (w ← get;
      (* Get file metadata *)
      let metadata := get_file_metadata env w file_path in
      (* Create file record *)
      let file_record :=
        new_record env file validation_result file_path metadata
          uploaded_by project_id task_id in
      with_record file_record
        (commit (commit_created env) ;;
         (* Process file asynchronously *)
         process_file self env))
     (fun e =>
        (* Clean up file if database operation fails *)
        w ← get;
        (if bool_decide (is_Some (disk w !! file_path))
         then os_remove env file_path else ret tt) ;;
        raise (HTTPException 500 ("File upload failed: " +:+ str_exn e)))).

(** [for file_path in orphaned_files: try: os.remove(file_path) except
    OSError: pass] *)
Fixpoint remove_all (env : Env) (orphaned_files : list string)
    (d : gmap string string) : gmap string string :=
  match orphaned_files with
  | [] => d
  | file_path :: rest =>
      match remove_error env file_path with
      | Some _ => remove_all env rest d
      | None => remove_all env rest (delete file_path d)
      end
  end.

Definition cleanup_orphaned_files (env : Env) (w : World) : nat * World :=
  let db_files : gset string :=
    list_to_set (file_path <$> (snd <$> map_to_list (rows w))) in
  let disk_files : gset string := dom (disk w) in
  let orphaned_files := disk_files ∖ db_files in
  (size orphaned_files,
   set_disk (remove_all env (elements orphaned_files) (disk w)) w).

End Service.

(** ** A small instance of [Libs]

    Enough of the third-party functions to run the definitions on concrete
    ASCII inputs: a PDF is a list of pages separated by form feeds, a DOCX a
    list of paragraphs separated by newlines, CSV fields are never quoted.
    The theorems do not depend on it. *)
Module Reference.

Definition is_ascii (s : string) : bool :=
  forallb (fun c => nat_of_ascii c <? 128) (list_ascii_of_string s).

Definition decode_utf8 (bytes : string) : outcome string :=
  if is_ascii bytes then Return bytes
  else Raise (UnicodeDecodeError "'utf-8' codec can't decode byte").

Definition read_utf8 (n : nat) (bytes : string) : outcome string :=
  let head := Py.slice_to n bytes in
  if is_ascii head then Return head
  else Raise (UnicodeDecodeError "'utf-8' codec can't decode byte").

Definition PdfReader_pages (bytes : string) : outcome (list (outcome string)) :=
  if Py.startswith "%PDF" bytes
  then Return (map Return (Py.split "012"%char (String.substring 4 (String.length bytes) bytes)))
  else Raise (Exception "EOF marker not found").

Definition Document_paragraphs (bytes : string) : outcome (list string) :=
  if Py.startswith "PK" bytes
  then Return (Py.split "010"%char (String.substring 2 (String.length bytes) bytes))
  else Raise (Exception "File is not a zip file").

(** The first of the sniffer's preferred delimiters that occurs. *)
Definition csv_sniff_delimiter (sample : string) : outcome string :=
  match filter (fun d => Py.contains d sample) [","; String "009"%char EmptyString; ";"; " "; ":"] with
  | d :: _ => Return d
  | [] => Raise (Exception "Could not determine delimiter")
  end.

Definition drop_last_empty (lines : list string) : list string :=
  match rev lines with
  | EmptyString :: r => rev r
  | _ => lines
  end.

Definition csv_reader (delimiter bytes : string) : list (outcome (list string)) :=
  match delimiter with
  | String d _ =>
      map (fun line =>
             if is_ascii line
             then Return (if Py.truthy line then Py.split d line else [])
             else Raise (UnicodeDecodeError "'utf-8' codec can't decode byte"))
          (drop_last_empty (Py.split "010"%char bytes))
  | EmptyString => [Raise (Exception "delimiter must be a 1-character string")]
  end.

Definition safe_char (c : ascii) : bool :=
  let n := nat_of_ascii c in
  ((48 <=? n) && (n <=? 57)) || ((65 <=? n) && (n <=? 90))
  || ((97 <=? n) && (n <=? 122)) || (n =? 46) || (n =? 45) || (n =? 95).

Definition secure_filename (name : string) : string :=
  Py.lstrip_char "."%char
    (string_of_list_ascii (filter (fun c => safe_char c) (list_ascii_of_string name))).

(** The last [.] of [name] and what follows it, when the dot is neither
    the first nor the last character. *)
Fixpoint last_dot (name : string) : option string :=
  match name with
  | EmptyString => None
  | String a r =>
      match last_dot r with
      | Some s => Some s
      | None =>
          if Ascii.eqb a "."%char
          then (if Py.truthy r then Some name else None)
          else None
      end
  end.

Definition path_suffix (name : string) : string :=
  let base := List.last (Py.split "/"%char name) EmptyString in
  match base with
  | EmptyString => EmptyString
  | String a r => default EmptyString (last_dot r)
  end.

Definition lower_char (c : ascii) : ascii :=
  let n := nat_of_ascii c in
  if (65 <=? n) && (n <=? 90) then ascii_of_nat (n + 32) else c.

Definition str_lower (s : string) : string :=
  string_of_list_ascii (map lower_char (list_ascii_of_string s)).

(** A stand-in for the digest: any function of the bytes will do. *)
Definition sha256_hexdigest (bytes : string) : string :=
  Py.str_nat (String.length bytes).

Definition AudioProcessor_get_metadata (path : string)
    : outcome (gmap string value) :=
  Return (<["duration" := VInt 0]> ∅).

Definition libs : Libs :=
  Build_Libs decode_utf8 (fun bytes => bytes) read_utf8 PdfReader_pages
    Document_paragraphs csv_sniff_delimiter csv_reader secure_filename
    path_suffix str_lower sha256_hexdigest AudioProcessor_get_metadata.

End Reference.

(** ** What the extractors return when the limit never triggers

    Each is the value of the last [return] of its extractor:
    ['\n'.join(text_parts)] after the loop, or the whole content. *)

Definition pdf_full_text (page_texts : list string) : string :=
  Py.join Py.NL (List.filter Py.truthy page_texts).

Definition docx_full_text (paragraphs : list string) : string :=
  Py.join Py.NL (List.filter (fun text => Py.truthy (Py.strip text)) paragraphs).

Definition csv_full_text (rows : list (list string)) : string :=
  Py.join Py.NL (imap csv_line rows).

(** [result] is [full] cut at [limit] characters. *)
Definition cut_at (limit : nat) (full result : string) : Prop :=
  (limit < Py.len full ->
   Py.len result = limit /\ String.prefix result full = true)
  /\ (Py.len full <= limit -> result = full).

(** A line of the CSV rendering as the specification words it: the cells
    joined by the detected delimiter (followed by a space, as in the
    specification's own example). *)
Definition spec_csv_line (delimiter : string) (row_num : nat)
    (row : list string) : string :=
  if Nat.eqb row_num 0
  then "Headers: " +:+ Py.join (delimiter +:+ " ") row
  else "Row " +:+ Py.str_nat row_num +:+ ": " +:+ Py.join (delimiter +:+ " ") row.

(** [n] copies of [c]. *)
Fixpoint str_repeat (c : ascii) (n : nat) : string :=
  match n with
  | O => EmptyString
  | S k => String c (str_repeat c k)
  end.

(** ** The stages of an accepted upload *)

Section Stages.
Context `{Libs}.

(** The world once [save_file] has written the blob. *)
Definition saved (self : FileService) (env : Env) (file : UploadFile)
    (w : World) : World :=
  set_disk (<[stored_path self env file := upload_content file]> (disk w)) w.

(** The record [upload_file] creates, in state [pending]. *)
Definition created_record (self : FileService) (env : Env)
    (file : UploadFile) (v : Validation) (uploaded_by : string)
    (project_id task_id : option string) (w : World) : File :=
  new_record env file v (stored_path self env file)
    (get_file_metadata env (saved self env file w) (stored_path self env file))
    uploaded_by project_id task_id.

(** The world once the row [r] has been committed. *)
Definition committed (r : File) (w : World) : World :=
  {| disk := disk w;
     rows := <[id r := r]> (rows w);
     journal := journal w ++ [r] |}.

(** The keys written when the metadata of an audio file is merged. *)
Definition audio_keys (self : FileService) (r : File) : gset string :=
  if decide (file_type r = "audio") then
    match audio_processor self (file_path r) with
    | Return audio_metadata => dom audio_metadata
    | Raise _ => ∅
    end
  else ∅.

End Stages.

(** A service whose two collaborators have been replaced, as a test or a
    caller can do by assigning to [self.text_extractor] and
    [self.audio_processor]. *)
Definition with_collaborators (x : Extractor)
    (a : string -> outcome (gmap string value)) (self : FileService)
    : FileService :=
  {| upload_dir := upload_dir self;
     text_extractor := x;
     audio_processor := a;
     allowed_extensions := allowed_extensions self;
     max_file_size := max_file_size self |}.

(** A service with another size limit, as assigning to
    [self.max_file_size] gives. *)
Definition with_max_file_size (n : Z) (self : FileService) : FileService :=
  {| upload_dir := upload_dir self;
     text_extractor := text_extractor self;
     audio_processor := audio_processor self;
     allowed_extensions := allowed_extensions self;
     max_file_size := n |}.

(** The same upload with other bytes. *)
Definition with_content (content : string) (file : UploadFile) : UploadFile :=
  {| upload_filename := upload_filename file;
     upload_size := upload_size file;
     upload_content := content |}.

(** An environment in which no call fails. *)
Definition calm (token rid mime : string) : Env :=
  {| uuid4 := token; row_id := rid; magic_from_file := Return mime;
     hash_read_error := None; commit_created := Return tt;
     commit_processing := Return tt; commit_completed := Return tt;
     commit_failed := Return tt; remove_error := fun _ => None |}.

Definition empty_world : World := {| disk := ∅; rows := ∅; journal := [] |}.

(** What [get_file_metadata] answers for the stored upload once anything in
    its [try] block has raised [e]. *)
Definition fallback_metadata (file : UploadFile) (e : exn) : FileMetadata :=
  {| md_mime_type := "application/octet-stream";
     md_file_size := Z.of_nat (String.length (upload_content file));
     md_hash := None;
     md_error := Some (str_exn e) |}.

(** A record with the given path and status, for examples. *)
Definition sample_record (rid path status : string) : File :=
  {| id := rid; filename := "f"; original_filename := "f"; file_path := path;
     file_size := 0; mime_type := "text/plain"; file_type := "document";
     uploaded_by := "alice"; project_id := None; task_id := None;
     metadata := ∅; processing_status := status; extracted_text := None |}.

(** ** More of [app/text_extraction.py] and [app/file_service.py] *)

(** [s.rfind(c)] for a one-character argument: the index of the last
    occurrence, if there is one. *)
Fixpoint rfind_char (c : ascii) (s : string) : option nat :=
  match s with
  | EmptyString => None
  | String a r =>
      match rfind_char c r with
      | Some i => Some (S i)
      | None => if Ascii.eqb a c then Some 0 else None
      end
  end.

(** [s.rfind(c)] as Python answers it: [-1] when [c] does not occur. *)
Definition rfind (c : ascii) (s : string) : Z :=
  match rfind_char c s with
  | Some i => Z.of_nat i
  | None => (-1)%Z
  end.

(** [s[:n]] for an [int] [n]: a negative [n] counts from the end of [s]. *)
Definition slice_to_int (n : Z) (s : string) : string :=
  if (n <? 0)%Z
  then Py.slice_to (Z.to_nat (Z.of_nat (Py.len s) + n)) s
  else Py.slice_to (Z.to_nat n) s.

(** *** The product [max_length * 0.7]

    Python converts the [int] to a [float], multiplies two IEEE 754
    doubles, and compares the [int] [last_sentence] with the product
    exactly.  A double is a number with 53 significant bits; the results
    below are integers, or integers to be read as multiples of [2^-53]. *)

(** [x / 2^shift] rounded to the nearest integer, a tie to the even one. *)
Definition round_half_even (x shift : Z) : Z :=
  let d := (2 ^ shift)%Z in
  let q := (x / d)%Z in
  let rem := (x mod d)%Z in
  if (d <? 2 * rem)%Z || ((2 * rem =? d)%Z && Z.odd q) then (q + 1)%Z else q.

(** A non-negative integer rounded to 53 significant bits. *)
Definition round_53 (x : Z) : Z :=
  let shift := Z.max 0 (Z.log2 x + 1 - 53) in
  (round_half_even x shift * 2 ^ shift)%Z.

(** [float(n)]: the nearest double, which is an integer; [OverflowError]
    beyond the range of the doubles. *)
Definition float_of_int (n : Z) : outcome Z :=
  let a := round_53 (Z.abs n) in
  if (2 ^ 1024 <=? a)%Z
  then Raise (Exception "int too large to convert to float")
  else Return (Z.sgn n * a)%Z.

(** The double that the literal [0.7] denotes is [seven_tenths * 2^-53]. *)
Definition seven_tenths : Z := 6305039478318694%Z.

(** [f * 0.7] for a double [f] with an integer value, in multiples of
    [2^-53]: the exact product rounded to 53 significant bits. *)
Definition times_seven_tenths (f : Z) : Z :=
  (Z.sgn f * round_53 (Z.abs f * seven_tenths))%Z.

(** [last_sentence > max_length * 0.7] *)
Definition gt_seven_tenths (last_sentence max_length : Z) : outcome bool :=
  match float_of_int max_length with
  | Raise e => Raise e
  | Return f =>
      Return (times_seven_tenths f <? last_sentence * 2 ^ 53)%Z
  end.

(** [get_text_summary] *)
Definition get_text_summary (text : string) (max_length : Z)
    : outcome string :=
  if negb (Py.truthy text) then Return EmptyString
  else if (Z.of_nat (Py.len text) <=? max_length)%Z then Return text
  else
    (* Find the last complete sentence within the limit *)
    let truncated := slice_to_int max_length text in
    let last_sentence := rfind "."%char truncated in
    match gt_seven_tenths last_sentence max_length with
    | Raise e => Raise e
    | Return true => Return (slice_to_int (last_sentence + 1) truncated)
    | Return false => Return (truncated +:+ "...")
    end.

(** [get_file]: the first row with the given id. *)
Definition get_file (w : World) (file_id : string) : option File :=
  rows w !! file_id.

(** [delete_file]; [commit_deleted] is the outcome of its [db.commit()]. *)
Definition delete_file (env : Env) (commit_deleted : outcome unit)
    (file_id : string) : M World bool :=
  w ← get;
  match get_file w file_id with
  | None => ret false
  | Some file_record =>
      (* Delete physical file *)
      (if bool_decide (is_Some (disk w !! file_path file_record))
       then os_remove env (file_path file_record) else ret tt) ;;
      (* Delete database record *)
      match commit_deleted with
      | Return _ =>
          modify (fun w' =>
                    {| disk := disk w';
                       rows := delete file_id (rows w');
                       journal := journal w' |}) ;;
          ret true
      | Raise e => raise e
      end
  end.

(** The paths of the rows of the record store. *)
Definition db_paths (w : World) : gset string :=
  list_to_set (file_path <$> (snd <$> map_to_list (rows w))).

(** One character as a string. *)
Definition char (c : ascii) : string := String c EmptyString.

(** The record after [if extracted_text: file_record.extracted_text =
    extracted_text]. *)
Definition attach_text (extracted_text : option string) (r : File) : File :=
  match extracted_text with
  | Some text => if Py.truthy text then set_extracted_text (Some text) r else r
  | None => r
  end.

(** Truthiness of an optional [str] argument. *)
Definition given (o : option string) : bool :=
  match o with Some s => Py.truthy s | None => false end.

(** [query.filter(column == value)] when [value] is given, the query
    itself otherwise. *)
Definition filter_by (column : File -> option string) (value : option string)
    (query : list File) : list File :=
  if given value
  then List.filter (fun f => bool_decide (column f = value)) query
  else query.

(** [list_files]; the primed arguments are the filters [project_id],
    [task_id], [file_type] and [uploaded_by] of the source.
    [order_by_created_at_desc] is the ordering the database applies for
    [order_by(File.created_at.desc())]; the creation time is a column that
    [upload_file] never sets itself. *)
Definition list_files (order_by_created_at_desc : list File -> list File)
    (w : World) (project_id' task_id' file_type' uploaded_by' : option string)
    (limit offset : nat) : list File :=
  let query := snd <$> map_to_list (rows w) in
  let query := filter_by project_id project_id' query in
  let query := filter_by task_id task_id' query in
  let query := filter_by (fun f => Some (file_type f)) file_type' query in
  let query := filter_by (fun f => Some (uploaded_by f)) uploaded_by' query in
  take limit (drop offset (order_by_created_at_desc query)).

(** * Properties *)

(** ** Strings *)

Section StringFacts.

Lemma app_cons (a : ascii) (s t : string) :
  String a s +:+ t = String a (s +:+ t).
Proof. reflexivity. Qed.

Lemma app_empty_l (t : string) : EmptyString +:+ t = t.
Proof. reflexivity. Qed.

Lemma app_empty_r (s : string) : s +:+ EmptyString = s.
Proof. induction s as [|a s IH]; [reflexivity|]. rewrite app_cons, IH. reflexivity. Qed.

Lemma app_assoc_str (s t u : string) : (s +:+ t) +:+ u = s +:+ (t +:+ u).
Proof.
  induction s as [|a s IH]; [reflexivity|].
  rewrite !app_cons, IH. reflexivity.
Qed.

Lemma len_app (s t : string) : Py.len (s +:+ t) = Py.len s + Py.len t.
Proof.
  unfold Py.len. induction s as [|a s IH]; [reflexivity|].
  rewrite app_cons. simpl. rewrite IH. reflexivity.
Qed.

Lemma slice_to_len (n : nat) (s : string) :
  Py.len (Py.slice_to n s) = Nat.min n (Py.len s).
Proof.
  unfold Py.len, Py.slice_to. revert s.
  induction n as [|n IH]; intros [|a s]; simpl; try reflexivity.
  rewrite IH. reflexivity.
Qed.

Lemma slice_to_all (n : nat) (s : string) :
  Py.len s <= n -> Py.slice_to n s = s.
Proof.
  unfold Py.len, Py.slice_to. revert s.
  induction n as [|n IH]; intros [|a s]; simpl; intros Hle;
    try reflexivity; try lia.
  rewrite IH by lia. reflexivity.
Qed.

Lemma slice_to_app (n : nat) (s t : string) :
  n <= Py.len s -> Py.slice_to n (s +:+ t) = Py.slice_to n s.
Proof.
  unfold Py.len, Py.slice_to. revert s.
  induction n as [|n IH]; intros [|a s]; simpl; intros Hle; try lia.
  - destruct t; reflexivity.
  - reflexivity.
  - rewrite IH by lia. reflexivity.
Qed.

Lemma prefix_app (s t : string) : String.prefix s (s +:+ t) = true.
Proof.
  induction s as [|a s IH]; [destruct t; reflexivity|].
  rewrite app_cons. simpl. destruct (ascii_dec a a); [exact IH|congruence].
Qed.

(** [s[:n]] followed by the rest of [s] is [s]. *)
Lemma slice_to_split (n : nat) (s : string) :
  exists t, s = Py.slice_to n s +:+ t.
Proof.
  unfold Py.slice_to. revert s.
  induction n as [|n IH]; intros [|a s]; simpl.
  - exists EmptyString. reflexivity.
  - exists (String a s). reflexivity.
  - exists EmptyString. reflexivity.
  - destruct (IH s) as [t Ht]. exists t. rewrite app_cons, <- Ht. reflexivity.
Qed.

Lemma slice_to_prefix (n : nat) (s : string) :
  String.prefix (Py.slice_to n s) s = true.
Proof.
  destruct (slice_to_split n s) as [t Ht].
  rewrite Ht at 2. apply prefix_app.
Qed.

Lemma join_cons2 (sep x y : string) (l : list string) :
  Py.join sep (x :: y :: l) = x +:+ sep +:+ Py.join sep (y :: l).
Proof. reflexivity. Qed.

(** Joining a longer list extends the join of a prefix of the list. *)
Lemma join_app_extends (sep : string) (l1 l2 : list string) :
  exists t, Py.join sep (l1 ++ l2) = Py.join sep l1 +:+ t.
Proof.
  induction l1 as [|x l1 IH].
  - exists (Py.join sep l2). reflexivity.
  - destruct l1 as [|y l1].
    + destruct l2 as [|z l2].
      * exists EmptyString. simpl. rewrite app_empty_r. reflexivity.
      * exists (sep +:+ Py.join sep (z :: l2)). reflexivity.
    + destruct IH as [t Ht]. exists t.
      change ((x :: y :: l1) ++ l2) with (x :: y :: (l1 ++ l2)).
      rewrite !join_cons2.
      change (y :: l1 ++ l2) with ((y :: l1) ++ l2).
      rewrite Ht, !app_assoc_str. reflexivity.
Qed.

End StringFacts.

(** ** The length limit *)

Section Bounded.

Variable self : TextExtractor.

Lemma bounded_small (s : string) :
  Py.len s <= max_text_length self -> bounded self s = s.
Proof.
  intros Hle. unfold bounded.
  destruct (Nat.ltb_spec (max_text_length self) (Py.len s)); [lia|reflexivity].
Qed.

Lemma bounded_large (s : string) :
  max_text_length self < Py.len s ->
  bounded self s = Py.slice_to (max_text_length self) s.
Proof.
  intros Hlt. unfold bounded.
  destruct (Nat.ltb_spec (max_text_length self) (Py.len s)); [reflexivity|lia].
Qed.

Lemma bounded_len_large (s : string) :
  max_text_length self < Py.len s ->
  Py.len (bounded self s) = max_text_length self.
Proof.
  intros Hlt. rewrite bounded_large, slice_to_len by exact Hlt. lia.
Qed.

Lemma bounded_prefix (s : string) : String.prefix (bounded self s) s = true.
Proof.
  unfold bounded. destruct (_ <? _).
  - apply slice_to_prefix.
  - rewrite <- (app_empty_r s) at 2. apply prefix_app.
Qed.

(** The loop returns the bounded join of the parts it was given and of
    the parts the items contribute, provided no item raises and the parts
    it starts from are within the limit. *)
Lemma accumulate_bounded (opts : list (option string)) :
  forall text_parts : list string,
    Py.len (Py.join Py.NL text_parts) <= max_text_length self ->
    accumulate self text_parts (map Return opts)
    = Return (bounded self (Py.join Py.NL (text_parts ++ omap (fun o => o) opts))).
Proof.
  induction opts as [|o opts IH]; intros text_parts Hinv;
    cbn [map accumulate omap list_omap].
  - rewrite app_nil_r, bounded_small by exact Hinv. reflexivity.
  - destruct o as [t|]; cbn [mbind option_bind].
    + destruct (Nat.ltb_spec (max_text_length self)
                  (Py.len (Py.join Py.NL (text_parts ++ [t])))) as [Hlt|Hle].
      * destruct (join_app_extends Py.NL (text_parts ++ [t])
                    (omap (fun o => o) opts)) as [tail Htail].
        rewrite <- app_assoc in Htail. cbn [app] in Htail.
        rewrite Htail, bounded_large by (rewrite len_app; lia).
        rewrite slice_to_app by lia. reflexivity.
      * rewrite IH by exact Hle. rewrite <- app_assoc. reflexivity.
    + destruct (Nat.ltb_spec (max_text_length self)
                  (Py.len (Py.join Py.NL text_parts))) as [Hlt|Hle]; [lia|].
      apply IH. exact Hinv.
Qed.

Lemma accumulate_from_empty (opts : list (option string)) :
  accumulate self [] (map Return opts)
  = Return (bounded self (Py.join Py.NL (omap (fun o => o) opts))).
Proof. apply (accumulate_bounded opts []). simpl. lia. Qed.

End Bounded.

(** ** The extractors *)

Section Extractors.
Context `{Libs}.
Variable self : TextExtractor.
Variable disk : gmap string string.
Variable file_path : string.
Variable bytes : string.
Hypothesis stored : disk !! file_path = Some bytes.

Lemma open_file_stored : open_file disk file_path = Return bytes.
Proof. unfold open_file. rewrite stored. reflexivity. Qed.

Lemma pdf_items (page_texts : list string) :
  map pdf_item (map Return page_texts)
  = map Return (map (fun text => if Py.truthy text then Some text else None)
                    page_texts).
Proof. rewrite !map_map. reflexivity. Qed.

Lemma omap_if_filter (p : string -> bool) (l : list string) :
  omap (fun o => o) (map (fun x => if p x then Some x else None) l)
  = List.filter p l.
Proof.
  induction l as [|x l IH]; [reflexivity|].
  cbn [map omap list_omap List.filter].
  destruct (p x); cbn [mbind option_bind]; rewrite IH; reflexivity.
Qed.

Lemma extract_pdf_bounded (page_texts : list string) :
  PdfReader_pages bytes = Return (map Return page_texts) ->
  _extract_from_pdf self disk file_path
  = Some (bounded self (pdf_full_text page_texts)).
Proof.
  intros Hpages. unfold _extract_from_pdf.
  rewrite open_file_stored, Hpages, pdf_items, accumulate_from_empty.
  rewrite omap_if_filter. reflexivity.
Qed.

Lemma extract_docx_bounded (paragraphs : list string) :
  Document_paragraphs bytes = Return paragraphs ->
  _extract_from_docx self disk file_path
  = Some (bounded self (docx_full_text paragraphs)).
Proof.
  intros Hdoc. unfold _extract_from_docx.
  rewrite open_file_stored, Hdoc.
  replace (map docx_item paragraphs)
    with (map Return
            (map (fun text => if Py.truthy (Py.strip text) then Some text else None)
                 paragraphs))
    by (rewrite map_map; reflexivity).
  rewrite accumulate_from_empty.
  rewrite (omap_if_filter (fun text => Py.truthy (Py.strip text))). reflexivity.
Qed.

Lemma extract_txt_bounded (content : string) :
  decode_utf8 bytes = Return content ->
  _extract_from_txt self disk file_path = Some (bounded self content).
Proof.
  intros Hdec. unfold _extract_from_txt.
  rewrite open_file_stored, Hdec. reflexivity.
Qed.

Lemma extract_txt_latin1_bounded (e : exn) :
  decode_utf8 bytes = Raise e ->
  is_UnicodeDecodeError e = true ->
  _extract_from_txt self disk file_path
  = Some (bounded self (decode_latin1 bytes)).
Proof.
  intros Hdec He. unfold _extract_from_txt.
  rewrite open_file_stored, Hdec, He. reflexivity.
Qed.

Lemma csv_items (rows : list (list string)) :
  forall g : nat -> list string -> string,
    imap (fun n row =>
            match row with
            | Return cells => Return (Some (g n cells))
            | Raise e => Raise e
            end) (map Return rows)
    = map Return (imap (fun n row => Some (g n row)) rows).
Proof.
  induction rows as [|row rows IH]; intros g; [reflexivity|].
  cbn [map imap]. f_equal. apply (IH (g ∘ S)).
Qed.

Lemma omap_imap_Some {A : Type} (g : nat -> A -> string) (l : list A) :
  omap (fun o => o) (imap (fun n x => Some (g n x)) l) = imap g l.
Proof.
  revert g. induction l as [|x l IH]; intros g; [reflexivity|].
  cbn [imap omap list_omap mbind option_bind]. f_equal. apply (IH (g ∘ S)).
Qed.

Lemma extract_csv_bounded (sample delimiter : string)
    (rows : list (list string)) :
  read_utf8 1024 bytes = Return sample ->
  csv_sniff_delimiter sample = Return delimiter ->
  csv_reader delimiter bytes = map Return rows ->
  _extract_from_csv self disk file_path
  = Some (bounded self (csv_full_text rows)).
Proof.
  intros Hsample Hsniff Hrows. unfold _extract_from_csv.
  rewrite open_file_stored, Hsample, Hsniff. cbn zeta. rewrite Hrows.
  pose proof (csv_items rows csv_line) as Hitems.
  change (imap csv_item (map Return rows)
          = map Return (imap (fun n row => Some (csv_line n row)) rows))
    in Hitems.
  rewrite Hitems, accumulate_from_empty.
  rewrite (omap_imap_Some csv_line). reflexivity.
Qed.

Lemma extract_markdown_bounded (content : string) :
  decode_utf8 bytes = Return content ->
  _extract_from_markdown self disk file_path
  = Some (bounded self (_clean_markdown content)).
Proof.
  intros Hdec. unfold _extract_from_markdown.
  rewrite open_file_stored, Hdec. reflexivity.
Qed.

End Extractors.

(** The full texts are what the extractors return under a limit that is
    not exceeded: they are the extraction without the limit. *)
Lemma full_text_within_limit `{Libs} (self : TextExtractor)
    (disk : gmap string string) (file_path bytes : string) :
  disk !! file_path = Some bytes ->
  (forall page_texts,
     PdfReader_pages bytes = Return (map Return page_texts) ->
     Py.len (pdf_full_text page_texts) <= max_text_length self ->
     _extract_from_pdf self disk file_path = Some (pdf_full_text page_texts))
  /\ (forall paragraphs,
        Document_paragraphs bytes = Return paragraphs ->
        Py.len (docx_full_text paragraphs) <= max_text_length self ->
        _extract_from_docx self disk file_path
        = Some (docx_full_text paragraphs))
  /\ (forall sample delimiter rows,
        read_utf8 1024 bytes = Return sample ->
        csv_sniff_delimiter sample = Return delimiter ->
        csv_reader delimiter bytes = map Return rows ->
        Py.len (csv_full_text rows) <= max_text_length self ->
        _extract_from_csv self disk file_path = Some (csv_full_text rows)).
Proof.
  intros Hstored. repeat split.
  - intros page_texts Hp Hlen.
    rewrite (extract_pdf_bounded self disk file_path bytes Hstored _ Hp).
    rewrite bounded_small by exact Hlen. reflexivity.
  - intros paragraphs Hd Hlen.
    rewrite (extract_docx_bounded self disk file_path bytes Hstored _ Hd).
    rewrite bounded_small by exact Hlen. reflexivity.
  - intros sample delimiter rows Hs Hd Hr Hlen.
    rewrite (extract_csv_bounded self disk file_path bytes Hstored _ _ _ Hs Hd Hr).
    rewrite bounded_small by exact Hlen. reflexivity.
Qed.

Lemma bounded_cut_at (self : TextExtractor) (full : string) :
  cut_at (max_text_length self) full (bounded self full).
Proof.
  split.
  - intros Hlt. split; [apply bounded_len_large; exact Hlt|apply bounded_prefix].
  - apply bounded_small.
Qed.

(** ** Claims on the extraction engine *)

(** C2. Length limit of the extractors.  For a stored file whose parser
    delivers its pages, paragraphs, content or rows without raising, every
    extractor of [TextExtractor()] returns the full extraction cut at 50,000
    characters: when the full extraction is longer, a string of exactly
    50,000 characters that is a prefix of it; otherwise the full extraction
    itself.  Plain text is covered for both encodings. *)
Theorem extraction_length_cap `{Libs} (disk : gmap string string)
    (file_path bytes : string) :
  disk !! file_path = Some bytes ->
  (forall page_texts,
     PdfReader_pages bytes = Return (map Return page_texts) ->
     exists result,
       _extract_from_pdf TextExtractor_init disk file_path = Some result
       /\ cut_at 50000 (pdf_full_text page_texts) result)
  /\ (forall paragraphs,
        Document_paragraphs bytes = Return paragraphs ->
        exists result,
          _extract_from_docx TextExtractor_init disk file_path = Some result
          /\ cut_at 50000 (docx_full_text paragraphs) result)
  /\ (forall content,
        decode_utf8 bytes = Return content ->
        exists result,
          _extract_from_txt TextExtractor_init disk file_path = Some result
          /\ cut_at 50000 content result)
  /\ (forall e,
        decode_utf8 bytes = Raise e -> is_UnicodeDecodeError e = true ->
        exists result,
          _extract_from_txt TextExtractor_init disk file_path = Some result
          /\ cut_at 50000 (decode_latin1 bytes) result)
  /\ (forall sample delimiter rows,
        read_utf8 1024 bytes = Return sample ->
        csv_sniff_delimiter sample = Return delimiter ->
        csv_reader delimiter bytes = map Return rows ->
        exists result,
          _extract_from_csv TextExtractor_init disk file_path = Some result
          /\ cut_at 50000 (csv_full_text rows) result)
  /\ (forall content,
        decode_utf8 bytes = Return content ->
        exists result,
          _extract_from_markdown TextExtractor_init disk file_path = Some result
          /\ cut_at 50000 (_clean_markdown content) result).
Proof.
  intros Hstored.
  pose proof (bounded_cut_at TextExtractor_init) as Hcut.
  change (max_text_length TextExtractor_init) with 50000 in Hcut.
  repeat split.
  - intros page_texts Hp. eexists. split; [|apply Hcut].
    apply (extract_pdf_bounded _ _ _ _ Hstored _ Hp).
  - intros paragraphs Hd. eexists. split; [|apply Hcut].
    apply (extract_docx_bounded _ _ _ _ Hstored _ Hd).
  - intros content Hc. eexists. split; [|apply Hcut].
    apply (extract_txt_bounded _ _ _ _ Hstored _ Hc).
  - intros e Hc He. eexists. split; [|apply Hcut].
    apply (extract_txt_latin1_bounded _ _ _ _ Hstored _ Hc He).
  - intros sample delimiter rows Hs Hd Hr. eexists. split; [|apply Hcut].
    apply (extract_csv_bounded _ _ _ _ Hstored _ _ _ Hs Hd Hr).
  - intros content Hc. eexists. split; [|apply Hcut].
    apply (extract_markdown_bounded _ _ _ _ Hstored _ Hc).
Qed.

Lemma len_str_repeat (c : ascii) (n : nat) : Py.len (str_repeat c n) = n.
Proof. induction n as [|n IH]; [reflexivity|]. simpl. f_equal. exact IH. Qed.

Lemma is_ascii_str_repeat (n : nat) :
  Reference.is_ascii (str_repeat "a"%char n) = true.
Proof. induction n as [|n IH]; [reflexivity|exact IH]. Qed.

Lemma extraction_length_cap_witness :
  let big := str_repeat "a"%char 50001 in
  let disk : gmap string string := <["uploads/big.txt" := big]> ∅ in
  exists result,
    @_extract_from_txt Reference.libs TextExtractor_init disk "uploads/big.txt"
    = Some result
    /\ Py.len result = 50000
    /\ String.prefix result big = true.
Proof.
  intros big disk.
  destruct (@extraction_length_cap Reference.libs disk "uploads/big.txt" big)
    as (_ & _ & Htxt & _).
  - apply lookup_insert_eq.
  - destruct (Htxt big) as (result & Hres & Hlong & _).
    + unfold decode_utf8, Reference.libs, Reference.decode_utf8, big.
      rewrite is_ascii_str_repeat. reflexivity.
    + exists result. split; [exact Hres|]. apply Hlong.
      unfold big. rewrite len_str_repeat.
      apply Nat.ltb_lt. vm_compute. reflexivity.
Defined.

(** C7 (as amended). CSV rendering.  The first row becomes the line
    [Headers: ...] and the N-th row after it the line [Row N: ...]; the
    cells of a row are always joined by a comma and a space, whatever
    delimiter was detected: the detected delimiter only tells the reader
    how to split a line into cells.  The rendering is then cut at the
    length limit. *)
Theorem csv_rendering `{Libs} (self : TextExtractor)
    (disk : gmap string string) (file_path bytes sample delimiter : string)
    (header : list string) (data_rows : list (list string)) :
  disk !! file_path = Some bytes ->
  read_utf8 1024 bytes = Return sample ->
  csv_sniff_delimiter sample = Return delimiter ->
  csv_reader delimiter bytes = map Return (header :: data_rows) ->
  _extract_from_csv self disk file_path
  = Some (bounded self
            (Py.join Py.NL
               (("Headers: " +:+ Py.join ", " header)
                :: imap (fun n row =>
                           "Row " +:+ Py.str_nat (S n) +:+ ": " +:+ Py.join ", " row)
                        data_rows))).
Proof.
  intros Hstored Hsample Hsniff Hrows.
  rewrite (extract_csv_bounded self disk file_path bytes Hstored
             sample delimiter (header :: data_rows) Hsample Hsniff Hrows).
  reflexivity.
Qed.

(** The scenario of the specification: [a,b], [1,2], [3,4]. *)
Lemma csv_rendering_witness :
  let content := "a,b" +:+ Py.NL +:+ "1,2" +:+ Py.NL +:+ "3,4" in
  let disk : gmap string string := <["uploads/t.csv" := content]> ∅ in
  @_extract_from_csv Reference.libs TextExtractor_init disk "uploads/t.csv"
  = Some ("Headers: a, b" +:+ Py.NL +:+ "Row 1: 1, 2" +:+ Py.NL +:+ "Row 2: 3, 4").
Proof.
  intros content disk.
  rewrite (@csv_rendering Reference.libs TextExtractor_init disk
             "uploads/t.csv" content content "," ["a"; "b"]
             [["1"; "2"]; ["3"; "4"]]);
    vm_compute; reflexivity.
Defined.

(** C7, counterexample.  For the semicolon-separated file [a;b], [1;2] the
    detected delimiter is the semicolon, and the extracted lines still join
    the cells with a comma and a space: the output is not the rendering
    with the detected delimiter. *)
Lemma csv_semicolon_counterexample :
  let content := "a;b" +:+ Py.NL +:+ "1;2" in
  let disk : gmap string string := <["uploads/s.csv" := content]> ∅ in
  @csv_sniff_delimiter Reference.libs content = Return ";"
  /\ @csv_reader Reference.libs ";" content
     = [Return ["a"; "b"]; Return ["1"; "2"]]
  /\ @_extract_from_csv Reference.libs TextExtractor_init disk "uploads/s.csv"
     = Some ("Headers: a, b" +:+ Py.NL +:+ "Row 1: 1, 2")
  /\ @_extract_from_csv Reference.libs TextExtractor_init disk "uploads/s.csv"
     <> Some (Py.join Py.NL (imap (spec_csv_line ";") [["a"; "b"]; ["1"; "2"]]))
  /\ @_extract_from_csv Reference.libs TextExtractor_init disk "uploads/s.csv"
     <> Some (Py.join Py.NL
                ["Headers: " +:+ Py.join ";" ["a"; "b"];
                 "Row 1: " +:+ Py.join ";" ["1"; "2"]]).
Proof.
  intros content disk.
  repeat split; try (vm_compute; reflexivity); vm_compute; discriminate.
Qed.

(** C8. A fenced code block is not dropped as a whole: of the three lines
    of a block, the two fence lines are skipped and the line between them is
    kept.  On a line holding both inline code and emphasis only the first
    matching branch runs, so the emphasis markers stay. *)
Theorem clean_markdown_keeps_fenced_code :
  _clean_markdown ("```" +:+ Py.NL +:+ "code" +:+ Py.NL +:+ "```") = "code"
  /\ _clean_markdown
       ("intro" +:+ Py.NL +:+ "```python" +:+ Py.NL +:+ "x = 1" +:+ Py.NL
        +:+ "```" +:+ Py.NL +:+ "outro")
     = "intro" +:+ Py.NL +:+ "x = 1" +:+ Py.NL +:+ "outro"
  /\ _clean_markdown "see `x` and *y*" = "see x and *y*".
Proof. repeat split; vm_compute; reflexivity. Qed.

(** ** The processing state machine *)

Ltac run_monad :=
  unfold try_except, mbind, M_bind, bind, mret, M_ret, ret, assign, modify,
    commit, get, call, raise, with_record in *.

Section Processing.
Context `{Libs}.
Variable self : FileService.
Variable env : Env.

(** A document whose extractor call raises: the handler runs. *)
Lemma process_file_document_raises (r : File) (w : World) (e : exn) :
  file_type r = "document" ->
  commit_processing env = Return tt ->
  text_extractor self (disk w) (file_path r) (mime_type r) = Raise e ->
  commit_failed env = Return tt ->
  let r1 := set_processing_status processing r in
  let r2 :=
    set_metadata (<["processing_error" := VStr (str_exn e)]> (metadata r))
      (set_processing_status failed r1) in
  process_file self env (r, w)
  = (Return tt, (r2, committed r2 (committed r1 w))).
Proof.
  intros Hdoc Hc1 Hraise Hc3 r1 r2.
  unfold process_file. run_monad. cbn.
  rewrite Hc1. cbn. rewrite Hdoc. cbn. rewrite Hraise. cbn. rewrite Hc3.
  reflexivity.
Qed.

(** A file that is neither a document nor an audio file: nothing is
    called between the two commits. *)
Lemma process_file_no_extraction (r : File) (w : World) :
  file_type r <> "document" ->
  file_type r <> "audio" ->
  commit_processing env = Return tt ->
  commit_completed env = Return tt ->
  let r1 := set_processing_status processing r in
  let r2 := set_processing_status completed r1 in
  process_file self env (r, w)
  = (Return tt, (r2, committed r2 (committed r1 w))).
Proof.
  intros Hdoc Haudio Hc1 Hc2 r1 r2.
  unfold process_file. run_monad. cbn.
  rewrite Hc1. cbn.
  destruct (decide (file_type r = "document")) as [|_]; [contradiction|].
  destruct (decide (file_type r = "audio")) as [|_]; [contradiction|].
  cbn. rewrite Hc2. reflexivity.
Qed.

End Processing.

Ltac case_outcomes :=
  repeat match goal with
    | |- context [match commit_processing ?e with _ => _ end] =>
        destruct (commit_processing e) as [[]|?] eqn:?; cbn
    | |- context [match commit_completed ?e with _ => _ end] =>
        destruct (commit_completed e) as [[]|?] eqn:?; cbn
    | |- context [match commit_failed ?e with _ => _ end] =>
        destruct (commit_failed e) as [[]|?] eqn:?; cbn
    | |- context [decide (?a = ?b)] =>
        destruct (decide (a = b)); cbn
    | |- context [match text_extractor ?s ?d ?p ?m with _ => _ end] =>
        destruct (text_extractor s d p m) as [[?|]|?] eqn:?; cbn
    | |- context [match audio_processor ?s ?p with _ => _ end] =>
        destruct (audio_processor s p) as [?|?] eqn:?; cbn
    | |- context [Py.truthy ?t] =>
        destruct (Py.truthy t) eqn:?; cbn
    end.

Section ProcessingEffect.
Context `{Libs}.
Variable self : FileService.
Variable env : Env.

(** Whatever happens, [process_file] leaves the blob store alone, only
    appends to the journal, touches no other row, and changes none of the
    identifying attributes of the record. *)
Lemma process_file_effect (r : File) (w : World) :
  let res := process_file self env (r, w) in
  let r' := fst (snd res) in
  let w' := snd (snd res) in
  id r' = id r /\ file_path r' = file_path r /\ mime_type r' = mime_type r
  /\ file_size r' = file_size r /\ file_type r' = file_type r
  /\ disk w' = disk w
  /\ (exists l, journal w' = journal w ++ l)
  /\ (forall k, k <> id r -> rows w' !! k = rows w !! k)
  /\ (is_Some (rows w !! id r) -> is_Some (rows w' !! id r)).
Proof.
  unfold process_file. run_monad. cbn. case_outcomes.
  all: repeat split; try reflexivity; cbn.
  all: try (eexists; rewrite <- ?app_assoc; reflexivity).
  all: try (exists []; rewrite app_nil_r; reflexivity).
  all: try (intros k Hk; rewrite ?lookup_insert_ne by congruence; reflexivity).
  all: try (intros; rewrite ?lookup_insert_eq; eauto).
Qed.

(** The metadata after [process_file] is the metadata before it with a
    mapping [written] merged over it, and [written] only has keys of the
    audio metadata or the key of the error. *)
Lemma process_file_merges (r : File) (w : World) :
  let r' := fst (snd (process_file self env (r, w))) in
  exists written : gmap string value,
    metadata r' = written ∪ metadata r
    /\ dom written ⊆ audio_keys self r ∪ {["processing_error"]}.
Proof.
  unfold process_file, audio_keys. run_monad. cbn. case_outcomes.
  all: try congruence.
  all: lazymatch goal with
       | |- exists _, <[?k:=?x]> (?a ∪ metadata _) = _ /\ _ =>
           exists (<[k:=x]> a); split; [apply insert_union_l|]
       | |- exists _, <[?k:=?x]> (metadata _) = _ /\ _ =>
           exists {[k:=x]}; split; [apply insert_union_singleton_l|]
       | |- exists _, ?a ∪ metadata _ = _ /\ _ =>
           exists a; split; [reflexivity|]
       | |- exists _, metadata _ = _ /\ _ =>
           exists ∅; split; [symmetry; apply (left_id ∅ (∪))|]
       end.
  all: rewrite ?dom_insert_L, ?dom_singleton_L, ?dom_empty_L.
  all: first
    [ apply empty_subseteq
    | apply union_subseteq_l
    | apply union_subseteq_r
    | apply union_least; [apply union_subseteq_r | apply union_subseteq_l]
    | apply union_least; [apply union_subseteq_r | apply empty_subseteq] ].
Qed.

End ProcessingEffect.

(** ** Upload *)

Section Upload.
Context `{Libs}.
Variable self : FileService.
Variable env : Env.
Variable file : UploadFile.
Variable uploaded_by : string.
Variables project_id task_id : option string.

(** A rejection at intake leaves the world as it was. *)
Lemma upload_file_rejected (w : World) (e : exn) :
  validate_file self file = Raise e ->
  upload_file self env file uploaded_by project_id task_id w = (Raise e, w).
Proof.
  intros Hv. unfold upload_file. run_monad. rewrite Hv. reflexivity.
Qed.

(** An accepted upload whose row is committed and whose processing
    returns hands back the record as processing left it. *)
Lemma upload_file_processed (w : World) (v : Validation) (r' : File)
    (w' : World) :
  validate_file self file = Return v ->
  commit_created env = Return tt ->
  let r := created_record self env file v uploaded_by project_id task_id w in
  process_file self env (r, committed r (saved self env file w))
  = (Return tt, (r', w')) ->
  upload_file self env file uploaded_by project_id task_id w = (Return r', w').
Proof.
  intros Hv Hc r Hp. unfold upload_file, save_file. run_monad.
  rewrite Hv. cbn -[process_file new_record stored_path get_file_metadata].
  rewrite Hc.
  match goal with
  | |- context [process_file self env ?x] =>
      change x with (r, committed r (saved self env file w))
  end.
  rewrite Hp. reflexivity.
Qed.

(** With a database that accepts every commit, [process_file] returns. *)
Lemma process_file_returns (r : File) (w : World) :
  commit_processing env = Return tt ->
  commit_completed env = Return tt ->
  commit_failed env = Return tt ->
  exists r' w',
    process_file self env (r, w) = (Return tt, (r', w'))
    /\ rows w' !! id r = Some r'.
Proof.
  intros H1 H2 H3. unfold process_file. run_monad. cbn.
  rewrite H1, H2, H3. cbn. case_outcomes.
  all: rewrite ?H2, ?H3; cbn.
  all: eexists _, _; split; [reflexivity|]; cbn; apply lookup_insert_eq.
Qed.

End Upload.

(** The extractor installed by [FileService.__init__] never raises: an
    error of a parser is caught inside [TextExtractor] and reported as the
    absence of text, and the record of such a document ends [completed]
    with its metadata as created. *)
Lemma shipped_extractor_reports_no_text `{Libs} (dir : string) (env : Env)
    (r : File) (w : World) :
  file_type r = "document" ->
  commit_processing env = Return tt ->
  commit_completed env = Return tt ->
  extract_text TextExtractor_init (disk w) (file_path r) (mime_type r) = None ->
  let r1 := set_processing_status processing r in
  let r2 := set_processing_status completed r1 in
  process_file (FileService_init dir) env (r, w)
  = (Return tt, (r2, committed r2 (committed r1 w))).
Proof.
  intros Hdoc Hc1 Hc2 Hnone r1 r2.
  unfold process_file. run_monad. cbn.
  rewrite Hc1. cbn. rewrite Hdoc. cbn.
  unfold shipped_extractor. rewrite Hnone. cbn. rewrite Hc2. reflexivity.
Qed.

(** ** Claims on intake *)

(** C3. Rejection at intake.  An upload that [validate_file] refuses fails
    with the refusal's error and leaves the blob store, the record store
    and the journal exactly as they were; the four refusals are: no
    filename (400), a declared size above 50 MiB (413), a name that
    sanitizes to the empty string (400), and an extension on no allow-list
    (415), each reported when the checks before it pass. *)
Theorem intake_rejection_leaves_nothing `{Libs} (dir : string) (env : Env)
    (file : UploadFile) (uploaded_by : string)
    (project_id task_id : option string) (w : World) :
  let self := FileService_init dir in
  let upload := upload_file self env file uploaded_by project_id task_id w in
  (forall e, validate_file self file = Raise e -> upload = (Raise e, w))
  /\ (upload_filename file = None \/ upload_filename file = Some EmptyString ->
      upload = (Raise (HTTPException 400 "No filename provided"), w))
  /\ (forall name size,
        upload_filename file = Some name -> name <> EmptyString ->
        upload_size file = Some size -> (50 * 1024 * 1024 < size)%Z ->
        upload
        = (Raise (HTTPException 413 "File too large. Maximum size is 50MB"), w))
  /\ (forall name,
        upload_filename file = Some name -> name <> EmptyString ->
        (forall size, upload_size file = Some size ->
                      (size <= 50 * 1024 * 1024)%Z) ->
        secure_filename name = EmptyString ->
        upload = (Raise (HTTPException 400 "Invalid filename"), w))
  /\ (forall name,
        upload_filename file = Some name -> name <> EmptyString ->
        (forall size, upload_size file = Some size ->
                      (size <= 50 * 1024 * 1024)%Z) ->
        secure_filename name <> EmptyString ->
        str_lower (path_suffix (secure_filename name))
          ∉ all_allowed_of (allowed_extensions self) ->
        upload
        = (Raise (HTTPException 415
                    ("File type not allowed. Supported: "
                     +:+ ".pdf, .docx, .txt, .csv, .md, .mp3, .wav, .m4a, "
                     +:+ ".jpg, .jpeg, .png, .gif, .zip, .json, .xml")), w)).
Proof.
  intros self upload.
  assert (Hrej : forall e, validate_file self file = Raise e ->
                           upload = (Raise e, w)).
  { intros e He. apply upload_file_rejected. exact He. }
  assert (Hsmall : forall name,
             upload_filename file = Some name -> name <> EmptyString ->
             (forall size, upload_size file = Some size ->
                           (size <= 50 * 1024 * 1024)%Z) ->
             validate_file self file
             = (if negb (Py.truthy (secure_filename name))
                then Raise (HTTPException 400 "Invalid filename")
                else if negb (bool_decide
                                (str_lower (path_suffix (secure_filename name))
                                   ∈ all_allowed_of (allowed_extensions self)))
                then Raise (HTTPException 415
                              ("File type not allowed. Supported: "
                               +:+ Py.join ", "
                                     (all_allowed_of (allowed_extensions self))))
                else Return {| v_secure_filename := secure_filename name;
                               v_file_type :=
                                 get_file_type self (secure_filename name);
                               v_extension :=
                                 str_lower (path_suffix (secure_filename name)) |})).
  { intros name Hname Hne Hsize. unfold validate_file. rewrite Hname.
    destruct name as [|c name]; [congruence|].
    destruct (upload_size file) as [size|]; [|reflexivity].
    specialize (Hsize size eq_refl).
    change (max_file_size self) with (50 * 1024 * 1024)%Z.
    destruct (Z.ltb_spec (50 * 1024 * 1024) size); [lia|].
    rewrite andb_false_r. reflexivity. }
  split; [exact Hrej|]. split; [|split; [|split]].
  - intros Hnone. apply Hrej. unfold validate_file.
    destruct Hnone as [-> | ->]; reflexivity.
  - intros name size Hname Hne Hsize Hbig. apply Hrej.
    unfold validate_file. rewrite Hname, Hsize.
    destruct name as [|c name]; [congruence|].
    change (max_file_size self) with (50 * 1024 * 1024)%Z.
    destruct (Z.ltb_spec (50 * 1024 * 1024) size); [|lia].
    destruct (Z.eqb_spec size 0); [lia|]. reflexivity.
  - intros name Hname Hne Hsize Hsec. apply Hrej.
    rewrite (Hsmall name Hname Hne Hsize), Hsec. reflexivity.
  - intros name Hname Hne Hsize Hsec Hext. apply Hrej.
    rewrite (Hsmall name Hname Hne Hsize).
    destruct (secure_filename name) as [|c s] eqn:Hs; [congruence|].
    cbn [Py.truthy negb]. rewrite bool_decide_eq_false_2 by exact Hext.
    reflexivity.
Qed.

Lemma intake_rejection_leaves_nothing_witness :
  let self := @FileService_init Reference.libs "uploads" in
  let env := calm "tok" "id1" "application/octet-stream" in
  let upload file :=
    @upload_file Reference.libs self env file "alice" None None empty_world in
  upload {| upload_filename := Some EmptyString; upload_size := Some 3%Z;
            upload_content := "abc" |}
  = (Raise (HTTPException 400 "No filename provided"), empty_world)
  /\ upload {| upload_filename := Some "big.pdf";
               upload_size := Some (50 * 1024 * 1024 + 1)%Z;
               upload_content := "abc" |}
     = (Raise (HTTPException 413 "File too large. Maximum size is 50MB"),
        empty_world)
  /\ upload {| upload_filename := Some "///"; upload_size := Some 3%Z;
               upload_content := "abc" |}
     = (Raise (HTTPException 400 "Invalid filename"), empty_world)
  /\ upload {| upload_filename := Some "setup.exe"; upload_size := Some 3%Z;
               upload_content := "abc" |}
     = (Raise (HTTPException 415
                 ("File type not allowed. Supported: "
                  +:+ ".pdf, .docx, .txt, .csv, .md, .mp3, .wav, .m4a, "
                  +:+ ".jpg, .jpeg, .png, .gif, .zip, .json, .xml")),
        empty_world).
Proof.
  intros self env upload.
  split; [|split; [|split]].
  - apply (@intake_rejection_leaves_nothing Reference.libs "uploads" env _
             "alice" None None empty_world).
    right. reflexivity.
  - apply (proj1 (proj2 (proj2
             (@intake_rejection_leaves_nothing Reference.libs "uploads" env _
                "alice" None None empty_world))) "big.pdf" (50 * 1024 * 1024 + 1)%Z);
      [reflexivity | discriminate | reflexivity | lia].
  - apply (proj1 (proj2 (proj2 (proj2
             (@intake_rejection_leaves_nothing Reference.libs "uploads" env _
                "alice" None None empty_world)))) "///");
      [reflexivity | discriminate | | reflexivity].
    intros size Hsize. injection Hsize as <-. lia.
  - apply (proj2 (proj2 (proj2 (proj2
             (@intake_rejection_leaves_nothing Reference.libs "uploads" env _
                "alice" None None empty_world)))) "setup.exe");
      [reflexivity | discriminate | | discriminate | ].
    + intros size Hsize. injection Hsize as <-. lia.
    + apply (bool_decide_eq_false_1
               (str_lower (path_suffix (secure_filename "setup.exe"))
                  ∈ all_allowed_of
                      (allowed_extensions (@FileService_init Reference.libs "uploads")))).
      vm_compute. reflexivity.
Defined.

(** C10. No size check without a declared size.  When the declared size is
    [None] or zero, [validate_file] never answers 413; its answer does not
    depend on the bytes of the upload at all, so a payload of any length
    whose name and extension are acceptable passes intake. *)
Theorem undeclared_size_is_not_checked `{Libs} (self : FileService)
    (file : UploadFile) :
  upload_size file = None \/ upload_size file = Some 0%Z ->
  (forall content,
     validate_file self (with_content content file) = validate_file self file)
  /\ (forall detail,
        validate_file self file <> Raise (HTTPException 413 detail))
  /\ (forall name content,
        upload_filename file = Some name -> name <> EmptyString ->
        secure_filename name <> EmptyString ->
        str_lower (path_suffix (secure_filename name))
          ∈ all_allowed_of (allowed_extensions self) ->
        validate_file self (with_content content file)
        = Return {| v_secure_filename := secure_filename name;
                    v_file_type := get_file_type self (secure_filename name);
                    v_extension :=
                      str_lower (path_suffix (secure_filename name)) |}).
Proof.
  intros Hsize.
  assert (Hskip : match upload_size file with
                  | Some size =>
                      negb (size =? 0)%Z && (max_file_size self <? size)%Z
                  | None => false
                  end = false).
  { destruct Hsize as [-> | ->]; reflexivity. }
  split; [reflexivity|]. split.
  - intros detail. unfold validate_file. rewrite Hskip.
    destruct (upload_filename file) as [[|c name]|]; try discriminate.
    destruct (negb (Py.truthy (secure_filename (String c name))));
      [discriminate|].
    destruct (negb (bool_decide _)); discriminate.
  - intros name content Hname Hne Hsec Hext.
    unfold validate_file, with_content. cbn [upload_filename upload_size].
    rewrite Hname, Hskip.
    destruct name as [|c name]; [congruence|].
    destruct (secure_filename (String c name)) as [|c' s] eqn:Hs; [congruence|].
    cbn [Py.truthy negb]. rewrite bool_decide_eq_true_2 by exact Hext.
    reflexivity.
Qed.

(** A service limited to 4 bytes accepts 11 bytes sent without a size. *)
Lemma undeclared_size_is_not_checked_witness :
  let self := with_max_file_size 4 (@FileService_init Reference.libs "uploads") in
  let file := {| upload_filename := Some "notes.txt"; upload_size := None;
                 upload_content := EmptyString |} in
  (max_file_size self < Z.of_nat (Py.len "hello world"))%Z
  /\ @validate_file Reference.libs self (with_content "hello world" file)
     = Return {| v_secure_filename := "notes.txt"; v_file_type := "document";
                 v_extension := ".txt" |}.
Proof.
  intros self file. split; [vm_compute; reflexivity|].
  apply (proj2 (proj2 (@undeclared_size_is_not_checked Reference.libs self file
                         (or_introl eq_refl))) "notes.txt" "hello world").
  - reflexivity.
  - discriminate.
  - vm_compute. discriminate.
  - apply (bool_decide_eq_true_1
             (@str_lower Reference.libs
                (@path_suffix Reference.libs
                   (@secure_filename Reference.libs "notes.txt"))
                ∈ all_allowed_of (allowed_extensions self))).
    vm_compute. reflexivity.
Defined.

(** ** Claims on the processing state machine *)

(** [extract_text] answers the text of the attempt, and [None] exactly when
    the attempt raised. *)
Lemma extract_text_attempt `{Libs} (self : TextExtractor)
    (disk : gmap string string) (file_path mime_type : string) :
  extract_text self disk file_path mime_type
  = or_None (extraction_attempt self disk file_path mime_type).
Proof.
  assert (Htxt : _extract_from_txt self disk file_path
                 = or_None (txt_attempt self disk file_path)).
  { unfold _extract_from_txt, txt_attempt.
    destruct (open_file disk file_path) as [bytes|e]; [|reflexivity].
    destruct (decode_utf8 bytes) as [content|e]; [reflexivity|].
    destruct (is_UnicodeDecodeError e); reflexivity. }
  unfold extract_text, extraction_attempt.
  repeat (destruct (decide _); [first [exact Htxt | reflexivity]|]).
  exact Htxt.
Qed.

Lemma created_metadata_no_processing_error (m : FileMetadata) :
  metadata_dict m !! "processing_error" = None.
Proof.
  unfold metadata_dict. destruct (md_error m);
    rewrite ?lookup_insert_ne by discriminate; apply lookup_empty.
Qed.

(** C1 (as amended). An extraction error is absorbed by the extractor.  For
    an upload of a document accepted by the service that [__init__] builds,
    when the selected extractor raises [e] under its [try] and the database
    accepts the commits, [upload_file] returns the record normally: its
    status is [completed], its metadata is the metadata it was created with
    and has no key [processing_error], its extracted text is unset, the row
    is in the record store and the blob is in the blob store. *)
Theorem extraction_error_is_absorbed `{Libs} (dir : string) (env : Env)
    (file : UploadFile) (uploaded_by : string)
    (project_id task_id : option string) (w : World) (v : Validation)
    (e : exn) :
  let self := FileService_init dir in
  validate_file self file = Return v ->
  v_file_type v = "document" ->
  commit_created env = Return tt ->
  commit_processing env = Return tt ->
  commit_completed env = Return tt ->
  let r := created_record self env file v uploaded_by project_id task_id w in
  extraction_attempt TextExtractor_init (disk (saved self env file w))
    (file_path r) (mime_type r)
  = Raise e ->
  exists r' w',
    upload_file self env file uploaded_by project_id task_id w = (Return r', w')
    /\ processing_status r' = completed
    /\ metadata r' = metadata r
    /\ metadata r' !! "processing_error" = None
    /\ extracted_text r' = None
    /\ id r' = row_id env
    /\ rows w' !! row_id env = Some r'
    /\ file_path r' = stored_path self env file
    /\ disk w' !! stored_path self env file = Some (upload_content file).
Proof.
  intros self Hv Hdoc Hc0 Hc1 Hc2 r Hraise.
  assert (Hnone : extract_text TextExtractor_init
                    (disk (committed r (saved self env file w)))
                    (file_path r) (mime_type r) = None).
  { rewrite extract_text_attempt. cbn [disk committed].
    rewrite Hraise. reflexivity. }
  pose proof (shipped_extractor_reports_no_text dir env r
                (committed r (saved self env file w)) Hdoc Hc1 Hc2 Hnone)
    as Hp.
  cbv zeta in Hp.
  eexists _, _. split.
  - apply (upload_file_processed self env file uploaded_by project_id task_id
             w v _ _ Hv Hc0 Hp).
  - repeat split.
    + cbn. apply created_metadata_no_processing_error.
    + cbn. apply lookup_insert_eq.
    + cbn. apply lookup_insert_eq.
Qed.

(** A PDF that PyPDF2 cannot read. *)
Lemma extraction_error_is_absorbed_witness :
  let self := @FileService_init Reference.libs "uploads" in
  let env := calm "tok" "id1" "application/pdf" in
  let file := {| upload_filename := Some "report.pdf"; upload_size := Some 7%Z;
                 upload_content := "garbage" |} in
  exists r' w',
    @upload_file Reference.libs self env file "alice" None None empty_world
    = (Return r', w')
    /\ processing_status r' = "completed"
    /\ metadata r' !! "processing_error" = None
    /\ extracted_text r' = None
    /\ rows w' !! "id1" = Some r'
    /\ disk w' !! "uploads/tok.pdf" = Some "garbage".
Proof.
  intros self env file.
  destruct (@extraction_error_is_absorbed Reference.libs "uploads" env file
              "alice" None None empty_world
              {| v_secure_filename := "report.pdf"; v_file_type := "document";
                 v_extension := ".pdf" |}
              (Exception "EOF marker not found"))
    as (r' & w' & Hup & Hst & _ & Hmd & Htxt & _ & Hrow & _ & Hblob);
    try (vm_compute; reflexivity).
  exists r', w'. repeat split.
  - exact Hup.
  - exact Hst.
  - exact Hmd.
  - exact Htxt.
  - exact Hrow.
  - exact Hblob.
Defined.

(** C1, counterexample.  The upload of a PDF that PyPDF2 cannot read: the
    extractor raises under its [try], and the record that [upload_file]
    returns is [completed], not [failed], with no [processing_error] in its
    metadata. *)
Lemma parser_error_ends_completed :
  let self := @FileService_init Reference.libs "uploads" in
  let env := calm "tok" "id1" "application/pdf" in
  let file := {| upload_filename := Some "report.pdf"; upload_size := Some 7%Z;
                 upload_content := "garbage" |} in
  let res :=
    @upload_file Reference.libs self env file "alice" None None empty_world in
  @extraction_attempt Reference.libs TextExtractor_init (disk (snd res))
    "uploads/tok.pdf" "application/pdf"
  = Raise (Exception "EOF marker not found")
  /\ match fst res with
     | Return r =>
         file_type r = "document"
         /\ processing_status r = "completed"
         /\ processing_status r <> "failed"
         /\ metadata r !! "processing_error" = None
         /\ extracted_text r = None
     | Raise _ => False
     end.
Proof.
  intros self env file res. vm_compute.
  split; [reflexivity|]. repeat split. discriminate.
Qed.

(** C6 (as amended). Files that are neither documents nor audio.  No
    extractor and no audio processor is called, extracted text stays unset
    and the metadata stays as created; the record does pass through
    [processing]: the committed states are [pending], [processing],
    [completed], in this order. *)
Theorem other_files_skip_extraction `{Libs} (self : FileService) (env : Env)
    (file : UploadFile) (uploaded_by : string)
    (project_id task_id : option string) (w : World) (v : Validation) :
  validate_file self file = Return v ->
  v_file_type v <> "document" ->
  v_file_type v <> "audio" ->
  commit_created env = Return tt ->
  commit_processing env = Return tt ->
  commit_completed env = Return tt ->
  let r0 := created_record self env file v uploaded_by project_id task_id w in
  let r1 := set_processing_status processing r0 in
  let r2 := set_processing_status completed r1 in
  (exists w',
     upload_file self env file uploaded_by project_id task_id w = (Return r2, w')
     /\ journal w' = journal w ++ [r0; r1; r2]
     /\ rows w' !! row_id env = Some r2)
  /\ processing_status r0 = pending
  /\ extracted_text r2 = None
  /\ metadata r2 = metadata r0
  /\ (forall x a,
        upload_file (with_collaborators x a self) env file uploaded_by
          project_id task_id w
        = upload_file self env file uploaded_by project_id task_id w).
Proof.
  intros Hv Hdoc Haudio Hc0 Hc1 Hc2 r0 r1 r2.
  assert (Hup : forall self',
             validate_file self' file = Return v ->
             created_record self' env file v uploaded_by project_id task_id w
             = r0 ->
             saved self' env file w = saved self env file w ->
             upload_file self' env file uploaded_by project_id task_id w
             = (Return r2,
                committed r2 (committed r1 (committed r0 (saved self env file w))))).
  { intros self' Hv' Hr Hs.
    apply (upload_file_processed self' env file uploaded_by project_id task_id
             w v _ _ Hv' Hc0).
    rewrite Hr, Hs.
    apply (process_file_no_extraction self' env r0 _ Hdoc Haudio Hc1 Hc2). }
  split; [|repeat split].
  - eexists. split; [apply (Hup self Hv eq_refl eq_refl)|]. split.
    + cbn. rewrite <- !app_assoc. reflexivity.
    + cbn. apply lookup_insert_eq.
  - intros x a. rewrite (Hup self Hv eq_refl eq_refl).
    apply (Hup (with_collaborators x a self)); [exact Hv|reflexivity..].
Qed.

Lemma other_files_skip_extraction_witness :
  let self := @FileService_init Reference.libs "uploads" in
  let env := calm "tok" "id1" "image/png" in
  let file := {| upload_filename := Some "pic.png"; upload_size := Some 3%Z;
                 upload_content := "PNG" |} in
  exists r w',
    @upload_file Reference.libs self env file "alice" None None empty_world
    = (Return r, w')
    /\ map processing_status (journal w')
       = ["pending"; "processing"; "completed"]
    /\ extracted_text r = None.
Proof.
  intros self env file.
  destruct (@other_files_skip_extraction Reference.libs self env file "alice"
              None None empty_world
              {| v_secure_filename := "pic.png"; v_file_type := "image";
                 v_extension := ".png" |})
    as ((w' & Hup & Hj & _) & _ & Htxt & _);
    try (vm_compute; reflexivity); try discriminate.
  eexists _, w'. split; [exact Hup|]. split; [|exact Htxt].
  rewrite Hj. reflexivity.
Defined.

(** C6, counterexample.  The upload of an image commits the status
    [processing] between [pending] and [completed]. *)
Lemma image_passes_through_processing :
  let self := @FileService_init Reference.libs "uploads" in
  let env := calm "tok" "id1" "image/png" in
  let file := {| upload_filename := Some "pic.png"; upload_size := Some 3%Z;
                 upload_content := "PNG" |} in
  let res :=
    @upload_file Reference.libs self env file "alice" None None empty_world in
  match fst res with
  | Return r => file_type r = "image" /\ processing_status r = "completed"
  | Raise _ => False
  end
  /\ map processing_status (journal (snd res))
     = ["pending"; "processing"; "completed"]
  /\ map processing_status (journal (snd res)) <> ["pending"; "completed"].
Proof.
  intros self env file res. vm_compute.
  split; [split; reflexivity|]. split; [reflexivity|discriminate].
Qed.

(** What a merge [{**old, **written}] does to one key. *)
Lemma merge_lookup (written old new : gmap string value) :
  new = written ∪ old ->
  (forall k, written !! k = None -> new !! k = old !! k)
  /\ (forall k x, written !! k = Some x -> new !! k = Some x).
Proof.
  intros ->. split.
  - intros k Hk. apply lookup_union_r. exact Hk.
  - intros k x Hk. apply lookup_union_Some_l. exact Hk.
Qed.

(** C9. Metadata is merged.  Whatever [process_file] does, the metadata it
    leaves is the metadata it found with a mapping [written] merged over
    it: a key outside [written] keeps its value and a key of [written]
    takes the written value.  [written] is what the two assignments of
    the source write.  Its audio part is the mapping answered by the audio
    processor, when the file is an audio file, the first commit succeeds
    and the call returns, and is empty otherwise.  Its error part is the
    description of the error under [processing_error], when an error
    leaves the [try] block (raised by the first commit, by the extractor
    call, by the audio processor or by the last commit), and is empty
    otherwise; it is merged last, so it wins over an audio value under the
    same key. *)
Theorem metadata_is_merged `{Libs} (self : FileService) (env : Env)
    (r : File) (w : World) :
  let r' := fst (snd (process_file self env (r, w))) in
  let error_of (e : exn) : gmap string value :=
    {["processing_error" := VStr (str_exn e)]} in
  exists audio_part error_part : gmap string value,
    let written := error_part ∪ audio_part in
    metadata r' = written ∪ metadata r
    /\ (forall k, written !! k = None -> metadata r' !! k = metadata r !! k)
    /\ (forall k x, written !! k = Some x -> metadata r' !! k = Some x)
    /\ (audio_part = ∅
        \/ file_type r = "audio"
           /\ audio_processor self (file_path r) = Return audio_part)
    /\ (forall audio_metadata,
          commit_processing env = Return tt ->
          file_type r = "audio" ->
          audio_processor self (file_path r) = Return audio_metadata ->
          audio_part = audio_metadata)
    /\ (error_part = ∅ /\ processing_status r' = completed
        \/ exists e, error_part = error_of e /\ processing_status r' = failed)
    /\ (forall e, commit_processing env = Raise e -> error_part = error_of e)
    /\ (forall e,
          commit_processing env = Return tt ->
          file_type r = "document" ->
          text_extractor self (disk w) (file_path r) (mime_type r) = Raise e ->
          error_part = error_of e)
    /\ (forall e,
          commit_processing env = Return tt ->
          file_type r = "audio" ->
          audio_processor self (file_path r) = Raise e ->
          error_part = error_of e)
    /\ (forall e,
          commit_processing env = Return tt ->
          (file_type r = "document" ->
           exists t,
             text_extractor self (disk w) (file_path r) (mime_type r)
             = Return t) ->
          (file_type r = "audio" ->
           exists audio_metadata,
             audio_processor self (file_path r) = Return audio_metadata) ->
          commit_completed env = Raise e ->
          error_part = error_of e).
Proof.
  intros r' error_of. subst r' error_of.
  unfold process_file. run_monad. cbn. case_outcomes.
  all: lazymatch goal with
       | |- exists _ _, <[?k:=?x]> (?a ∪ metadata _) = _ /\ _ =>
           exists a, {[k:=x]}
       | |- exists _ _, <[?k:=?x]> (metadata _) = _ /\ _ =>
           exists ∅, {[k:=x]}
       | |- exists _ _, ?a ∪ metadata _ = _ /\ _ =>
           exists a, ∅
       | |- exists _ _, metadata _ = _ /\ _ =>
           exists ∅, ∅
       end.
  all: match goal with
       | |- ?new = ?written ∪ ?old /\ _ =>
           assert (Hm : new = written ∪ old);
           [ rewrite ?(left_id_L ∅ (∪)), ?(right_id_L ∅ (∪)),
               <- ?(assoc_L (∪)), <- ?insert_union_singleton_l;
             reflexivity
           | destruct (merge_lookup written old new Hm) as [Hkeep Hput];
             split; [exact Hm|];
             split; [exact Hkeep|];
             split; [exact Hput|] ]
       end.
  all: repeat match goal with
         | |- _ /\ _ => split
         end.
  all: try solve [ left; reflexivity
                 | left; split; reflexivity
                 | right; split; [assumption | reflexivity]
                 | right; eexists; split; reflexivity ].
  all: intros; try congruence.
  all: repeat match goal with
         | Hx : ?P -> exists _, _, Hp : ?P |- _ =>
             destruct (Hx Hp) as [? ?]; clear Hx
         end; try congruence.
Qed.

(** An audio file whose record already has a [duration]: the value of the
    audio processor replaces it, and the [hash] is kept. *)
Lemma metadata_is_merged_witness :
  let self := @FileService_init Reference.libs "uploads" in
  let env := calm "tok" "id1" "audio/mpeg" in
  let r :=
    {| id := "id1"; filename := "a.mp3"; original_filename := "a.mp3";
       file_path := "uploads/tok.mp3"; file_size := 3; mime_type := "audio/mpeg";
       file_type := "audio"; uploaded_by := "alice"; project_id := None;
       task_id := None;
       metadata := <["duration" := VInt 5]> (<["hash" := VStr "h"]> ∅);
       processing_status := "pending"; extracted_text := None |} in
  let r' := fst (snd (process_file self env (r, empty_world))) in
  metadata r' !! "duration" = Some (VInt 0)
  /\ metadata r' !! "hash" = Some (VStr "h").
Proof.
  intros self env r r'.
  destruct (@metadata_is_merged Reference.libs self env r empty_world)
    as (audio_part & error_part & _ & Hkeep & Hput & _ & Haudio & Herr & _).
  assert (Ha : audio_part = <["duration" := VInt 0]> ∅)
    by (apply Haudio; reflexivity).
  destruct Herr as [[He _]|(e & _ & Hst)]; [|vm_compute in Hst; discriminate].
  subst audio_part error_part. split.
  - apply Hput. vm_compute. reflexivity.
  - unfold r'. rewrite Hkeep; vm_compute; reflexivity.
Defined.

(** ** Claims on storage and identity *)

Section MetadataFallback.
Context `{Libs}.
Variable self : FileService.
Variable env : Env.
Variable file : UploadFile.

Lemma saved_blob (w : World) :
  disk (saved self env file w) !! stored_path self env file
  = Some (upload_content file).
Proof. cbn. apply lookup_insert_eq. Qed.

Lemma get_file_metadata_digest_raises (w : World) (m : string) (e : exn) :
  magic_from_file env = Return m ->
  hash_read_error env = Some e ->
  get_file_metadata env (saved self env file w) (stored_path self env file)
  = fallback_metadata file e.
Proof.
  intros Hm He. unfold get_file_metadata, getsize, _calculate_file_hash.
  rewrite Hm, saved_blob, He. reflexivity.
Qed.

Lemma get_file_metadata_sniff_raises (w : World) (e : exn) :
  magic_from_file env = Raise e ->
  get_file_metadata env (saved self env file w) (stored_path self env file)
  = fallback_metadata file e.
Proof.
  intros Hm. unfold get_file_metadata. rewrite Hm, saved_blob. reflexivity.
Qed.

End MetadataFallback.

(** C4 (as amended). A failure while the identity of the stored file is
    computed does not abort the upload.  Whether the digest raises after a
    successful sniff or the sniff itself raises, [get_file_metadata] answers
    the generic binary MIME type, the size of the stored file, no hash and
    the error's description under [error]; the record is created with them,
    committed, processed and returned, and the blob stays in place. *)
Theorem identity_failure_degrades `{Libs} (self : FileService) (env : Env)
    (file : UploadFile) (uploaded_by : string)
    (project_id task_id : option string) (w : World) (v : Validation)
    (e : exn) :
  validate_file self file = Return v ->
  commit_created env = Return tt ->
  commit_processing env = Return tt ->
  commit_completed env = Return tt ->
  commit_failed env = Return tt ->
  ((exists m, magic_from_file env = Return m) /\ hash_read_error env = Some e)
  \/ magic_from_file env = Raise e ->
  let r := created_record self env file v uploaded_by project_id task_id w in
  mime_type r = "application/octet-stream"
  /\ file_size r = Z.of_nat (String.length (upload_content file))
  /\ metadata r !! "hash" = Some VNone
  /\ metadata r !! "error" = Some (VStr (str_exn e))
  /\ exists r' w',
       upload_file self env file uploaded_by project_id task_id w
       = (Return r', w')
       /\ rows w' !! row_id env = Some r'
       /\ mime_type r' = "application/octet-stream"
       /\ (exists l, journal w' = journal w ++ r :: l)
       /\ disk w' !! stored_path self env file = Some (upload_content file).
Proof.
  intros Hv Hc0 Hc1 Hc2 Hc3 Hfail r.
  assert (Hmd : get_file_metadata env (saved self env file w)
                  (stored_path self env file)
                = fallback_metadata file e).
  { destruct Hfail as [[[m Hm] He] | Hm].
    - apply (get_file_metadata_digest_raises self env file w m e Hm He).
    - apply (get_file_metadata_sniff_raises self env file w e Hm). }
  assert (Hr : r = new_record env file v (stored_path self env file)
                     (fallback_metadata file e) uploaded_by project_id task_id).
  { unfold r, created_record. rewrite Hmd. reflexivity. }
  split; [rewrite Hr; reflexivity|]. split; [rewrite Hr; reflexivity|].
  split; [rewrite Hr; reflexivity|]. split; [rewrite Hr; reflexivity|].
  destruct (process_file_returns self env r
              (committed r (saved self env file w)) Hc1 Hc2 Hc3)
    as (r' & w' & Hp & Hrow).
  pose proof (process_file_effect self env r
                (committed r (saved self env file w))) as Heff.
  cbv zeta in Heff. rewrite Hp in Heff. cbn [fst snd] in Heff.
  destruct Heff as (_ & _ & Hmime & _ & _ & Hdisk & [l Hj] & _ & _).
  exists r', w'. split.
  - apply (upload_file_processed self env file uploaded_by project_id task_id
             w v _ _ Hv Hc0 Hp).
  - split; [exact Hrow|]. split; [rewrite Hmime, Hr; reflexivity|]. split.
    + exists l. rewrite Hj. cbn. rewrite <- app_assoc. reflexivity.
    + rewrite Hdisk. apply saved_blob.
Qed.

Lemma identity_failure_degrades_witness :
  let self := @FileService_init Reference.libs "uploads" in
  let env :=
    {| uuid4 := "tok"; row_id := "id1"; magic_from_file := Return "text/plain";
       hash_read_error := Some (OSError "Input/output error");
       commit_created := Return tt; commit_processing := Return tt;
       commit_completed := Return tt; commit_failed := Return tt;
       remove_error := fun _ => None |} in
  let file := {| upload_filename := Some "hello.txt"; upload_size := Some 11%Z;
                 upload_content := "hello world" |} in
  exists r' w',
    @upload_file Reference.libs self env file "alice" None None empty_world
    = (Return r', w')
    /\ rows w' !! "id1" = Some r'
    /\ mime_type r' = "application/octet-stream"
    /\ disk w' !! "uploads/tok.txt" = Some "hello world".
Proof.
  intros self env file.
  destruct (@identity_failure_degrades Reference.libs self env file "alice"
              None None empty_world
              {| v_secure_filename := "hello.txt"; v_file_type := "document";
                 v_extension := ".txt" |}
              (OSError "Input/output error"))
    as (_ & _ & _ & _ & r' & w' & Hup & Hrow & Hmime & _ & Hblob);
    try (vm_compute; reflexivity).
  - left. split; [exists "text/plain"|]; reflexivity.
  - exists r', w'. repeat split; assumption.
Defined.

(** C4, counterexample.  The digest of an accepted text file cannot be
    computed, and the upload still succeeds: the record is returned and
    committed, in state [completed], with no hash and with the error in its
    metadata. *)
Lemma digest_failure_does_not_abort :
  let self := @FileService_init Reference.libs "uploads" in
  let env :=
    {| uuid4 := "tok"; row_id := "id1"; magic_from_file := Return "text/plain";
       hash_read_error := Some (OSError "Input/output error");
       commit_created := Return tt; commit_processing := Return tt;
       commit_completed := Return tt; commit_failed := Return tt;
       remove_error := fun _ => None |} in
  let file := {| upload_filename := Some "hello.txt"; upload_size := Some 11%Z;
                 upload_content := "hello world" |} in
  let res :=
    @upload_file Reference.libs self env file "alice" None None empty_world in
  match fst res with
  | Return r =>
      processing_status r = "completed"
      /\ metadata r !! "hash" = Some VNone
      /\ metadata r !! "error" = Some (VStr "Input/output error")
      /\ rows (snd res) !! "id1" = Some r
  | Raise _ => False
  end.
Proof.
  intros self env file res. vm_compute. repeat split.
Qed.

(** ** Claims on reconciliation *)

Section Reconciliation.
Context `{Libs}.
Variable env : Env.

Lemma remove_all_other (l : list string) :
  forall (d : gmap string string) (p : string),
    p ∉ l -> remove_all env l d !! p = d !! p.
Proof.
  induction l as [|q l IH]; intros d p Hp; [reflexivity|].
  apply not_elem_of_cons in Hp as [Hne Hp]. cbn [remove_all].
  destruct (remove_error env q).
  - apply IH. exact Hp.
  - rewrite IH by exact Hp. apply lookup_delete_ne. congruence.
Qed.

Lemma remove_all_lookup (l : list string) :
  forall (d : gmap string string) (p : string),
    remove_all env l d !! p = d !! p
    \/ (remove_all env l d !! p = None /\ p ∈ l).
Proof.
  induction l as [|q l IH]; intros d p; [left; reflexivity|].
  cbn [remove_all]. destruct (remove_error env q).
  - destruct (IH d p) as [Heq | [Hnone Hin]]; [left; exact Heq|].
    right. split; [exact Hnone|]. apply elem_of_cons. right. exact Hin.
  - destruct (IH (delete q d) p) as [Heq | [Hnone Hin]].
    + destruct (decide (q = p)) as [->|Hne].
      * right. split; [rewrite Heq; apply lookup_delete_eq|].
        apply elem_of_cons. left. reflexivity.
      * left. rewrite Heq. apply lookup_delete_ne. exact Hne.
    + right. split; [exact Hnone|]. apply elem_of_cons. right. exact Hin.
Qed.

Lemma referenced_path (w : World) (i : string) (f : File) :
  rows w !! i = Some f ->
  file_path f ∈ (list_to_set (file_path <$> (snd <$> map_to_list (rows w)))
                 : gset string).
Proof.
  intros Hrow. apply elem_of_list_to_set, list_elem_of_fmap.
  exists f. split; [reflexivity|]. apply list_elem_of_fmap.
  exists (i, f). split; [reflexivity|]. apply elem_of_map_to_list. exact Hrow.
Qed.

Lemma unreferenced_path (w : World) (p : string) :
  p ∉ (list_to_set (file_path <$> (snd <$> map_to_list (rows w)))
       : gset string) ->
  forall i f, rows w !! i = Some f -> file_path f <> p.
Proof.
  intros Hnot i f Hrow Heq. apply Hnot. rewrite <- Heq.
  apply (referenced_path w i f Hrow).
Qed.

End Reconciliation.

(** C5. Reconciliation spares every referenced blob.  A blob at the path of
    a row of the record store is exactly as it was after
    [cleanup_orphaned_files], whatever the row's processing status; a blob
    that is gone afterwards was at the path of no row; the record store is
    untouched. *)
Theorem cleanup_spares_referenced_blobs `{Libs} (env : Env) (w : World)
    (i : string) (f : File) :
  rows w !! i = Some f ->
  let w' := snd (cleanup_orphaned_files env w) in
  disk w' !! file_path f = disk w !! file_path f
  /\ rows w' = rows w
  /\ (forall p, is_Some (disk w !! p) -> disk w' !! p = None ->
                forall j g, rows w !! j = Some g -> file_path g <> p).
Proof.
  intros Hrow w'. unfold w', cleanup_orphaned_files. cbn [snd disk rows set_disk].
  split; [|split; [reflexivity|]].
  - apply remove_all_other. intros Hin.
    apply elem_of_elements, elem_of_difference in Hin as [_ Hnot].
    apply Hnot. apply (referenced_path w i f Hrow).
  - intros p [c Hc] Hgone.
    destruct (remove_all_lookup env
                (elements (dom (disk w)
                           ∖ list_to_set
                               (file_path <$> (snd <$> map_to_list (rows w)))))
                (disk w) p) as [Heq | [_ Hin]].
    + rewrite Hgone, Hc in Heq. discriminate.
    + apply elem_of_elements, elem_of_difference in Hin as [_ Hnot].
      apply (unreferenced_path w p Hnot).
Qed.

(** A failed record keeps its blob while an unreferenced blob goes. *)
Lemma cleanup_spares_referenced_blobs_witness :
  let f := sample_record "id1" "uploads/a.pdf" "failed" in
  let w := {| disk := <["uploads/a.pdf" := "%PDF"]>
                        (<["uploads/stray.txt" := "stray"]> ∅);
              rows := <["id1" := f]> ∅;
              journal := [f] |} in
  let res := @cleanup_orphaned_files (calm "tok" "id2" "text/plain") w in
  disk (snd res) !! "uploads/a.pdf" = Some "%PDF"
  /\ disk (snd res) !! "uploads/stray.txt" = None
  /\ fst res = 1.
Proof.
  intros f w res. split; [|split; vm_compute; reflexivity].
  destruct (@cleanup_spares_referenced_blobs Reference.libs
              (calm "tok" "id2" "text/plain") w "id1" f) as (Hkept & _).
  - vm_compute. reflexivity.
  - unfold res. cbn [file_path f sample_record] in Hkept. rewrite Hkept.
    vm_compute. reflexivity.
Defined.

(** * Further properties *)

(** ** Summaries *)

Lemma rfind_char_lt (c : ascii) (s : string) (i : nat) :
  rfind_char c s = Some i -> i < Py.len s.
Proof.
  unfold Py.len. revert i. induction s as [|a r IH]; intros i; [discriminate|].
  cbn [rfind_char String.length].
  destruct (rfind_char c r) as [j|].
  - intros [= <-]. specialize (IH j eq_refl). lia.
  - destruct (Ascii.eqb a c); [|discriminate]. intros [= <-]. lia.
Qed.

(** The prefix up to and including an occurrence found by [rfind] ends
    with the character looked for. *)
Lemma rfind_char_slice (c : ascii) (s : string) (i : nat) :
  rfind_char c s = Some i ->
  Py.slice_to (i + 1) s = Py.slice_to i s +:+ char c.
Proof.
  unfold Py.slice_to. revert i. induction s as [|a r IH]; intros i; [discriminate|].
  cbn [rfind_char].
  destruct (rfind_char c r) as [j|].
  - intros [= <-]. cbn. rewrite (IH j eq_refl). reflexivity.
  - destruct (Ascii.eqb_spec a c) as [->|]; [|discriminate].
    intros [= <-]. destruct r; reflexivity.
Qed.

Lemma slice_to_slice_to (n m : nat) (s : string) :
  n <= m -> Py.slice_to n (Py.slice_to m s) = Py.slice_to n s.
Proof.
  unfold Py.slice_to. revert m s.
  induction n as [|n IH]; intros [|m] [|a s] Hle; cbn; try reflexivity; try lia.
  rewrite IH by lia. reflexivity.
Qed.

Lemma slice_to_int_nonneg (n : Z) (s : string) :
  (0 <= n)%Z -> slice_to_int n s = Py.slice_to (Z.to_nat n) s.
Proof.
  intros Hn. unfold slice_to_int.
  destruct (Z.ltb_spec n 0); [lia|reflexivity].
Qed.

Lemma slice_to_int_len (n : Z) (s : string) :
  Py.len (slice_to_int n s) <= Py.len s.
Proof.
  unfold slice_to_int. destruct (n <? 0)%Z; rewrite slice_to_len; lia.
Qed.

Lemma round_half_even_bounds (x shift : Z) :
  (0 <= x)%Z -> (0 <= shift)%Z ->
  (0 <= round_half_even x shift
   /\ round_half_even x shift * 2 ^ shift <= x + 2 ^ shift)%Z.
Proof.
  intros Hx Hs. unfold round_half_even.
  assert (Hd : (0 < 2 ^ shift)%Z) by (apply Z.pow_pos_nonneg; lia).
  pose proof (Z.div_pos x (2 ^ shift) Hx Hd) as Hq.
  pose proof (Z.mul_div_le x (2 ^ shift) Hd) as Hle.
  destruct (_ || _); nia.
Qed.

Lemma round_53_bounds (x : Z) :
  (0 <= x)%Z -> (0 <= round_53 x <= 2 * x)%Z.
Proof.
  intros Hx. unfold round_53.
  destruct (Z.max_spec 0 (Z.log2 x + 1 - 53)) as [[Hlt ->]|[Hle ->]].
  - destruct (round_half_even_bounds x (Z.log2 x + 1 - 53) Hx) as [H0 H1];
      [lia|].
    assert (Hpos : (0 < x)%Z).
    { destruct (Z.eq_dec x 0%Z) as [->|]; [cbn in Hlt; lia|lia]. }
    assert (Hd : (0 < 2 ^ (Z.log2 x + 1 - 53))%Z)
      by (apply Z.pow_pos_nonneg; lia).
    assert (Hpow : (2 ^ (Z.log2 x + 1 - 53) <= x)%Z).
    { transitivity (2 ^ Z.log2 x)%Z.
      - apply Z.pow_le_mono_r; lia.
      - apply Z.log2_spec. exact Hpos. }
    split; [nia|lia].
  - unfold round_half_even. rewrite Z.pow_0_r, Z.mod_1_r, Z.div_1_r.
    change (1 <? 2 * 0)%Z with false. change (2 * 0 =? 1)%Z with false.
    cbn [orb andb]. lia.
Qed.

(** The conversion to [float] succeeds well inside the range of the
    doubles, and keeps the sign. *)
Lemma float_of_int_returns (n : Z) :
  (0 <= n < 2 ^ 1023)%Z ->
  exists f, float_of_int n = Return f /\ (0 <= f)%Z.
Proof.
  intros [H0 Hn]. unfold float_of_int.
  pose proof (round_53_bounds (Z.abs n) (Z.abs_nonneg n)) as [Ha Hb].
  assert (Hlt : (round_53 (Z.abs n) < 2 ^ 1024)%Z).
  { change (2 ^ 1024)%Z with (2 * 2 ^ 1023)%Z. rewrite Z.abs_eq in * by lia. lia. }
  destruct (Z.leb_spec (2 ^ 1024)%Z (round_53 (Z.abs n))) as [Hge|_]; [lia|].
  eexists. split; [reflexivity|].
  apply Z.mul_nonneg_nonneg; [|exact Ha].
  destruct n; cbn; lia.
Qed.

(** When [rfind] has answered [-1] and [max_length] is not negative, the
    comparison is not true. *)
Lemma gt_seven_tenths_absent (max_length : Z) :
  (0 <= max_length)%Z -> gt_seven_tenths (-1)%Z max_length <> Return true.
Proof.
  intros Hm. unfold gt_seven_tenths, float_of_int.
  destruct (2 ^ 1024 <=? _)%Z; [discriminate|].
  intros [= Hlt]. apply Z.ltb_lt in Hlt.
  unfold times_seven_tenths in Hlt.
  pose proof (round_53_bounds (Z.abs max_length) (Z.abs_nonneg _)) as [Ha _].
  set (f := (Z.sgn max_length * round_53 (Z.abs max_length))%Z) in *.
  assert (Hf : (0 <= f)%Z).
  { apply Z.mul_nonneg_nonneg; [|exact Ha]. destruct max_length; cbn; lia. }
  pose proof (round_53_bounds (Z.abs f * seven_tenths)%Z) as [Hp _].
  { apply Z.mul_nonneg_nonneg; [apply Z.abs_nonneg|unfold seven_tenths; lia]. }
  assert (Hs : (0 <= Z.sgn f)%Z) by (destruct f; cbn; lia).
  assert (Hpow : (0 < 2 ^ 53)%Z) by (apply Z.pow_pos_nonneg; lia).
  nia.
Qed.

(** X1. For a [max_length] that is not negative, a summary is the text
    itself when the text fits; otherwise every summary returned is either
    a prefix of the text of at most [max_length] characters that ends with
    a full stop, or the first [max_length] characters followed by three
    dots, and a summary is returned whenever [max_length] is below
    [2^1023], far inside the range of the doubles. *)
Theorem text_summary_shape (text : string) (max_length : Z) :
  (0 <= max_length)%Z ->
  ((Z.of_nat (Py.len text) <= max_length)%Z ->
   get_text_summary text max_length = Return text)
  /\ ((max_length < Z.of_nat (Py.len text))%Z ->
      (forall summary,
         get_text_summary text max_length = Return summary ->
         (exists body,
            summary = body +:+ "."
            /\ String.prefix summary text = true
            /\ (Z.of_nat (Py.len summary) <= max_length)%Z)
         \/ summary = Py.slice_to (Z.to_nat max_length) text +:+ "...")
      /\ ((max_length < 2 ^ 1023)%Z ->
          exists summary, get_text_summary text max_length = Return summary)).
Proof.
  intros Hm. unfold get_text_summary. split.
  - intros Hfit. destruct text as [|a r]; [reflexivity|]. cbn [Py.truthy negb].
    destruct (Z.leb_spec (Z.of_nat (Py.len (String a r))) max_length);
      [reflexivity|lia].
  - intros Hlong. destruct text as [|a r]; [cbn in Hlong; lia|].
    cbn [Py.truthy negb].
    destruct (Z.leb_spec (Z.of_nat (Py.len (String a r))) max_length) as [|_];
      [lia|].
    rewrite (slice_to_int_nonneg max_length) by exact Hm.
    set (text := String a r) in *.
    set (truncated := Py.slice_to (Z.to_nat max_length) text).
    split.
    + intros summary.
      destruct (gt_seven_tenths (rfind "." truncated) max_length)
        as [[|]|e] eqn:Hgt; [| |discriminate].
      * intros [= <-]. left. unfold rfind in *.
        destruct (rfind_char "." truncated) as [i|] eqn:Hfind.
        -- pose proof (rfind_char_lt _ _ _ Hfind) as Hi.
           unfold truncated in Hi. rewrite slice_to_len in Hi.
           rewrite slice_to_int_nonneg by lia.
           replace (Z.to_nat (Z.of_nat i + 1)) with (i + 1) by lia.
           exists (Py.slice_to i truncated).
           split; [apply (rfind_char_slice _ _ _ Hfind)|].
           unfold truncated. rewrite slice_to_slice_to by lia. split.
           ++ apply slice_to_prefix.
           ++ rewrite slice_to_len. lia.
        -- exfalso. exact (gt_seven_tenths_absent max_length Hm Hgt).
      * intros [= <-]. right. reflexivity.
    + intros Hsmall.
      destruct (float_of_int_returns max_length (conj Hm Hsmall))
        as (f & Hf & _).
      unfold gt_seven_tenths. rewrite Hf.
      destruct (_ <? _)%Z; eexists; reflexivity.
Qed.

Lemma text_summary_shape_witness :
  let text := "One. Two. Three and more" in
  get_text_summary text 24%Z = Return text
  /\ (get_text_summary text 11%Z = Return "One. Two."
      /\ exists body, "One. Two." = body +:+ ".")
  /\ get_text_summary text 6%Z = Return "One. T...".
Proof.
  intros text.
  pose proof (text_summary_shape text 24%Z ltac:(lia)) as [Hfit _].
  pose proof (text_summary_shape text 11%Z ltac:(lia)) as [_ Hcut].
  split; [apply Hfit; vm_compute; discriminate|]. split.
  - split; [vm_compute; reflexivity|].
    destruct Hcut as [Hshape _]; [vm_compute; reflexivity|].
    destruct (Hshape "One. Two." ltac:(vm_compute; reflexivity))
      as [(body & Hbody & _)|Hdots].
    + exists body. exact Hbody.
    + vm_compute in Hdots. discriminate.
  - vm_compute. reflexivity.
Defined.

(** X2. A summary is never longer than the text plus the three dots, for
    every [max_length], negative ones included; for a [max_length] that is
    not negative it is never longer than [max_length] plus the three
    dots. *)
Theorem text_summary_length (text : string) (max_length : Z)
    (summary : string) :
  get_text_summary text max_length = Return summary ->
  Py.len summary <= Py.len text + 3
  /\ ((0 <= max_length)%Z ->
      (Z.of_nat (Py.len summary) <= max_length + 3)%Z).
Proof.
  unfold get_text_summary.
  destruct (negb (Py.truthy text)); [intros [= <-]; cbn; lia|].
  destruct (Z.leb_spec (Z.of_nat (Py.len text)) max_length) as [Hfit|Hlong];
    [intros [= <-]; lia|].
  pose proof (slice_to_int_len max_length text) as Hcut.
  destruct (gt_seven_tenths _ max_length) as [[|]|e]; [| |discriminate].
  - intros [= <-].
    pose proof (slice_to_int_len
                  (rfind "." (slice_to_int max_length text) + 1)%Z
                  (slice_to_int max_length text)) as Hcut'.
    split; [lia|]. intros Hm.
    rewrite (slice_to_int_nonneg max_length) in * by exact Hm.
    rewrite slice_to_len in Hcut'. lia.
  - intros [= <-]. rewrite len_app. cbn [Py.len String.length].
    split; [unfold Py.len in *; lia|]. intros Hm.
    rewrite (slice_to_int_nonneg max_length) by exact Hm.
    pose proof (slice_to_len (Z.to_nat max_length) text) as Hl.
    unfold Py.len in *. lia.
Qed.

(** A negative [max_length]: the slice drops the last character, the full
    stop is beyond the (negative) product, and the summary is the sentence.
    A [max_length] of six: six characters and the dots. *)
Lemma text_summary_length_witness :
  (get_text_summary "abc.def" (-1)%Z = Return "abc."
   /\ Py.len "abc." <= Py.len "abc.def" + 3)
  /\ (get_text_summary "One. Two. Three and more" 6%Z = Return "One. T..."
      /\ (Z.of_nat (Py.len "One. T...") <= 6 + 3)%Z).
Proof.
  split.
  - split; [vm_compute; reflexivity|].
    apply (text_summary_length "abc.def" (-1)%Z "abc.").
    vm_compute. reflexivity.
  - split; [vm_compute; reflexivity|].
    apply (text_summary_length "One. Two. Three and more" 6%Z "One. T...");
      [vm_compute; reflexivity|lia].
Defined.

(** ** The extractors on arbitrary input *)

Lemma bounded_len_le (self : TextExtractor) (s : string) :
  Py.len (bounded self s) <= max_text_length self.
Proof.
  unfold bounded.
  destruct (Nat.ltb_spec (max_text_length self) (Py.len s)).
  - rewrite slice_to_len. lia.
  - lia.
Qed.

(** Whatever the items do, a result of the loop is within the limit. *)
Lemma accumulate_len_le (self : TextExtractor)
    (items : list (outcome (option string))) :
  forall (text_parts : list string) (s : string),
    Py.len (Py.join Py.NL text_parts) <= max_text_length self ->
    accumulate self text_parts items = Return s ->
    Py.len s <= max_text_length self.
Proof.
  induction items as [|[part|e] items IH]; intros text_parts s Hinv;
    cbn [accumulate].
  - intros [= <-]. exact Hinv.
  - destruct (Nat.ltb_spec (max_text_length self)
                (Py.len (Py.join Py.NL
                           match part with
                           | Some t => text_parts ++ [t]
                           | None => text_parts
                           end))) as [Hlt|Hle].
    + intros [= <-]. rewrite slice_to_len. lia.
    + apply IH. exact Hle.
  - discriminate.
Qed.

Section AnyInput.
Context `{Libs}.
Variable self : TextExtractor.
Variable disk : gmap string string.
Variable file_path : string.

Lemma accumulate_or_None_len (items : list (outcome (option string)))
    (s : string) :
  or_None (accumulate self [] items) = Some s ->
  Py.len s <= max_text_length self.
Proof.
  destruct (accumulate self [] items) as [s'|e] eqn:Hacc; [|discriminate].
  intros [= <-]. apply (accumulate_len_le self items [] s'); [cbn; lia|exact Hacc].
Qed.

Lemma extract_pdf_len (s : string) :
  _extract_from_pdf self disk file_path = Some s ->
  Py.len s <= max_text_length self.
Proof.
  unfold _extract_from_pdf.
  destruct (open_file disk file_path) as [bytes|]; [|discriminate].
  destruct (PdfReader_pages bytes) as [pages|]; [|discriminate].
  apply accumulate_or_None_len.
Qed.

Lemma extract_docx_len (s : string) :
  _extract_from_docx self disk file_path = Some s ->
  Py.len s <= max_text_length self.
Proof.
  unfold _extract_from_docx.
  destruct (open_file disk file_path) as [bytes|]; [|discriminate].
  destruct (Document_paragraphs bytes) as [paragraphs|]; [|discriminate].
  apply accumulate_or_None_len.
Qed.

Lemma extract_csv_len (s : string) :
  _extract_from_csv self disk file_path = Some s ->
  Py.len s <= max_text_length self.
Proof.
  unfold _extract_from_csv.
  destruct (open_file disk file_path) as [bytes|]; [|discriminate].
  destruct (read_utf8 1024 bytes) as [sample|]; [|discriminate].
  destruct (csv_sniff_delimiter sample) as [delimiter|]; [|discriminate].
  apply accumulate_or_None_len.
Qed.

Lemma extract_txt_len (s : string) :
  _extract_from_txt self disk file_path = Some s ->
  Py.len s <= max_text_length self.
Proof.
  unfold _extract_from_txt.
  destruct (open_file disk file_path) as [bytes|]; [|discriminate].
  destruct (decode_utf8 bytes) as [content|e].
  - intros [= <-]. apply bounded_len_le.
  - destruct (is_UnicodeDecodeError e); [|discriminate].
    intros [= <-]. apply bounded_len_le.
Qed.

Lemma extract_markdown_len (s : string) :
  _extract_from_markdown self disk file_path = Some s ->
  Py.len s <= max_text_length self.
Proof.
  unfold _extract_from_markdown.
  destruct (open_file disk file_path) as [bytes|]; [|discriminate].
  destruct (decode_utf8 bytes) as [content|]; [|discriminate].
  intros [= <-]. apply bounded_len_le.
Qed.

End AnyInput.

(** X3. Whatever the file holds, whatever the parsers do and whatever the
    MIME type is, a text returned by [extract_text] has at most
    [max_text_length] characters. *)
Theorem extract_text_within_limit `{Libs} (self : TextExtractor)
    (disk : gmap string string) (file_path mime_type s : string) :
  extract_text self disk file_path mime_type = Some s ->
  Py.len s <= max_text_length self.
Proof.
  unfold extract_text.
  repeat match goal with
         | |- context [decide (?a = ?b)] => destruct (decide (a = b)) as [_|_]
         end.
  - apply extract_pdf_len.
  - apply extract_docx_len.
  - apply extract_txt_len.
  - apply extract_csv_len.
  - apply extract_markdown_len.
  - apply extract_txt_len.
Qed.

Lemma extract_text_within_limit_witness :
  let disk : gmap string string := <["uploads/n.bin" := "hello world"]> ∅ in
  @extract_text Reference.libs {| max_text_length := 5 |} disk "uploads/n.bin"
    "application/x-unknown" = Some "hello"
  /\ Py.len "hello" <= 5.
Proof.
  intros disk.
  assert (Hrun : @extract_text Reference.libs {| max_text_length := 5 |} disk
                   "uploads/n.bin" "application/x-unknown" = Some "hello")
    by (vm_compute; reflexivity).
  split; [exact Hrun|].
  apply (@extract_text_within_limit Reference.libs {| max_text_length := 5 |}
           disk "uploads/n.bin" "application/x-unknown" "hello" Hrun).
Defined.

(** X4. A path at which nothing is stored yields no text, for every MIME
    type: the error of opening the file is caught in each extractor. *)
Theorem extract_text_missing_file `{Libs} (self : TextExtractor)
    (disk : gmap string string) (file_path mime_type : string) :
  disk !! file_path = None ->
  extract_text self disk file_path mime_type = None.
Proof.
  intros Hmissing.
  assert (Hopen : open_file disk file_path
                  = Raise (OSError ("No such file or directory: " +:+ file_path))).
  { unfold open_file. rewrite Hmissing. reflexivity. }
  unfold extract_text, _extract_from_pdf, _extract_from_docx, _extract_from_txt,
    _extract_from_csv, _extract_from_markdown.
  rewrite Hopen.
  repeat match goal with
         | |- context [decide (?a = ?b)] => destruct (decide (a = b)) as [_|_]
         end; reflexivity.
Qed.

Lemma extract_text_missing_file_witness :
  @extract_text Reference.libs TextExtractor_init ∅ "uploads/gone.pdf"
    "application/pdf" = None
  /\ @extract_text Reference.libs TextExtractor_init ∅ "uploads/gone.csv"
       "text/csv" = None.
Proof.
  split; apply extract_text_missing_file; reflexivity.
Defined.

(** ** Markdown cleaning *)

Section Characters.

Lemma contains_char_cons (c a : ascii) (r : string) :
  Py.contains (char c) (String a r) = Ascii.eqb c a || Py.contains (char c) r.
Proof.
  cbn [Py.contains char String.prefix].
  destruct (ascii_dec c a) as [->|Hne].
  - rewrite Ascii.eqb_refl. destruct r; reflexivity.
  - apply Ascii.eqb_neq in Hne. rewrite Hne. reflexivity.
Qed.

Lemma contains_char_app (c : ascii) (s t : string) :
  Py.contains (char c) (s +:+ t)
  = Py.contains (char c) s || Py.contains (char c) t.
Proof.
  induction s as [|a s IH].
  - rewrite app_empty_l. destruct t; reflexivity.
  - rewrite app_cons, !contains_char_cons, IH, orb_assoc. reflexivity.
Qed.

(** An occurrence of a non-empty string shows its first character. *)
Lemma contains_first_char (c : ascii) (p s : string) :
  Py.contains (String c p) s = true -> Py.contains (char c) s = true.
Proof.
  induction s as [|a r IH]; [discriminate|].
  rewrite contains_char_cons. cbn [Py.contains String.prefix].
  destruct (ascii_dec c a) as [->|Hne].
  - rewrite Ascii.eqb_refl. reflexivity.
  - cbn [orb]. intros Hr. rewrite (IH Hr). apply orb_true_r.
Qed.

Lemma startswith_first_char (c : ascii) (p s : string) :
  Py.startswith (String c p) s = true -> Py.contains (char c) s = true.
Proof.
  intros Hp. apply (contains_first_char c p).
  destruct s; cbn [Py.contains]; unfold Py.startswith in Hp; rewrite Hp;
    reflexivity.
Qed.

Lemma split_nonempty (c : ascii) (s : string) : Py.split c s <> [].
Proof.
  destruct s as [|a r]; cbn [Py.split]; [discriminate|].
  destruct (Ascii.eqb a c); [discriminate|].
  destruct (Py.split c r); discriminate.
Qed.

(** Joining the pieces of a split with the separator gives the text back. *)
Lemma join_split (c : ascii) (s : string) :
  Py.join (char c) (Py.split c s) = s.
Proof.
  induction s as [|a r IH]; [reflexivity|].
  cbn [Py.split]. pose proof (split_nonempty c r) as Hne.
  destruct (Ascii.eqb_spec a c) as [->|Hac].
  - destruct (Py.split c r) as [|h t]; [congruence|].
    rewrite join_cons2, IH. reflexivity.
  - destruct (Py.split c r) as [|h t]; [congruence|].
    destruct t as [|h' t].
    + cbn in IH. cbn. rewrite IH. reflexivity.
    + rewrite join_cons2 in IH. rewrite join_cons2, app_cons, IH. reflexivity.
Qed.

(** A character absent from a text is absent from each of its pieces. *)
Lemma split_without_char (d c : ascii) (s : string) :
  Py.contains (char d) s = false ->
  Forall (fun piece => Py.contains (char d) piece = false) (Py.split c s).
Proof.
  induction s as [|a r IH]; intros Hs.
  - constructor; [reflexivity|constructor].
  - rewrite contains_char_cons in Hs. apply orb_false_iff in Hs as [Hda Hr].
    specialize (IH Hr). cbn [Py.split].
    destruct (Ascii.eqb a c).
    + constructor; [reflexivity|exact IH].
    + destruct (Py.split c r) as [|h t].
      * constructor; [|constructor]. rewrite contains_char_cons, Hda. reflexivity.
      * inversion IH as [|? ? Hh Ht]; subst.
        constructor; [|exact Ht]. rewrite contains_char_cons, Hda, Hh. reflexivity.
Qed.

Lemma join_without_char (d : ascii) (sep : string) (l : list string) :
  Py.contains (char d) sep = false ->
  Forall (fun piece => Py.contains (char d) piece = false) l ->
  Py.contains (char d) (Py.join sep l) = false.
Proof.
  intros Hsep Hl. induction Hl as [|x l Hx Hl IH]; [reflexivity|].
  destruct l as [|y l]; [exact Hx|].
  rewrite join_cons2, !contains_char_app, Hx, Hsep, IH. reflexivity.
Qed.

End Characters.

(** A line without any of the four characters is kept as it is. *)
Lemma clean_line_plain (line : string) :
  Py.contains "#" line = false ->
  Py.contains "`" line = false ->
  Py.contains "*" line = false ->
  Py.contains "[" line = false ->
  clean_line line = Some line.
Proof.
  intros Hhash Htick Hstar Hbracket. unfold clean_line.
  destruct (Py.startswith "#" line) eqn:E1.
  { apply startswith_first_char in E1. unfold char in E1. congruence. }
  destruct (Py.startswith "```" line) eqn:E2.
  { apply startswith_first_char in E2. unfold char in E2. congruence. }
  rewrite Htick.
  destruct (Py.contains "**" line) eqn:E3.
  { apply contains_first_char in E3. unfold char in E3. congruence. }
  rewrite Hstar, Hbracket. reflexivity.
Qed.

(** X5. A text with no hash sign, backtick, asterisk or opening bracket
    passes through [_clean_markdown] unchanged, line breaks included. *)
Theorem clean_markdown_plain_text (content : string) :
  Py.contains "#" content = false ->
  Py.contains "`" content = false ->
  Py.contains "*" content = false ->
  Py.contains "[" content = false ->
  _clean_markdown content = content.
Proof.
  intros Hhash Htick Hstar Hbracket. unfold _clean_markdown.
  pose proof (split_without_char "#" "010" content Hhash) as F1.
  pose proof (split_without_char "`" "010" content Htick) as F2.
  pose proof (split_without_char "*" "010" content Hstar) as F3.
  pose proof (split_without_char "[" "010" content Hbracket) as F4.
  assert (Hkeep : omap clean_line (Py.split "010" content)
                  = Py.split "010" content).
  { induction (Py.split "010" content) as [|line lines IH]; [reflexivity|].
    inversion F1; inversion F2; inversion F3; inversion F4; subst.
    cbn [omap list_omap]. rewrite clean_line_plain by assumption.
    cbn [mbind option_bind]. rewrite IH by assumption. reflexivity. }
  cbv zeta. rewrite Hkeep. apply (join_split "010").
Qed.

Lemma clean_markdown_plain_text_witness :
  let content := "Dear all," +:+ Py.NL +:+ Py.NL +:+ "see you (soon)." +:+ Py.NL in
  _clean_markdown content = content.
Proof.
  intros content. apply clean_markdown_plain_text; vm_compute; reflexivity.
Defined.

Section Removal.

(** Replacing by the empty string adds no character. *)
Lemma replace_from_empty_adds_nothing (d : ascii) (old s : string) :
  forall skip,
    Py.contains (char d) s = false ->
    Py.contains (char d) (Py.replace_from old EmptyString skip s) = false.
Proof.
  induction s as [|a r IH]; intros skip Hs; [reflexivity|].
  rewrite contains_char_cons in Hs. apply orb_false_iff in Hs as [Hda Hr].
  cbn [Py.replace_from]. destruct skip as [|k]; [|apply IH; exact Hr].
  destruct (String.prefix old (String a r)).
  - rewrite app_empty_l. apply IH. exact Hr.
  - rewrite contains_char_cons, Hda. apply IH. exact Hr.
Qed.

(** Replacing a character by the empty string removes it everywhere. *)
Lemma replace_char_removes (c : ascii) (s : string) :
  Py.contains (char c) (Py.replace (char c) EmptyString s) = false.
Proof.
  unfold Py.replace. induction s as [|a r IH]; [reflexivity|].
  cbn [Py.replace_from char String.prefix String.length Nat.sub].
  destruct (ascii_dec c a) as [->|Hne].
  - replace (String.prefix EmptyString r) with true by (destruct r; reflexivity).
    rewrite app_empty_l. exact IH.
  - rewrite contains_char_cons. apply Ascii.eqb_neq in Hne. rewrite Hne. exact IH.
Qed.

Lemma span_until_adds_nothing (d e : ascii) (s b rest : string) :
  Py.span_until e s = Some (b, rest) ->
  Py.contains (char d) s = false ->
  Py.contains (char d) b = false.
Proof.
  revert b. induction s as [|a r IH]; intros b; [discriminate|].
  cbn [Py.span_until]. rewrite contains_char_cons.
  destruct (Ascii.eqb a e).
  - intros [= <- <-] _. reflexivity.
  - destruct (Py.span_until e r) as [[b' rest']|]; [|discriminate].
    intros [= <- <-] Hs. apply orb_false_iff in Hs as [Hda Hr].
    rewrite contains_char_cons, Hda. apply (IH b' eq_refl Hr).
Qed.

Lemma match_link_adds_nothing (d : ascii) (s text : string) (n : nat) :
  Py.match_link s = Some (text, n) ->
  Py.contains (char d) s = false ->
  Py.contains (char d) text = false.
Proof.
  unfold Py.match_link.
  destruct (Py.span_until "]" s) as [[b rest]|] eqn:Hspan; [|discriminate].
  destruct b as [|t ts]; [discriminate|].
  destruct rest as [|p after]; [discriminate|].
  destruct (Ascii.eqb_spec p "("%char) as [->|Hp].
  - destruct (Py.span_until ")" after) as [[[|u us] rest']|]; try discriminate.
    intros [= <- <-]. apply (span_until_adds_nothing d "]" s _ _ Hspan).
  - intros Habs. exfalso.
    destruct p as [[] [] [] [] [] [] [] []]; try discriminate Habs.
    apply Hp. reflexivity.
Qed.

(** Replacing links by their text adds no character. *)
Lemma re_sub_link_adds_nothing (d : ascii) (s : string) :
  forall skip,
    Py.contains (char d) s = false ->
    Py.contains (char d) (Py.re_sub_link_from skip s) = false.
Proof.
  induction s as [|a r IH]; intros skip Hs; [reflexivity|].
  pose proof Hs as Hs'.
  rewrite contains_char_cons in Hs'. apply orb_false_iff in Hs' as [Hda Hr].
  cbn [Py.re_sub_link_from]. destruct skip as [|k]; [|apply IH; exact Hr].
  destruct (Ascii.eqb a "[").
  - destruct (Py.match_link r) as [[text n]|] eqn:Hm.
    + rewrite contains_char_app, (match_link_adds_nothing d r text n Hm Hr).
      apply IH. exact Hr.
    + rewrite contains_char_cons, Hda. apply IH. exact Hr.
  - rewrite contains_char_cons, Hda. apply IH. exact Hr.
Qed.

End Removal.

(** Outside a heading, a line is kept without any backtick. *)
Lemma clean_line_no_backtick (line out : string) :
  Py.startswith "#" line = false ->
  clean_line line = Some out ->
  Py.contains "`" out = false.
Proof.
  intros Hhead. unfold clean_line. rewrite Hhead.
  destruct (Py.startswith "```" line); [discriminate|].
  destruct (Py.contains "`" line) eqn:Htick.
  { intros [= <-]. apply (replace_char_removes "`"). }
  destruct (Py.contains "**" line || Py.contains "*" line).
  { intros [= <-].
    apply (replace_from_empty_adds_nothing "`"),
          (replace_from_empty_adds_nothing "`"). exact Htick. }
  destruct (Py.contains "[" line && Py.contains "]" line).
  { intros [= <-]. apply (re_sub_link_adds_nothing "`"). exact Htick. }
  intros [= <-]. exact Htick.
Qed.

(** X6. The cleaning of a Markdown text with no hash sign contains no
    backtick: fence lines are dropped and inline code loses its markers,
    whatever else the lines hold. *)
Theorem clean_markdown_no_backtick (content : string) :
  Py.contains "#" content = false ->
  Py.contains "`" (_clean_markdown content) = false.
Proof.
  intros Hhash. unfold _clean_markdown. cbv zeta.
  apply (join_without_char "`" Py.NL); [reflexivity|].
  pose proof (split_without_char "#" "010" content Hhash) as Hlines.
  induction Hlines as [|line lines Hline Hlines IH]; [constructor|].
  cbn [omap list_omap].
  destruct (clean_line line) as [out|] eqn:Hout; cbn [mbind option_bind];
    [|exact IH].
  constructor; [|exact IH].
  apply (clean_line_no_backtick line out); [|exact Hout].
  destruct (Py.startswith "#" line) eqn:Hs; [|reflexivity].
  apply startswith_first_char in Hs. rewrite Hline in Hs. discriminate.
Qed.

Lemma clean_markdown_no_backtick_witness :
  let content :=
    "run `make` and *wait*" +:+ Py.NL +:+ "```sh" +:+ Py.NL +:+ "make `all`"
    +:+ Py.NL +:+ "```" in
  _clean_markdown content = "run make and *wait*" +:+ Py.NL +:+ "make all"
  /\ Py.contains "`" (_clean_markdown content) = false.
Proof.
  intros content. split; [vm_compute; reflexivity|].
  apply clean_markdown_no_backtick. vm_compute. reflexivity.
Defined.

Section Links.

Lemma re_sub_link_no_bracket (s : string) :
  Py.contains "[" s = false -> Py.re_sub_link_from 0 s = s.
Proof.
  induction s as [|a r IH]; [reflexivity|].
  change (Py.contains "[" (String a r)) with (Py.contains (char "[") (String a r)).
  rewrite contains_char_cons. intros Hs. apply orb_false_iff in Hs as [Ha Hr].
  cbn [Py.re_sub_link_from]. rewrite Ascii.eqb_sym, Ha, (IH Hr). reflexivity.
Qed.

Lemma re_sub_link_before (pre rest : string) :
  Py.contains "[" pre = false ->
  Py.re_sub_link_from 0 (pre +:+ rest) = pre +:+ Py.re_sub_link_from 0 rest.
Proof.
  induction pre as [|a r IH]; [reflexivity|].
  change (Py.contains "[" (String a r)) with (Py.contains (char "[") (String a r)).
  rewrite contains_char_cons. intros Hs. apply orb_false_iff in Hs as [Ha Hr].
  rewrite !app_cons. cbn [Py.re_sub_link_from].
  rewrite Ascii.eqb_sym, Ha, (IH Hr). reflexivity.
Qed.

Lemma re_sub_link_skip (x y : string) (k : nat) :
  Py.re_sub_link_from (String.length x + k) (x +:+ y) = Py.re_sub_link_from k y.
Proof.
  induction x as [|a r IH]; [reflexivity|].
  rewrite app_cons. cbn [String.length Nat.add Py.re_sub_link_from]. exact IH.
Qed.

Lemma span_until_found (c : ascii) (b rest : string) :
  Py.contains (char c) b = false ->
  Py.span_until c (b +:+ String c rest) = Some (b, rest).
Proof.
  induction b as [|a r IH].
  - intros _. rewrite app_empty_l. cbn [Py.span_until].
    rewrite Ascii.eqb_refl. reflexivity.
  - rewrite contains_char_cons. intros Hs. apply orb_false_iff in Hs as [Ha Hr].
    rewrite app_cons. cbn [Py.span_until].
    rewrite Ascii.eqb_sym, Ha, (IH Hr). reflexivity.
Qed.

(** The expression matches a link at its opening bracket. *)
Lemma match_link_found (text url post : string) :
  text <> EmptyString -> Py.contains "]" text = false ->
  url <> EmptyString -> Py.contains ")" url = false ->
  Py.match_link (text +:+ String "]" (String "(" (url +:+ String ")" post)))
  = Some (text, 1 + String.length text + 2 + String.length url + 1).
Proof.
  intros Ht Htext Hu Hurl. unfold Py.match_link.
  rewrite (span_until_found "]" text _ Htext).
  destruct text as [|t ts]; [congruence|].
  rewrite (span_until_found ")" url _ Hurl).
  destruct url as [|u us]; [congruence|]. reflexivity.
Qed.

End Links.

(** X7. A link is replaced by its text.  On a line with no hash sign,
    backtick, asterisk or line break that holds one link [[text](url)]
    between two stretches without an opening bracket, the cleaning keeps
    what is before, the text of the link and what is after. *)
Theorem clean_markdown_link (pre text url post : string) :
  let line := pre +:+ "[" +:+ text +:+ "](" +:+ url +:+ ")" +:+ post in
  Py.contains "#" line = false ->
  Py.contains "`" line = false ->
  Py.contains "*" line = false ->
  Py.contains Py.NL line = false ->
  Py.contains "[" pre = false ->
  Py.contains "[" post = false ->
  text <> EmptyString -> Py.contains "]" text = false ->
  url <> EmptyString -> Py.contains ")" url = false ->
  _clean_markdown line = pre +:+ text +:+ post.
Proof.
  intros line Hhash Htick Hstar Hnl Hpre Hpost Ht Htext Hu Hurl.
  assert (Hline : line
          = pre +:+ String "[" (text +:+ String "]" (String "(" (url +:+ String ")" post))))
    by reflexivity.
  assert (Hclean : clean_line line = Some (pre +:+ text +:+ post)).
  { unfold clean_line.
    destruct (Py.startswith "#" line) eqn:E1.
    { apply startswith_first_char in E1. unfold char in E1. congruence. }
    destruct (Py.startswith "```" line) eqn:E2.
    { apply startswith_first_char in E2. unfold char in E2. congruence. }
    rewrite Htick.
    destruct (Py.contains "**" line) eqn:E3.
    { apply contains_first_char in E3. unfold char in E3. congruence. }
    rewrite Hstar. cbn [orb].
    assert (Hopen : Py.contains "[" line = true).
    { rewrite Hline. change "[" with (char "[").
      rewrite contains_char_app, contains_char_cons, Ascii.eqb_refl.
      apply orb_true_r. }
    assert (Hclose : Py.contains "]" line = true).
    { rewrite Hline. change "]" with (char "]").
      rewrite contains_char_app, contains_char_cons, contains_char_app,
        contains_char_cons, Ascii.eqb_refl.
      rewrite !orb_true_r. reflexivity. }
    rewrite Hopen, Hclose. cbn [andb]. f_equal.
    unfold Py.re_sub_link. rewrite Hline, (re_sub_link_before pre _ Hpre).
    f_equal. cbn [Py.re_sub_link_from]. rewrite Ascii.eqb_refl.
    rewrite (match_link_found text url post Ht Htext Hu Hurl).
    f_equal.
    replace (1 + String.length text + 2 + String.length url + 1 - 1)
      with (String.length text + (2 + (String.length url + 1))) by lia.
    rewrite re_sub_link_skip. cbn [Nat.add Py.re_sub_link_from].
    rewrite re_sub_link_skip. cbn [Py.re_sub_link_from].
    apply (re_sub_link_no_bracket post Hpost). }
  unfold _clean_markdown. cbv zeta.
  assert (Hsplit : Py.split "010" line = [line]).
  { clear - Hnl. change Py.NL with (char "010") in Hnl.
    induction line as [|a r IH]; [reflexivity|].
    rewrite contains_char_cons in Hnl. apply orb_false_iff in Hnl as [Ha Hr].
    cbn [Py.split]. rewrite Ascii.eqb_sym, Ha, (IH Hr). reflexivity. }
  rewrite Hsplit. cbn [omap list_omap]. rewrite Hclean. reflexivity.
Qed.

Lemma clean_markdown_link_witness :
  _clean_markdown "see [the guide](https://example.org/g) first"
  = "see the guide first".
Proof.
  apply (clean_markdown_link "see " "the guide" "https://example.org/g" " first");
    try (vm_compute; reflexivity); discriminate.
Defined.

(** ** Successful uploads *)

Section UploadSuccess.
Context `{Libs}.
Variable self : FileService.
Variable env : Env.

(** What a normal return of [process_file] tells: the last commit stored
    the record as returned, in a terminal status. *)
Lemma process_file_return_inv (r : File) (w : World) (r' : File) (w' : World) :
  process_file self env (r, w) = (Return tt, (r', w')) ->
  rows w' = <[id r := r']> (rows w)
  /\ disk w' = disk w
  /\ (processing_status r' = completed \/ processing_status r' = failed)
  /\ (exists mid,
        journal w' = journal w ++ mid ++ [r']
        /\ (mid = [] \/ mid = [set_processing_status processing r]))
  /\ (extracted_text r' = extracted_text r
      \/ exists text,
           text_extractor self (disk w) (file_path r) (mime_type r)
           = Return (Some text)
           /\ Py.truthy text = true
           /\ extracted_text r' = Some text).
Proof.
  unfold process_file. run_monad. cbn. case_outcomes.
  all: intros Heq; try discriminate Heq.
  all: injection Heq as <- <-; cbn.
  all: rewrite ?insert_insert_eq.
  all: repeat split; try reflexivity.
  all: try (left; reflexivity).
  all: try (right; reflexivity).
  all: try (exists [set_processing_status processing r];
            rewrite <- ?app_assoc; split; [reflexivity | right; reflexivity]).
  all: try (exists []; split; [reflexivity | left; reflexivity]).
  all: try (right; eexists; repeat split; eassumption).
Qed.

Variable file : UploadFile.
Variable uploaded_by : string.
Variables project_id task_id : option string.

(** A normal return of [upload_file] went through validation, the first
    commit and a normal return of [process_file]. *)
Lemma upload_file_return_inv (w : World) (r' : File) (w' : World) :
  upload_file self env file uploaded_by project_id task_id w = (Return r', w') ->
  exists v,
    validate_file self file = Return v
    /\ commit_created env = Return tt
    /\ process_file self env
         (created_record self env file v uploaded_by project_id task_id w,
          committed
            (created_record self env file v uploaded_by project_id task_id w)
            (saved self env file w))
       = (Return tt, (r', w')).
Proof.
  unfold upload_file, save_file. run_monad.
  destruct (validate_file self file) as [v|e] eqn:Hv; [|discriminate].
  cbn -[process_file new_record stored_path get_file_metadata].
  destruct (commit_created env) as [[]|e] eqn:Hc.
  - match goal with
    | |- context [process_file self env ?x] =>
        change x with
          (created_record self env file v uploaded_by project_id task_id w,
           committed
             (created_record self env file v uploaded_by project_id task_id w)
             (saved self env file w))
    end.
    destruct (process_file self env _) as [[[]|e] [r1 w1]] eqn:Hp.
    + intros [= <- <-]. exists v. repeat split. exact Hp.
    + cbn -[stored_path]. destruct (bool_decide _); cbn -[stored_path].
      * unfold os_remove. destruct (remove_error env _); discriminate.
      * discriminate.
  - cbn -[stored_path]. destruct (bool_decide _); cbn -[stored_path].
    + unfold os_remove. destruct (remove_error env _); discriminate.
    + discriminate.
Qed.

Lemma get_file_metadata_size (w : World) :
  md_file_size
    (get_file_metadata env (saved self env file w) (stored_path self env file))
  = Z.of_nat (String.length (upload_content file)).
Proof.
  unfold get_file_metadata, getsize, _calculate_file_hash.
  rewrite saved_blob.
  destruct (magic_from_file env); [|reflexivity].
  destruct (hash_read_error env); reflexivity.
Qed.

End UploadSuccess.

(** X8. What a successful upload guarantees.  When [upload_file] returns
    a record, the record is in a terminal status and is the row that
    [get_file] finds under its id; the blob store is the old one with the
    uploaded bytes at the stored path; the recorded size is the actual
    number of bytes, whatever size was declared; no other row changed. *)
Theorem upload_success_postconditions `{Libs} (self : FileService) (env : Env)
    (file : UploadFile) (uploaded_by : string)
    (project_id task_id : option string) (w : World) (r' : File) (w' : World) :
  upload_file self env file uploaded_by project_id task_id w = (Return r', w') ->
  get_file w' (row_id env) = Some r'
  /\ id r' = row_id env
  /\ file_path r' = stored_path self env file
  /\ disk w' = <[stored_path self env file := upload_content file]> (disk w)
  /\ file_size r' = Z.of_nat (String.length (upload_content file))
  /\ (processing_status r' = completed \/ processing_status r' = failed)
  /\ rows w' = <[row_id env := r']> (rows w).
Proof.
  intros Hup.
  destruct (upload_file_return_inv self env file uploaded_by project_id task_id
              w r' w' Hup) as (v & Hv & Hc & Hp).
  pose proof (process_file_effect self env
                (created_record self env file v uploaded_by project_id task_id w)
                (committed
                   (created_record self env file v uploaded_by project_id
                      task_id w)
                   (saved self env file w))) as Heff.
  cbv zeta in Heff. rewrite Hp in Heff. cbn [fst snd] in Heff.
  destruct Heff as (Hid & Hpath & _ & Hsize & _ & _).
  destruct (process_file_return_inv self env _ _ _ _ Hp)
    as (Hrows & Hdisk & Hstatus & _ & _).
  cbn [id created_record new_record committed rows] in Hrows, Hid.
  rewrite insert_insert_eq in Hrows.
  repeat split.
  - unfold get_file. rewrite Hrows. apply lookup_insert_eq.
  - exact Hid.
  - exact Hpath.
  - exact Hdisk.
  - rewrite Hsize. apply get_file_metadata_size.
  - exact Hstatus.
  - exact Hrows.
Qed.

Lemma upload_success_postconditions_witness :
  let self := @FileService_init Reference.libs "uploads" in
  let env := calm "tok" "id1" "text/plain" in
  let file := {| upload_filename := Some "hello.txt"; upload_size := Some 3%Z;
                 upload_content := "hello world" |} in
  let res :=
    @upload_file Reference.libs self env file "alice" None None empty_world in
  match fst res with
  | Return r =>
      get_file (snd res) "id1" = Some r
      /\ file_size r = 11%Z
      /\ disk (snd res) !! "uploads/tok.txt" = Some "hello world"
  | Raise _ => False
  end.
Proof.
  intros self env file res.
  destruct res as [[r|e] w'] eqn:Hres; cbn [fst snd].
  - destruct (@upload_success_postconditions Reference.libs self env file
                "alice" None None empty_world r w' Hres)
      as (Hget & _ & _ & Hdisk & Hsize & _).
    repeat split; [exact Hget | exact Hsize |].
    rewrite Hdisk. apply lookup_insert_eq.
  - vm_compute in Hres. discriminate Hres.
Defined.

(** X9. The committed statuses of a successful upload.  The states that a
    successful upload appends to the journal are [pending] first, the
    returned terminal state last, and between them nothing or
    [processing]. *)
Theorem upload_status_sequence `{Libs} (self : FileService) (env : Env)
    (file : UploadFile) (uploaded_by : string)
    (project_id task_id : option string) (w : World) (r' : File) (w' : World) :
  upload_file self env file uploaded_by project_id task_id w = (Return r', w') ->
  exists mid,
    map processing_status (journal w')
    = map processing_status (journal w)
      ++ pending :: mid ++ [processing_status r']
    /\ (mid = [] \/ mid = [processing])
    /\ (processing_status r' = completed \/ processing_status r' = failed).
Proof.
  intros Hup.
  destruct (upload_file_return_inv self env file uploaded_by project_id task_id
              w r' w' Hup) as (v & Hv & Hc & Hp).
  destruct (process_file_return_inv self env _ _ _ _ Hp)
    as (_ & _ & Hstatus & (mid & Hj & Hmid) & _).
  exists (map processing_status mid). split; [|split; [|exact Hstatus]].
  - rewrite Hj. cbn [committed journal].
    rewrite !map_app, <- !app_assoc. reflexivity.
  - destruct Hmid as [-> | ->]; [left|right]; reflexivity.
Qed.

Lemma upload_status_sequence_witness :
  let self := @FileService_init Reference.libs "uploads" in
  let env :=
    {| uuid4 := "tok"; row_id := "id1"; magic_from_file := Return "text/plain";
       hash_read_error := None; commit_created := Return tt;
       commit_processing := Raise (Exception "connection lost");
       commit_completed := Return tt; commit_failed := Return tt;
       remove_error := fun _ => None |} in
  let file := {| upload_filename := Some "hello.txt"; upload_size := Some 3%Z;
                 upload_content := "hello world" |} in
  let res :=
    @upload_file Reference.libs self env file "alice" None None empty_world in
  match fst res with
  | Return r =>
      exists mid,
        map processing_status (journal (snd res))
        = pending :: mid ++ [processing_status r]
        /\ (mid = [] \/ mid = [processing])
        /\ (processing_status r = completed \/ processing_status r = failed)
  | Raise _ => False
  end
  /\ map processing_status (journal (snd res)) = ["pending"; "failed"].
Proof.
  intros self env file res. split; [|vm_compute; reflexivity].
  destruct res as [[r|e] w'] eqn:Hres; cbn [fst snd].
  - apply (@upload_status_sequence Reference.libs self env file
             "alice" None None empty_world r w' Hres).
  - vm_compute in Hres. discriminate Hres.
Defined.

(** ** Failed uploads *)

(** X10. A refused first commit is rolled back.  When the commit of the
    new row raises and the blob can be removed, [upload_file] raises the
    error 500 that quotes the cause and removes the blob it wrote: with a
    stored path that was free, the blob store, the record store and the
    journal are exactly as before the call. *)
Theorem refused_commit_is_rolled_back `{Libs} (self : FileService) (env : Env)
    (file : UploadFile) (uploaded_by : string)
    (project_id task_id : option string) (w : World) (v : Validation)
    (e : exn) :
  validate_file self file = Return v ->
  commit_created env = Raise e ->
  remove_error env (stored_path self env file) = None ->
  disk w !! stored_path self env file = None ->
  upload_file self env file uploaded_by project_id task_id w
  = (Raise (HTTPException 500 ("File upload failed: " +:+ str_exn e)), w).
Proof.
  intros Hv Hc Hrm Hfree. unfold upload_file, save_file. run_monad.
  rewrite Hv. cbn -[stored_path get_file_metadata process_file].
  rewrite Hc. cbn -[stored_path].
  rewrite bool_decide_eq_true_2
    by (rewrite lookup_insert_eq; eexists; reflexivity).
  unfold os_remove. rewrite Hrm. cbn -[stored_path].
  rewrite (delete_insert_id _ _ _ Hfree). destruct w. reflexivity.
Qed.

Lemma refused_commit_is_rolled_back_witness :
  let self := @FileService_init Reference.libs "uploads" in
  let env :=
    {| uuid4 := "tok"; row_id := "id1"; magic_from_file := Return "text/plain";
       hash_read_error := None;
       commit_created := Raise (Exception "connection refused");
       commit_processing := Return tt; commit_completed := Return tt;
       commit_failed := Return tt; remove_error := fun _ => None |} in
  let file := {| upload_filename := Some "hello.txt"; upload_size := Some 11%Z;
                 upload_content := "hello world" |} in
  @upload_file Reference.libs self env file "alice" None None empty_world
  = (Raise (HTTPException 500 "File upload failed: connection refused"),
     empty_world).
Proof.
  intros self env file.
  apply (@refused_commit_is_rolled_back Reference.libs self env file "alice"
           None None empty_world
           {| v_secure_filename := "hello.txt"; v_file_type := "document";
              v_extension := ".txt" |} (Exception "connection refused"));
    vm_compute; reflexivity.
Defined.

(** X11. A row can outlive its blob.  When the row was committed but both
    the commit of [processing] and the commit in the error handler of
    [process_file] raise, [upload_file] raises the error 500, removes the
    blob, and the row stays in the record store in status [pending]. *)
Theorem failed_processing_leaves_pending_row `{Libs} (self : FileService)
    (env : Env) (file : UploadFile) (uploaded_by : string)
    (project_id task_id : option string) (w : World) (v : Validation)
    (e1 e2 : exn) :
  validate_file self file = Return v ->
  commit_created env = Return tt ->
  commit_processing env = Raise e1 ->
  commit_failed env = Raise e2 ->
  remove_error env (stored_path self env file) = None ->
  let r := created_record self env file v uploaded_by project_id task_id w in
  exists w',
    upload_file self env file uploaded_by project_id task_id w
    = (Raise (HTTPException 500 ("File upload failed: " +:+ str_exn e2)), w')
    /\ get_file w' (row_id env) = Some r
    /\ processing_status r = pending
    /\ disk w' !! file_path r = None.
Proof.
  intros Hv Hc0 Hc1 Hc3 Hrm r.
  unfold upload_file, save_file, process_file. run_monad.
  rewrite Hv. cbn -[stored_path get_file_metadata new_record].
  rewrite Hc0. cbn -[stored_path get_file_metadata new_record].
  rewrite Hc1. cbn -[stored_path get_file_metadata new_record].
  rewrite Hc3. cbn -[stored_path get_file_metadata new_record].
  rewrite bool_decide_eq_true_2
    by (rewrite lookup_insert_eq; eexists; reflexivity).
  unfold os_remove. rewrite Hrm. cbn -[stored_path get_file_metadata new_record].
  eexists. split; [reflexivity|]. repeat split.
  - unfold get_file. cbn -[stored_path get_file_metadata]. apply lookup_insert_eq.
  - cbn -[stored_path get_file_metadata]. apply lookup_delete_eq.
Qed.

Lemma failed_processing_leaves_pending_row_witness :
  let self := @FileService_init Reference.libs "uploads" in
  let env :=
    {| uuid4 := "tok"; row_id := "id1"; magic_from_file := Return "text/plain";
       hash_read_error := None; commit_created := Return tt;
       commit_processing := Raise (Exception "connection lost");
       commit_completed := Return tt;
       commit_failed := Raise (Exception "connection still lost");
       remove_error := fun _ => None |} in
  let file := {| upload_filename := Some "hello.txt"; upload_size := Some 11%Z;
                 upload_content := "hello world" |} in
  exists w',
    @upload_file Reference.libs self env file "alice" None None empty_world
    = (Raise (HTTPException 500 "File upload failed: connection still lost"), w')
    /\ (processing_status <$> get_file w' "id1") = Some "pending"
    /\ disk w' !! "uploads/tok.txt" = None.
Proof.
  intros self env file.
  destruct (@failed_processing_leaves_pending_row Reference.libs self env file
              "alice" None None empty_world
              {| v_secure_filename := "hello.txt"; v_file_type := "document";
                 v_extension := ".txt" |}
              (Exception "connection lost") (Exception "connection still lost"))
    as (w' & Hup & Hget & Hst & Hblob); try (vm_compute; reflexivity).
  exists w'. split; [exact Hup|]. split.
  - change (processing_status <$> get_file w' (row_id env) = Some "pending").
    rewrite Hget. reflexivity.
  - exact Hblob.
Defined.

(** ** Deletion *)

(** X12. Deleting a record.  For an id that has no row, [delete_file]
    answers [False] and changes nothing.  For an id that has a row, when the
    removal of the blob and the commit succeed, it answers [True]; afterwards
    [get_file] finds nothing under the id and the blob is gone, while every
    other row and every other blob is as before. *)
Theorem delete_file_effect (env : Env) (file_id : string) (w : World) :
  (forall c, get_file w file_id = None ->
             delete_file env c file_id w = (Return false, w))
  /\ (forall f,
        get_file w file_id = Some f ->
        remove_error env (file_path f) = None ->
        exists w',
          delete_file env (Return tt) file_id w = (Return true, w')
          /\ get_file w' file_id = None
          /\ disk w' !! file_path f = None
          /\ (forall j, j <> file_id -> get_file w' j = get_file w j)
          /\ (forall p, p <> file_path f -> disk w' !! p = disk w !! p)).
Proof.
  split.
  - intros c Hnone. unfold delete_file. run_monad. rewrite Hnone. reflexivity.
  - intros f Hsome Hrm. unfold delete_file. run_monad. rewrite Hsome.
    destruct (bool_decide (is_Some (disk w !! file_path f))) eqn:Hex.
    + unfold os_remove. rewrite Hrm. cbn.
      eexists. split; [reflexivity|]. unfold get_file. cbn. repeat split.
      * apply lookup_delete_eq.
      * apply lookup_delete_eq.
      * intros j Hj. apply lookup_delete_ne. congruence.
      * intros p Hp. apply lookup_delete_ne. congruence.
    + cbn. eexists. split; [reflexivity|]. unfold get_file. cbn. repeat split.
      * apply lookup_delete_eq.
      * apply bool_decide_eq_false_1 in Hex.
        destruct (disk w !! file_path f) eqn:Hd; [|reflexivity].
        exfalso. apply Hex. eexists. reflexivity.
      * intros j Hj. apply lookup_delete_ne. congruence.
Qed.

Lemma delete_file_effect_witness :
  let f := sample_record "id1" "uploads/a.pdf" "completed" in
  let g := sample_record "id2" "uploads/b.pdf" "completed" in
  let w := {| disk := <["uploads/a.pdf" := "A"]> (<["uploads/b.pdf" := "B"]> ∅);
              rows := <["id1" := f]> (<["id2" := g]> ∅);
              journal := [f; g] |} in
  let env := calm "tok" "id3" "text/plain" in
  delete_file env (Return tt) "id9" w = (Return false, w)
  /\ exists w',
       delete_file env (Return tt) "id1" w = (Return true, w')
       /\ get_file w' "id1" = None
       /\ disk w' !! "uploads/a.pdf" = None
       /\ get_file w' "id2" = Some g
       /\ disk w' !! "uploads/b.pdf" = Some "B".
Proof.
  intros f g w env.
  destruct (delete_file_effect env "id9" w) as [Hmiss _].
  destruct (delete_file_effect env "id1" w) as [_ Hhit].
  split; [apply Hmiss; vm_compute; reflexivity|].
  destruct (Hhit f) as (w' & Hdel & Hget & Hblob & Hrows & Hdisk);
    try (vm_compute; reflexivity).
  exists w'. repeat split; [exact Hdel | exact Hget | exact Hblob | |].
  - rewrite Hrows by discriminate. vm_compute. reflexivity.
  - rewrite Hdisk by discriminate. vm_compute. reflexivity.
Defined.

(** X13. Failures while deleting.  When the removal of the blob raises,
    the error leaves [delete_file] and nothing has changed.  When the blob
    was removed and the commit raises, the error leaves [delete_file] with
    the row still in the record store and its blob gone. *)
Theorem delete_file_failures (env : Env) (file_id : string) (w : World)
    (f : File) (content : string) (e : exn) :
  get_file w file_id = Some f ->
  disk w !! file_path f = Some content ->
  (forall c, remove_error env (file_path f) = Some e ->
             delete_file env c file_id w = (Raise e, w))
  /\ (remove_error env (file_path f) = None ->
      exists w',
        delete_file env (Raise e) file_id w = (Raise e, w')
        /\ get_file w' file_id = Some f
        /\ disk w' !! file_path f = None).
Proof.
  intros Hsome Hblob.
  assert (Hex : bool_decide (is_Some (disk w !! file_path f)) = true).
  { apply bool_decide_eq_true_2. rewrite Hblob. eexists. reflexivity. }
  split.
  - intros c Hrm. unfold delete_file. run_monad. rewrite Hsome, Hex.
    unfold os_remove. rewrite Hrm. reflexivity.
  - intros Hrm. unfold delete_file. run_monad. rewrite Hsome, Hex.
    unfold os_remove. rewrite Hrm. cbn.
    eexists. split; [reflexivity|]. split.
    + exact Hsome.
    + cbn. apply lookup_delete_eq.
Qed.

Lemma delete_file_failures_witness :
  let f := sample_record "id1" "uploads/a.pdf" "completed" in
  let w := {| disk := <["uploads/a.pdf" := "A"]> ∅;
              rows := <["id1" := f]> ∅;
              journal := [f] |} in
  let env := calm "tok" "id3" "text/plain" in
  exists w',
    delete_file env (Raise (Exception "connection lost")) "id1" w
    = (Raise (Exception "connection lost"), w')
    /\ get_file w' "id1" = Some f
    /\ disk w' !! "uploads/a.pdf" = None.
Proof.
  intros f w env.
  destruct (delete_file_failures env "id1" w f "A" (Exception "connection lost"))
    as [_ Hcommit]; try (vm_compute; reflexivity).
  apply Hcommit. reflexivity.
Defined.

(** ** How the operations compose *)

Section Composition.
Context `{Libs}.
Variable self : FileService.
Variable env : Env.
Variable file : UploadFile.
Variable uploaded_by : string.
Variables project_id task_id : option string.

(** The two stores after a successful upload. *)
Lemma upload_return_stores (w : World) (r' : File) (w' : World) :
  upload_file self env file uploaded_by project_id task_id w = (Return r', w') ->
  rows w' = <[row_id env := r']> (rows w)
  /\ disk w' = <[stored_path self env file := upload_content file]> (disk w)
  /\ file_path r' = stored_path self env file.
Proof.
  intros Hup.
  destruct (upload_file_return_inv self env file uploaded_by project_id task_id
              w r' w' Hup) as (v & Hv & Hc & Hp).
  pose proof (process_file_effect self env
                (created_record self env file v uploaded_by project_id task_id w)
                (committed
                   (created_record self env file v uploaded_by project_id
                      task_id w)
                   (saved self env file w))) as Heff.
  cbv zeta in Heff. rewrite Hp in Heff. cbn [fst snd] in Heff.
  destruct Heff as (_ & Hpath & _).
  destruct (process_file_return_inv self env _ _ _ _ Hp)
    as (Hrows & Hdisk & _).
  cbn [id created_record new_record committed rows] in Hrows.
  rewrite insert_insert_eq in Hrows.
  split; [exact Hrows|]. split; [exact Hdisk | exact Hpath].
Qed.

End Composition.

(** X14. Upload, then delete.  After a successful upload to a free path
    under a free id, deleting the record by its id answers [True] and gives
    back the blob store and the record store of before the upload. *)
Theorem upload_then_delete `{Libs} (self : FileService) (env env' : Env)
    (file : UploadFile) (uploaded_by : string)
    (project_id task_id : option string) (w : World) (r' : File) (w' : World) :
  upload_file self env file uploaded_by project_id task_id w = (Return r', w') ->
  disk w !! stored_path self env file = None ->
  rows w !! row_id env = None ->
  remove_error env' (stored_path self env file) = None ->
  exists w'',
    delete_file env' (Return tt) (row_id env) w' = (Return true, w'')
    /\ disk w'' = disk w
    /\ rows w'' = rows w.
Proof.
  intros Hup Hfree Hid Hrm.
  destruct (upload_return_stores self env file uploaded_by project_id task_id
              w r' w' Hup) as (Hrows & Hdisk & Hpath).
  unfold delete_file, get_file. run_monad.
  rewrite Hrows, lookup_insert_eq, Hpath, Hdisk.
  rewrite bool_decide_eq_true_2
    by (rewrite lookup_insert_eq; eexists; reflexivity).
  unfold os_remove. rewrite Hrm. cbn -[stored_path].
  eexists. split; [reflexivity|]. cbn -[stored_path].
  rewrite Hdisk, Hrows.
  rewrite (delete_insert_id _ _ _ Hfree), (delete_insert_id _ _ _ Hid).
  split; reflexivity.
Qed.

Lemma upload_then_delete_witness :
  let self := @FileService_init Reference.libs "uploads" in
  let env := calm "tok" "id1" "text/plain" in
  let file := {| upload_filename := Some "hello.txt"; upload_size := Some 11%Z;
                 upload_content := "hello world" |} in
  let res :=
    @upload_file Reference.libs self env file "alice" None None empty_world in
  exists w'',
    delete_file env (Return tt) "id1" (snd res) = (Return true, w'')
    /\ disk w'' = ∅
    /\ rows w'' = ∅.
Proof.
  intros self env file res.
  destruct res as [[r|e] w'] eqn:Hres; cbn [fst snd].
  - apply (@upload_then_delete Reference.libs self env env file "alice" None
             None empty_world r w' Hres); reflexivity.
  - vm_compute in Hres. discriminate Hres.
Defined.

(** ** More on reconciliation *)

Lemma remove_all_removed (env : Env) (l : list string) :
  forall (d : gmap string string) (p : string),
    (forall q, q ∈ l -> remove_error env q = None) ->
    p ∈ l -> remove_all env l d !! p = None.
Proof.
  induction l as [|q l IH]; intros d p Hok Hin.
  - apply elem_of_nil in Hin. contradiction.
  - cbn [remove_all]. rewrite (Hok q) by (apply elem_of_cons; left; reflexivity).
    destruct (decide (p ∈ l)) as [Hl|Hl].
    + apply IH; [|exact Hl].
      intros q' Hq'. apply Hok. apply elem_of_cons. right. exact Hq'.
    + apply elem_of_cons in Hin as [->|Hin]; [|contradiction].
      rewrite remove_all_other by exact Hl. apply lookup_delete_eq.
Qed.

Lemma remove_all_failing (env : Env) (l : list string) :
  forall d : gmap string string,
    (forall q, q ∈ l -> is_Some (remove_error env q)) ->
    remove_all env l d = d.
Proof.
  induction l as [|q l IH]; intros d Hfail; [reflexivity|].
  cbn [remove_all].
  destruct (Hfail q) as [e ->]; [apply elem_of_cons; left; reflexivity|].
  apply IH. intros q' Hq'. apply Hfail. apply elem_of_cons. right. exact Hq'.
Qed.

(** X15. A cleanup whose removals succeed is complete and final.  Every
    blob left in the store is at the path of a row, and a second cleanup,
    in any environment, removes nothing and answers 0. *)
Theorem cleanup_is_complete (env env' : Env) (w : World) :
  (forall p, p ∈ dom (disk w) ∖ db_paths w -> remove_error env p = None) ->
  let w' := snd (cleanup_orphaned_files env w) in
  (forall p, is_Some (disk w' !! p) -> p ∈ db_paths w')
  /\ cleanup_orphaned_files env' w' = (0, w').
Proof.
  intros Hok w'.
  assert (Hleft : forall p, is_Some (disk w' !! p) -> p ∈ db_paths w').
  { intros p [c Hc]. unfold w', cleanup_orphaned_files in Hc.
    cbn [snd disk set_disk] in Hc. fold (db_paths w) in Hc.
    destruct (decide (p ∈ db_paths w)) as [Hin|Hnot]; [exact Hin|].
    exfalso.
    destruct (remove_all_lookup env (elements (dom (disk w) ∖ db_paths w))
                (disk w) p) as [Heq | [Hnone _]].
    - assert (Horph : p ∈ dom (disk w) ∖ db_paths w).
      { apply elem_of_difference. split; [|exact Hnot].
        apply elem_of_dom. rewrite <- Heq, Hc. eexists. reflexivity. }
      rewrite (remove_all_removed env _ (disk w) p) in Hc; [discriminate| |].
      + intros q Hq. apply Hok. apply elem_of_elements. exact Hq.
      + apply elem_of_elements. exact Horph.
    - rewrite Hnone in Hc. discriminate. }
  split; [exact Hleft|].
  assert (Hempty : dom (disk w') ∖ db_paths w' = ∅).
  { apply set_eq. intros p. split; [|intros Hp; apply elem_of_empty in Hp; contradiction].
    intros Hp. apply elem_of_difference in Hp as [Hd Hn].
    exfalso. apply Hn, Hleft. apply elem_of_dom. exact Hd. }
  unfold cleanup_orphaned_files. fold (db_paths w'). rewrite Hempty.
  rewrite size_empty, elements_empty. cbn [remove_all].
  destruct w'. reflexivity.
Qed.

Lemma cleanup_is_complete_witness :
  let f := sample_record "id1" "uploads/a.pdf" "failed" in
  let w := {| disk := <["uploads/a.pdf" := "%PDF"]>
                        (<["uploads/stray.txt" := "stray"]> ∅);
              rows := <["id1" := f]> ∅;
              journal := [f] |} in
  let env := calm "tok" "id2" "text/plain" in
  fst (cleanup_orphaned_files env w) = 1
  /\ cleanup_orphaned_files env (snd (cleanup_orphaned_files env w))
     = (0, snd (cleanup_orphaned_files env w)).
Proof.
  intros f w env. split; [vm_compute; reflexivity|].
  apply (cleanup_is_complete env env w). intros p _. reflexivity.
Defined.

(** X16. The count is of the orphans found, not of the blobs removed.
    When every removal fails, [cleanup_orphaned_files] leaves the world as
    it is and still answers the number of blobs that no row refers to, which
    is positive as soon as there is one. *)
Theorem cleanup_counts_found_orphans (env : Env) (w : World) :
  (forall p, is_Some (remove_error env p)) ->
  cleanup_orphaned_files env w = (size (dom (disk w) ∖ db_paths w), w)
  /\ (forall p, is_Some (disk w !! p) -> p ∉ db_paths w ->
                0 < fst (cleanup_orphaned_files env w)).
Proof.
  intros Hfail.
  assert (Hres : cleanup_orphaned_files env w
                 = (size (dom (disk w) ∖ db_paths w), w)).
  { unfold cleanup_orphaned_files. fold (db_paths w).
    rewrite remove_all_failing by (intros q _; apply Hfail).
    destruct w. reflexivity. }
  split; [exact Hres|].
  intros p Hp Hnot. rewrite Hres. cbn [fst].
  assert (Hin : p ∈ dom (disk w) ∖ db_paths w).
  { apply elem_of_difference. split; [apply elem_of_dom; exact Hp|exact Hnot]. }
  destruct (size (dom (disk w) ∖ db_paths w)) eqn:Hsize; [|lia].
  apply size_empty_inv in Hsize. exfalso.
  apply (not_elem_of_empty (C:=gset string) p). rewrite <- Hsize. exact Hin.
Qed.

Lemma cleanup_counts_found_orphans_witness :
  let w := {| disk := <["uploads/stray.txt" := "stray"]> ∅;
              rows := ∅; journal := [] |} in
  let env :=
    {| uuid4 := "tok"; row_id := "id1"; magic_from_file := Return "text/plain";
       hash_read_error := None; commit_created := Return tt;
       commit_processing := Return tt; commit_completed := Return tt;
       commit_failed := Return tt;
       remove_error := fun _ => Some (OSError "Permission denied") |} in
  cleanup_orphaned_files env w = (1, w).
Proof.
  intros w env.
  destruct (cleanup_counts_found_orphans env w) as [Hres _].
  - intros p. eexists. reflexivity.
  - rewrite Hres. vm_compute. reflexivity.
Defined.

(** X17. Reconciliation after an upload.  The blob of a successfully
    uploaded file survives a cleanup run right after the upload, whatever
    removals that run performs. *)
Theorem cleanup_keeps_uploaded_blob `{Libs} (self : FileService)
    (env env' : Env) (file : UploadFile) (uploaded_by : string)
    (project_id task_id : option string) (w : World) (r' : File) (w' : World) :
  upload_file self env file uploaded_by project_id task_id w = (Return r', w') ->
  disk (snd (cleanup_orphaned_files env' w')) !! file_path r'
  = Some (upload_content file).
Proof.
  intros Hup.
  destruct (upload_return_stores self env file uploaded_by project_id task_id
              w r' w' Hup) as (Hrows & Hdisk & Hpath).
  unfold cleanup_orphaned_files. cbn [snd disk set_disk].
  rewrite remove_all_other.
  - rewrite Hdisk, Hpath. apply lookup_insert_eq.
  - intros Hin. apply elem_of_elements, elem_of_difference in Hin as [_ Hnot].
    apply Hnot. apply (referenced_path w' (row_id env) r').
    rewrite Hrows. apply lookup_insert_eq.
Qed.

Lemma cleanup_keeps_uploaded_blob_witness :
  let self := @FileService_init Reference.libs "uploads" in
  let env := calm "tok" "id1" "text/plain" in
  let file := {| upload_filename := Some "hello.txt"; upload_size := Some 11%Z;
                 upload_content := "hello world" |} in
  let w := {| disk := <["uploads/stray.txt" := "stray"]> ∅;
              rows := ∅; journal := [] |} in
  let res := @upload_file Reference.libs self env file "alice" None None w in
  let res' := cleanup_orphaned_files env (snd res) in
  disk (snd res') !! "uploads/tok.txt" = Some "hello world"
  /\ disk (snd res') !! "uploads/stray.txt" = None.
Proof.
  intros self env file w res res'. split; [|vm_compute; reflexivity].
  destruct res as [[r|e] w'] eqn:Hres.
  - pose proof (@cleanup_keeps_uploaded_blob Reference.libs self env env file
                  "alice" None None w r w' Hres) as Hkept.
    assert (Hpath : file_path r = "uploads/tok.txt").
    { vm_compute in Hres. injection Hres as <- _. reflexivity. }
    rewrite Hpath in Hkept. exact Hkept.
  - vm_compute in Hres. discriminate Hres.
Defined.

(** ** Intake, once more *)

Lemma first_category_sound (ext : string) (items : list (string * list string))
    (file_type : string) :
  first_category ext items = Some file_type ->
  exists extensions, (file_type, extensions) ∈ items /\ ext ∈ extensions.
Proof.
  induction items as [|[t exts] items IH]; [discriminate|].
  cbn [first_category]. destruct (bool_decide (ext ∈ exts)) eqn:Hin.
  - intros [= <-]. exists exts. split.
    + apply elem_of_cons. left. reflexivity.
    + apply bool_decide_eq_true_1 in Hin. exact Hin.
  - intros Hrest. destruct (IH Hrest) as (extensions & Hi & He).
    exists extensions. split; [|exact He]. apply elem_of_cons. right. exact Hi.
Qed.

Lemma first_category_complete (ext : string)
    (items : list (string * list string)) :
  ext ∈ all_allowed_of items -> is_Some (first_category ext items).
Proof.
  unfold all_allowed_of. induction items as [|[t exts] items IH].
  - intros Hin. apply elem_of_nil in Hin. contradiction.
  - cbn [map concat snd first_category]. intros Hin.
    destruct (bool_decide (ext ∈ exts)) eqn:Hhere; [eexists; reflexivity|].
    apply bool_decide_eq_false_1 in Hhere.
    apply elem_of_app in Hin as [Hin|Hin]; [contradiction|]. apply IH. exact Hin.
Qed.

(** X18. What an accepted upload satisfies.  When [validate_file] accepts,
    the upload has a non-empty name, the sanitized name is non-empty, the
    extension is the lower-cased suffix of the sanitized name and is listed
    under the category answered (the default category of [get_file_type] is
    never what classifies an accepted file), and a declared size is zero or
    within the limit. *)
Theorem validate_file_accepted `{Libs} (self : FileService) (file : UploadFile)
    (v : Validation) :
  validate_file self file = Return v ->
  (exists name,
     upload_filename file = Some name /\ name <> EmptyString
     /\ v_secure_filename v = secure_filename name)
  /\ v_secure_filename v <> EmptyString
  /\ v_extension v = str_lower (path_suffix (v_secure_filename v))
  /\ (exists extensions,
        (v_file_type v, extensions) ∈ allowed_extensions self
        /\ v_extension v ∈ extensions)
  /\ (forall size, upload_size file = Some size ->
                   size = 0%Z \/ (size <= max_file_size self)%Z).
Proof.
  unfold validate_file, get_file_type.
  destruct (upload_filename file) as [[|c name]|]; try discriminate.
  destruct (match upload_size file with
            | Some size => negb (size =? 0)%Z && (max_file_size self <? size)%Z
            | None => false
            end) eqn:Hsize; [discriminate|].
  destruct (secure_filename (String c name)) as [|c' s] eqn:Hsec; [discriminate|].
  cbn [Py.truthy negb].
  destruct (bool_decide _) eqn:Hext; [|discriminate].
  apply bool_decide_eq_true_1 in Hext. cbn [negb].
  intros [= <-]. cbn [v_secure_filename v_extension v_file_type].
  split; [exists (String c name); repeat split; [discriminate|congruence]|].
  split; [discriminate|]. split; [reflexivity|]. split.
  - destruct (first_category_complete _ _ Hext) as [t Ht]. rewrite Ht.
    apply (first_category_sound _ _ _ Ht).
  - intros size Hs. rewrite Hs in Hsize.
    apply andb_false_iff in Hsize as [Hz|Hm].
    + left. apply negb_false_iff, Z.eqb_eq in Hz. exact Hz.
    + right. apply Z.ltb_ge in Hm. exact Hm.
Qed.

Lemma validate_file_accepted_witness :
  let self := @FileService_init Reference.libs "uploads" in
  let file := {| upload_filename := Some "My Notes.MD"; upload_size := Some 9%Z;
                 upload_content := "# notes" |} in
  exists extensions,
    ("document", extensions) ∈ allowed_extensions self /\ ".md" ∈ extensions.
Proof.
  intros self file.
  apply (@validate_file_accepted Reference.libs self file
           {| v_secure_filename := "MyNotes.MD"; v_file_type := "document";
              v_extension := ".md" |}).
  vm_compute. reflexivity.
Defined.

(** ** Processing, once more *)

Section ProcessingPaths.
Context `{Libs}.
Variable self : FileService.
Variable env : Env.

(** A document whose extractor call returns. *)
Lemma process_file_document_returns (r : File) (w : World)
    (extracted : option string) :
  file_type r = "document" ->
  commit_processing env = Return tt ->
  commit_completed env = Return tt ->
  text_extractor self (disk w) (file_path r) (mime_type r) = Return extracted ->
  let r1 := set_processing_status processing r in
  let r2 := set_processing_status completed (attach_text extracted r1) in
  process_file self env (r, w)
  = (Return tt, (r2, committed r2 (committed r1 w))).
Proof.
  intros Hdoc Hc1 Hc2 Hx. cbv zeta. unfold attach_text.
  unfold process_file. run_monad. cbn.
  rewrite Hc1. cbn. rewrite Hdoc.
  destruct (decide ("document" = "document")) as [_|Hne]; [|congruence].
  rewrite Hx. cbn.
  destruct extracted as [text|]; cbn; [destruct (Py.truthy text); cbn|];
    rewrite Hc2; reflexivity.
Qed.

End ProcessingPaths.

Lemma bounded_truthy (self : TextExtractor) (text : string) :
  0 < max_text_length self ->
  Py.truthy (bounded self text) = Py.truthy text.
Proof.
  intros Hpos. unfold bounded. destruct (_ <? _); [|reflexivity].
  destruct text as [|a r]; [destruct (max_text_length self); reflexivity|].
  destruct (max_text_length self); [lia|reflexivity].
Qed.

(** X19. A plain-text upload, end to end.  For an accepted document that
    is sniffed as [text/plain], hashed without error and decodes as UTF-8,
    with a database that accepts the commits, the service built by
    [__init__] returns the record in status [completed]; its extracted text
    is the decoded content cut at 50,000 characters, or unset when the
    content is empty; its metadata holds the digest of the uploaded bytes. *)
Theorem plain_text_upload `{Libs} (dir : string) (env : Env)
    (file : UploadFile) (uploaded_by : string)
    (project_id task_id : option string) (w : World) (v : Validation)
    (text : string) :
  let self := FileService_init dir in
  validate_file self file = Return v ->
  v_file_type v = "document" ->
  magic_from_file env = Return "text/plain" ->
  hash_read_error env = None ->
  commit_created env = Return tt ->
  commit_processing env = Return tt ->
  commit_completed env = Return tt ->
  decode_utf8 (upload_content file) = Return text ->
  exists r' w',
    upload_file self env file uploaded_by project_id task_id w = (Return r', w')
    /\ processing_status r' = completed
    /\ extracted_text r'
       = (if Py.truthy text then Some (bounded TextExtractor_init text) else None)
    /\ mime_type r' = "text/plain"
    /\ metadata r' !! "hash"
       = Some (VStr (sha256_hexdigest (upload_content file)))
    /\ metadata r' !! "error" = None.
Proof.
  intros self Hv Hdoc Hmagic Hhash Hc0 Hc1 Hc2 Hdec.
  set (r := created_record self env file v uploaded_by project_id task_id w).
  assert (Hmd : get_file_metadata env (saved self env file w)
                  (stored_path self env file)
                = {| md_mime_type := "text/plain";
                     md_file_size := Z.of_nat (String.length (upload_content file));
                     md_hash := Some (sha256_hexdigest (upload_content file));
                     md_error := None |}).
  { unfold get_file_metadata, getsize, _calculate_file_hash.
    rewrite Hmagic, saved_blob, Hhash. reflexivity. }
  assert (Hr : r = new_record env file v (stored_path self env file)
                     {| md_mime_type := "text/plain";
                        md_file_size :=
                          Z.of_nat (String.length (upload_content file));
                        md_hash := Some (sha256_hexdigest (upload_content file));
                        md_error := None |}
                     uploaded_by project_id task_id).
  { unfold r, created_record. rewrite Hmd. reflexivity. }
  assert (Hx : text_extractor self
                 (disk (committed r (saved self env file w)))
                 (file_path r) (mime_type r)
               = Return (Some (bounded TextExtractor_init text))).
  { rewrite Hr. cbn -[stored_path extract_text]. unfold shipped_extractor.
    f_equal. unfold extract_text.
    rewrite decide_False by discriminate. rewrite decide_False by discriminate.
    rewrite decide_True by reflexivity.
    apply (extract_txt_bounded TextExtractor_init _ _ (upload_content file));
      [apply lookup_insert_eq | exact Hdec]. }
  pose proof (process_file_document_returns self env r
                (committed r (saved self env file w)) _ Hdoc Hc1 Hc2 Hx) as Hp.
  cbv zeta in Hp.
  eexists _, _. split.
  - apply (upload_file_processed self env file uploaded_by project_id task_id
             w v _ _ Hv Hc0 Hp).
  - split; [reflexivity|]. split; [|rewrite Hr; repeat split].
    + unfold attach_text.
      rewrite bounded_truthy by (apply Nat.ltb_lt; vm_compute; reflexivity).
      destruct (Py.truthy text); reflexivity.
    + unfold attach_text. destruct (Py.truthy _); reflexivity.
    + unfold attach_text. destruct (Py.truthy _); reflexivity.
    + unfold attach_text. destruct (Py.truthy _); reflexivity.
Qed.

Lemma plain_text_upload_witness :
  let self := @FileService_init Reference.libs "uploads" in
  let env := calm "tok" "id1" "text/plain" in
  let file := {| upload_filename := Some "hello.txt"; upload_size := Some 11%Z;
                 upload_content := "hello world" |} in
  exists r' w',
    @upload_file Reference.libs self env file "alice" None None empty_world
    = (Return r', w')
    /\ processing_status r' = "completed"
    /\ extracted_text r' = Some "hello world".
Proof.
  intros self env file.
  destruct (@plain_text_upload Reference.libs "uploads" env file "alice" None
              None empty_world
              {| v_secure_filename := "hello.txt"; v_file_type := "document";
                 v_extension := ".txt" |} "hello world")
    as (r' & w' & Hup & Hst & Htxt & _); try (vm_compute; reflexivity).
  exists r', w'. split; [exact Hup|]. split; [exact Hst|].
  rewrite Htxt. vm_compute. reflexivity.
Defined.

(** X20. Audio files.  For an audio record the text extractor is not
    consulted.  When the audio processor returns a mapping, the record ends
    [completed] with that mapping merged over its metadata, the audio values
    winning on shared keys, and its extracted text untouched; when the audio
    processor raises, the record ends [failed] with the error's description
    under [processing_error]. *)
Theorem audio_file_processing (self : FileService) (env : Env)
    (r : File) (w : World) :
  file_type r = "audio" ->
  commit_processing env = Return tt ->
  (forall audio_metadata,
     audio_processor self (file_path r) = Return audio_metadata ->
     commit_completed env = Return tt ->
     exists r' w',
       process_file self env (r, w) = (Return tt, (r', w'))
       /\ processing_status r' = completed
       /\ metadata r' = audio_metadata ∪ metadata r
       /\ (forall k x, audio_metadata !! k = Some x -> metadata r' !! k = Some x)
       /\ extracted_text r' = extracted_text r)
  /\ (forall e,
        audio_processor self (file_path r) = Raise e ->
        commit_failed env = Return tt ->
        exists r' w',
          process_file self env (r, w) = (Return tt, (r', w'))
          /\ processing_status r' = failed
          /\ metadata r'
             = <["processing_error" := VStr (str_exn e)]> (metadata r)
          /\ extracted_text r' = extracted_text r).
Proof.
  intros Haudio Hc1. split.
  - intros audio_metadata Ha Hc2.
    unfold process_file. run_monad. cbn. rewrite Hc1. cbn. rewrite Haudio.
    destruct (decide ("audio" = "document")) as [Habs|_]; [discriminate Habs|].
    destruct (decide ("audio" = "audio")) as [_|Hne]; [|congruence].
    rewrite Ha. cbn. rewrite Hc2.
    eexists _, _. split; [reflexivity|]. cbn. repeat split.
    intros k x Hk. apply lookup_union_Some_l. exact Hk.
  - intros e Ha Hc3.
    unfold process_file. run_monad. cbn. rewrite Hc1. cbn. rewrite Haudio.
    destruct (decide ("audio" = "document")) as [Habs|_]; [discriminate Habs|].
    destruct (decide ("audio" = "audio")) as [_|Hne]; [|congruence].
    rewrite Ha. cbn. rewrite Hc3.
    eexists _, _. split; [reflexivity|]. cbn. repeat split.
Qed.

Lemma audio_file_processing_witness :
  let self := @FileService_init Reference.libs "uploads" in
  let env := calm "tok" "id1" "audio/mpeg" in
  let r :=
    set_metadata (<["duration" := VInt 7]> (<["hash" := VStr "3"]> ∅))
      (sample_record "id1" "uploads/a.mp3" "pending") in
  let r0 :=
    {| id := id r; filename := filename r;
       original_filename := original_filename r; file_path := file_path r;
       file_size := file_size r; mime_type := mime_type r; file_type := "audio";
       uploaded_by := uploaded_by r; project_id := None; task_id := None;
       metadata := metadata r; processing_status := processing_status r;
       extracted_text := None |} in
  exists r' w',
    process_file self env (r0, empty_world) = (Return tt, (r', w'))
    /\ metadata r' !! "duration" = Some (VInt 0)
    /\ metadata r' !! "hash" = Some (VStr "3").
Proof.
  intros self env r r0.
  destruct (audio_file_processing self env r0 empty_world)
    as [Hok _]; try reflexivity.
  destruct (Hok (<["duration" := VInt 0]> ∅))
    as (r' & w' & Hp & _ & Hmd & Hwin & _); try reflexivity.
  exists r', w'. split; [exact Hp|]. split.
  - apply Hwin. vm_compute. reflexivity.
  - rewrite Hmd. vm_compute. reflexivity.
Defined.

(** X21. The text stored by the service built by [__init__].  Whenever
    [upload_file] returns a record whose extracted text is set, that text is
    not empty and has at most 50,000 characters. *)
Theorem stored_text_within_limit `{Libs} (dir : string) (env : Env)
    (file : UploadFile) (uploaded_by : string)
    (project_id task_id : option string) (w : World) (r' : File) (w' : World)
    (text : string) :
  upload_file (FileService_init dir) env file uploaded_by project_id task_id w
  = (Return r', w') ->
  extracted_text r' = Some text ->
  text <> EmptyString /\ Py.len text <= 50000.
Proof.
  intros Hup Htext.
  destruct (upload_file_return_inv (FileService_init dir) env file uploaded_by
              project_id task_id w r' w' Hup) as (v & Hv & Hc & Hp).
  destruct (process_file_return_inv (FileService_init dir) env _ _ _ _ Hp)
    as (_ & _ & _ & _ & [Hsame | (t & Hx & Htruthy & Hset)]).
  - rewrite Htext in Hsame. discriminate Hsame.
  - rewrite Htext in Hset. injection Hset as <-.
    split; [intros ->; discriminate Htruthy|].
    cbn [text_extractor FileService_init] in Hx. unfold shipped_extractor in Hx.
    injection Hx as Hx. revert Hx.
    change 50000 with (max_text_length TextExtractor_init).
    unfold extract_text.
    repeat match goal with
           | |- context [decide (?a = ?b)] => destruct (decide (a = b)) as [_|_]
           end.
    + apply extract_pdf_len.
    + apply extract_docx_len.
    + apply extract_txt_len.
    + apply extract_csv_len.
    + apply extract_markdown_len.
    + apply extract_txt_len.
Qed.

Lemma stored_text_within_limit_witness :
  let self := @FileService_init Reference.libs "uploads" in
  let env := calm "tok" "id1" "text/csv" in
  let file := {| upload_filename := Some "t.csv"; upload_size := None;
                 upload_content := "a,b" |} in
  let res :=
    @upload_file Reference.libs self env file "alice" None None empty_world in
  match fst res with
  | Return r =>
      extracted_text r = Some "Headers: a, b"
      /\ Py.len "Headers: a, b" <= 50000
  | Raise _ => False
  end.
Proof.
  intros self env file res.
  destruct res as [[r|e] w'] eqn:Hres; cbn [fst snd].
  - assert (Htext : extracted_text r = Some "Headers: a, b").
    { vm_compute in Hres. injection Hres as <- _. reflexivity. }
    split; [exact Htext|].
    apply (@stored_text_within_limit Reference.libs "uploads" env file "alice"
             None None empty_world r w' "Headers: a, b" Hres Htext).
  - vm_compute in Hres. discriminate Hres.
Defined.

(** ** Pages that raise *)

(** The loop on items of which the first ones do not raise: it returns
    at once when their parts exceed the limit, and goes on with the
    remaining items otherwise. *)
Lemma accumulate_app (self : TextExtractor) (opts : list (option string))
    (rest : list (outcome (option string))) :
  forall text_parts : list string,
    Py.len (Py.join Py.NL text_parts) <= max_text_length self ->
    accumulate self text_parts (map Return opts ++ rest)
    = if max_text_length self
         <? Py.len (Py.join Py.NL (text_parts ++ omap (fun o => o) opts))
      then Return (bounded self
                     (Py.join Py.NL (text_parts ++ omap (fun o => o) opts)))
      else accumulate self (text_parts ++ omap (fun o => o) opts) rest.
Proof.
  induction opts as [|o opts IH]; intros text_parts Hinv;
    cbn [map app accumulate omap list_omap].
  - rewrite app_nil_r.
    destruct (Nat.ltb_spec (max_text_length self)
                (Py.len (Py.join Py.NL text_parts))); [lia|reflexivity].
  - destruct o as [t|]; cbn [mbind option_bind].
    + destruct (Nat.ltb_spec (max_text_length self)
                  (Py.len (Py.join Py.NL (text_parts ++ [t])))) as [Hlt|Hle].
      * destruct (join_app_extends Py.NL (text_parts ++ [t])
                    (omap (fun o => o) opts)) as [tail Htail].
        rewrite <- app_assoc in Htail. cbn [app] in Htail.
        rewrite Htail.
        destruct (Nat.ltb_spec (max_text_length self)
                    (Py.len (Py.join Py.NL (text_parts ++ [t]) +:+ tail)))
          as [_|Hno]; [|rewrite len_app in Hno; lia].
        rewrite bounded_large by (rewrite len_app; lia).
        rewrite slice_to_app by lia. reflexivity.
      * rewrite IH by exact Hle. rewrite <- app_assoc. reflexivity.
    + destruct (Nat.ltb_spec (max_text_length self)
                  (Py.len (Py.join Py.NL text_parts))) as [Hlt|Hle]; [lia|].
      apply IH. exact Hinv.
Qed.

(** X22. A PDF page that raises.  When a page raises after pages whose
    text already exceeds the limit, the extraction is the cut text of those
    pages, whatever follows; when it raises before the limit is exceeded,
    the whole extraction is lost, the text of the earlier pages included. *)
Theorem pdf_page_failure `{Libs} (self : TextExtractor)
    (disk : gmap string string) (file_path bytes : string)
    (page_texts : list string) (e : exn) (later : list (outcome string)) :
  disk !! file_path = Some bytes ->
  PdfReader_pages bytes = Return (map Return page_texts ++ Raise e :: later) ->
  (max_text_length self < Py.len (pdf_full_text page_texts) ->
   _extract_from_pdf self disk file_path
   = Some (Py.slice_to (max_text_length self) (pdf_full_text page_texts)))
  /\ (Py.len (pdf_full_text page_texts) <= max_text_length self ->
      _extract_from_pdf self disk file_path = None).
Proof.
  intros Hstored Hpages.
  assert (Hrun : _extract_from_pdf self disk file_path
                 = or_None
                     (if max_text_length self <? Py.len (pdf_full_text page_texts)
                      then Return (bounded self (pdf_full_text page_texts))
                      else Raise e)).
  { unfold _extract_from_pdf.
    rewrite (open_file_stored disk file_path bytes Hstored), Hpages.
    rewrite map_app, pdf_items. cbn [map pdf_item].
    rewrite (accumulate_app self _ _ []) by (cbn; lia).
    cbn [app]. rewrite omap_if_filter. fold (pdf_full_text page_texts).
    destruct (_ <? _); reflexivity. }
  rewrite Hrun. split; intros Hlen.
  - destruct (Nat.ltb_spec (max_text_length self)
                (Py.len (pdf_full_text page_texts))); [|lia].
    cbn [or_None]. rewrite bounded_large by exact Hlen. reflexivity.
  - destruct (Nat.ltb_spec (max_text_length self)
                (Py.len (pdf_full_text page_texts))); [lia|reflexivity].
Qed.

Lemma pdf_page_failure_witness :
  let libs : Libs :=
    Build_Libs Reference.decode_utf8 (fun bytes => bytes) Reference.read_utf8
      (fun _ => Return [Return "page one"; Raise (Exception "broken page");
                        Return "page three"])
      Reference.Document_paragraphs Reference.csv_sniff_delimiter
      Reference.csv_reader Reference.secure_filename Reference.path_suffix
      Reference.str_lower Reference.sha256_hexdigest
      Reference.AudioProcessor_get_metadata in
  let disk : gmap string string := <["uploads/r.pdf" := "%PDF"]> ∅ in
  @_extract_from_pdf libs TextExtractor_init disk "uploads/r.pdf" = None
  /\ @_extract_from_pdf libs {| max_text_length := 4 |} disk "uploads/r.pdf"
     = Some "page".
Proof.
  intros libs disk. split.
  - apply (proj2 (@pdf_page_failure libs TextExtractor_init disk "uploads/r.pdf"
                    "%PDF" ["page one"] (Exception "broken page")
                    [Return "page three"] eq_refl eq_refl)).
    apply Nat.leb_le. vm_compute. reflexivity.
  - apply (proj1 (@pdf_page_failure libs {| max_text_length := 4 |} disk
                    "uploads/r.pdf" "%PDF" ["page one"]
                    (Exception "broken page") [Return "page three"]
                    eq_refl eq_refl)).
    vm_compute. lia.
Defined.

(** X23. Uploads do not disturb each other.  After two successful uploads
    that were given different stored paths and different ids, [get_file]
    finds each record as it was returned and each blob holds the bytes of
    its own upload. *)
Theorem uploads_do_not_interfere `{Libs} (self : FileService)
    (env1 env2 : Env) (file1 file2 : UploadFile) (user1 user2 : string)
    (project1 task1 project2 task2 : option string)
    (w w1 w2 : World) (r1 r2 : File) :
  upload_file self env1 file1 user1 project1 task1 w = (Return r1, w1) ->
  upload_file self env2 file2 user2 project2 task2 w1 = (Return r2, w2) ->
  stored_path self env1 file1 <> stored_path self env2 file2 ->
  row_id env1 <> row_id env2 ->
  get_file w2 (row_id env1) = Some r1
  /\ get_file w2 (row_id env2) = Some r2
  /\ disk w2 !! file_path r1 = Some (upload_content file1)
  /\ disk w2 !! file_path r2 = Some (upload_content file2).
Proof.
  intros Hup1 Hup2 Hpaths Hids.
  destruct (upload_return_stores self env1 file1 user1 project1 task1 w r1 w1
              Hup1) as (Hrows1 & Hdisk1 & Hpath1).
  destruct (upload_return_stores self env2 file2 user2 project2 task2 w1 r2 w2
              Hup2) as (Hrows2 & Hdisk2 & Hpath2).
  unfold get_file. rewrite Hrows2, Hdisk2, Hrows1, Hdisk1, Hpath1, Hpath2.
  repeat split.
  - rewrite lookup_insert_ne by congruence. apply lookup_insert_eq.
  - apply lookup_insert_eq.
  - rewrite lookup_insert_ne by congruence. apply lookup_insert_eq.
  - apply lookup_insert_eq.
Qed.

Lemma uploads_do_not_interfere_witness :
  let self := @FileService_init Reference.libs "uploads" in
  let file1 := {| upload_filename := Some "a.txt"; upload_size := None;
                  upload_content := "first" |} in
  let file2 := {| upload_filename := Some "a.txt"; upload_size := None;
                  upload_content := "second" |} in
  let res1 :=
    @upload_file Reference.libs self (calm "t1" "id1" "text/plain") file1
      "alice" None None empty_world in
  let res2 :=
    @upload_file Reference.libs self (calm "t2" "id2" "text/plain") file2
      "bob" None None (snd res1) in
  disk (snd res2) !! "uploads/t1.txt" = Some "first"
  /\ disk (snd res2) !! "uploads/t2.txt" = Some "second"
  /\ (original_filename <$> get_file (snd res2) "id1") = Some "a.txt".
Proof.
  intros self file1 file2 res1 res2.
  let v := eval vm_compute in res1 in
  match v with
  | (Return ?r, ?w) => pose (r1 := r); pose (w1 := w)
  end.
  assert (H1 : res1 = (Return r1, w1)) by (vm_compute; reflexivity).
  let v := eval vm_compute in
    (@upload_file Reference.libs self (calm "t2" "id2" "text/plain") file2
       "bob" None None w1) in
  match v with
  | (Return ?r, ?w) => pose (r2 := r); pose (w2 := w)
  end.
  assert (H2 : res2 = (Return r2, w2)).
  { unfold res2. rewrite H1. vm_compute. reflexivity. }
  assert (H2' : @upload_file Reference.libs self (calm "t2" "id2" "text/plain")
                  file2 "bob" None None w1 = (Return r2, w2))
    by (vm_compute; reflexivity).
  assert (Hpaths : @stored_path Reference.libs self
                     (calm "t1" "id1" "text/plain") file1
                   <> @stored_path Reference.libs self
                        (calm "t2" "id2" "text/plain") file2)
    by (vm_compute; discriminate).
  assert (Hids : row_id (calm "t1" "id1" "text/plain")
                 <> row_id (calm "t2" "id2" "text/plain"))
    by (vm_compute; discriminate).
  destruct (@uploads_do_not_interfere Reference.libs self
              (calm "t1" "id1" "text/plain") (calm "t2" "id2" "text/plain")
              file1 file2 "alice" "bob" None None None None
              empty_world w1 w2 r1 r2 H1 H2' Hpaths Hids)
    as (Hget1 & _ & Hblob1 & Hblob2).
  rewrite H2. cbn [snd]. split; [exact Hblob1|]. split; [exact Hblob2|].
  change (original_filename <$> get_file w2 (row_id (calm "t1" "id1" "text/plain"))
          = Some "a.txt").
  rewrite Hget1. reflexivity.
Defined.

(** ** Listing *)

Lemma elem_of_filter_by (column : File -> option string)
    (value : option string) (query : list File) (f : File) :
  f ∈ filter_by column value query
  <-> f ∈ query /\ (given value = true -> column f = value).
Proof.
  unfold filter_by. destruct (given value).
  - rewrite !list_elem_of_In, filter_In, bool_decide_eq_true. tauto.
  - split; [intros Hin; split; [exact Hin|discriminate]|tauto].
Qed.

(** X24. Listing.  Whatever ordering the database applies, as long as it
    only reorders, [list_files] returns at most [limit] records, each of
    them a stored row that agrees with every filter that was given (a filter
    that is [None] or the empty string is no filter); and with offset 0 and
    a limit that covers the whole table, every stored row that agrees with
    the given filters is returned. *)
Theorem list_files_sound_and_complete (order : list File -> list File)
    (w : World) (project task category uploader : option string)
    (limit offset : nat) :
  (forall l, order l ≡ₚ l) ->
  let agrees f :=
    (given project = true -> project_id f = project)
    /\ (given task = true -> task_id f = task)
    /\ (given category = true -> Some (file_type f) = category)
    /\ (given uploader = true -> Some (uploaded_by f) = uploader) in
  let result := list_files order w project task category uploader limit offset in
  length result <= limit
  /\ (forall f, f ∈ result -> (exists i, rows w !! i = Some f) /\ agrees f)
  /\ (offset = 0 -> size (rows w) <= limit ->
      forall i f, rows w !! i = Some f -> agrees f -> f ∈ result).
Proof.
  intros Hperm agrees result.
  assert (Hmem : forall f,
             f ∈ filter_by (fun f => Some (uploaded_by f)) uploader
                   (filter_by (fun f => Some (file_type f)) category
                      (filter_by task_id task
                         (filter_by project_id project
                            (snd <$> map_to_list (rows w)))))
             <-> (exists i, rows w !! i = Some f) /\ agrees f).
  { intros f. rewrite !elem_of_filter_by, list_elem_of_fmap. unfold agrees.
    split.
    - intros ((((([i g] & -> & Hin) & H1) & H2) & H3) & H4).
      apply elem_of_map_to_list in Hin.
      split; [exists i; exact Hin|tauto].
    - intros ([i Hi] & H1 & H2 & H3 & H4).
      repeat split; try assumption.
      exists (i, f). split; [reflexivity|]. apply elem_of_map_to_list. exact Hi. }
  split; [|split].
  - unfold result, list_files. rewrite length_take. lia.
  - intros f Hin. apply Hmem.
    unfold result, list_files in Hin.
    apply subseteq_take, subseteq_drop in Hin.
    rewrite (Hperm _) in Hin. exact Hin.
  - intros -> Hlimit i f Hrow Hagree.
    unfold result, list_files. rewrite drop_0, take_ge.
    + rewrite (Hperm _). apply Hmem. split; [exists i; exact Hrow|exact Hagree].
    + rewrite (Hperm _).
      assert (Hlen : forall column value (q : list File),
                 length (filter_by column value q) <= length q).
      { intros column value q. unfold filter_by.
        destruct (given value); [apply List.filter_length_le|lia]. }
      etransitivity; [apply Hlen|]. etransitivity; [apply Hlen|].
      etransitivity; [apply Hlen|]. etransitivity; [apply Hlen|].
      rewrite length_fmap, length_map_to_list. exact Hlimit.
Qed.

Lemma list_files_sound_and_complete_witness :
  let f := sample_record "id1" "uploads/a.pdf" "completed" in
  let g := set_metadata ∅ (sample_record "id2" "uploads/b.pdf" "failed") in
  let w := {| disk := ∅; rows := <["id1" := f]> (<["id2" := g]> ∅);
              journal := [f; g] |} in
  let result :=
    list_files (fun l => l) w None (Some EmptyString) (Some "document")
      (Some "alice") 10 0 in
  f ∈ result /\ length result <= 10.
Proof.
  intros f g w result.
  destruct (list_files_sound_and_complete (fun l => l) w None (Some EmptyString)
              (Some "document") (Some "alice") 10 0) as (Hlen & _ & Hall).
  - intros l. reflexivity.
  - split; [|exact Hlen].
    apply (Hall eq_refl) with (i := "id1").
    + vm_compute. lia.
    + vm_compute. reflexivity.
    + repeat split; try discriminate; reflexivity.
Defined.
